(** * Cloud backup console utility: a model of [src/backup.py] and of the
      local storage backend, with the properties of its backup, restore
      and retention paths.

    The Python code is embedded shallowly.  Paths follow [pathlib]'s POSIX
    flavour, patterns follow [fnmatch], the file system is an association
    list from paths to nodes, and methods that perform I/O are functions of
    a small state-and-exception monad over a [World]. *)

From Stdlib Require Import List String Ascii ZArith Lia Bool Arith.
From Stdlib Require Import Permutation Sorted.
From Stdlib Require OrderedTypeEx.
Import ListNotations.
Open Scope string_scope.

(* ================================================================== *)
(** ** Python strings *)

Module PyStr.

(** [s.rfind(c)]: index of the last occurrence of [c], if any. *)
Fixpoint rfind (c : ascii) (s : string) : option nat :=
  match s with
  | EmptyString => None
  | String a t =>
      match rfind c t with
      | Some i => Some (S i)
      | None => if Ascii.eqb a c then Some 0%nat else None
      end
  end.

(** [s[n:]] and [s[:n]]. *)
Fixpoint drop (n : nat) (s : string) : string :=
  match n, s with
  | O, _ => s
  | S _, EmptyString => EmptyString
  | S k, String _ t => drop k t
  end.

Fixpoint take (n : nat) (s : string) : string :=
  match n, s with
  | O, _ => EmptyString
  | S _, EmptyString => EmptyString
  | S k, String a t => String a (take k t)
  end.

(** [c in s]. *)
Fixpoint contains (c : ascii) (s : string) : bool :=
  match s with
  | EmptyString => false
  | String a t => Ascii.eqb a c || contains c t
  end.

(** [s.split('/')]: never empty, the last element is what follows the
    last separator. *)
Fixpoint split (sep : ascii) (s : string) : list string :=
  match s with
  | EmptyString => [EmptyString]
  | String a t =>
      match split sep t with
      | [] => [EmptyString]
      | h :: r => if Ascii.eqb a sep then EmptyString :: h :: r
                  else String a h :: r
      end
  end.

(** [sep.join(l)]. *)
Fixpoint join (sep : string) (l : list string) : string :=
  match l with
  | [] => EmptyString
  | [x] => x
  | x :: r => x ++ sep ++ join sep r
  end.

Definition startswith (p s : string) : bool := String.prefix p s.

(** Decimal rendering of a non-negative number, zero-padded to [w]
    digits, as [strftime] does for its numeric fields. *)
Definition digit (n : Z) : ascii :=
  ascii_of_nat (48 + Z.to_nat (n mod 10)).

Fixpoint digits (w : nat) (n : Z) (acc : string) : string :=
  match w with
  | O => acc
  | S k => digits k (n / 10) (String (digit n) acc)
  end.

Definition zpad (w : nat) (n : Z) : string := digits w n EmptyString.

End PyStr.

(* ================================================================== *)
(** ** [pathlib.PurePosixPath] *)

Module PyPath.

(** A parsed path: the root (empty, one slash, or exactly two) and the
    components, from which pathlib drops empty and [.] ones. *)
Record Path := mkPath { root : string; parts : list string }.

Definition keep_part (s : string) : bool :=
  negb (String.eqb s "" || String.eqb s ".").

Definition parse_root (s : string) : string :=
  if PyStr.startswith "///" s then "/"
  else if PyStr.startswith "//" s then "//"
  else if PyStr.startswith "/" s then "/"
  else "".

(** [Path(s)] *)
Definition parse (s : string) : Path :=
  mkPath (parse_root s) (filter keep_part (PyStr.split "/" s)).

(** [str(p)] *)
Definition str (p : Path) : string :=
  match root p, parts p with
  | EmptyString, [] => "."
  | r, ps => r ++ PyStr.join "/" ps
  end.

(** [p / s]: an absolute right operand replaces the left one. *)
Definition joinpath (p : Path) (s : string) : Path :=
  let q := parse s in
  if String.eqb (root q) "" then mkPath (root p) (parts p ++ parts q)
  else q.

(** [p.name]: the final component, empty when there is none. *)
Definition name (p : Path) : string := last (parts p) "".

(** The suffix of a file name: from the last dot on, unless that dot is
    the first or the last character. *)
Definition name_suffix (nm : string) : string :=
  match PyStr.rfind "." nm with
  | Some i =>
      if (0 <? i)%nat && (i <? String.length nm - 1)%nat
      then PyStr.drop i nm else ""
  | None => ""
  end.

Definition name_stem (nm : string) : string :=
  match PyStr.rfind "." nm with
  | Some i =>
      if (0 <? i)%nat && (i <? String.length nm - 1)%nat
      then PyStr.take i nm else nm
  | None => nm
  end.

(** [p.suffix], [p.stem] *)
Definition suffix (p : Path) : string := name_suffix (name p).
Definition stem (p : Path) : string := name_stem (name p).

(** [p.with_suffix(sfx)]; [None] stands for the [ValueError] pathlib
    raises on an invalid suffix or on a path without a name. *)
Definition with_suffix (p : Path) (sfx : string) : option Path :=
  if PyStr.contains "/" sfx then None
  else if (negb (String.eqb sfx "") && negb (PyStr.startswith "." sfx))
          || String.eqb sfx "." then None
  else if String.eqb (name p) "" then None
  else
    let old := suffix p in
    let nm := name p in
    let base := PyStr.take (String.length nm - String.length old) nm in
    Some (mkPath (root p) (removelast (parts p) ++ [base ++ sfx])).

Fixpoint strip_prefix (pre l : list string) : option (list string) :=
  match pre, l with
  | [], _ => Some l
  | a :: pre', b :: l' =>
      if String.eqb a b then strip_prefix pre' l' else None
  | _ :: _, [] => None
  end.

(** [p.relative_to(base)]; [None] stands for its [ValueError]. *)
Definition relative_to (p base : Path) : option Path :=
  if String.eqb (root p) (root base) then
    match strip_prefix (parts base) (parts p) with
    | Some r => Some (mkPath "" r)
    | None => None
    end
  else None.

(** [p.parent] chain membership: [d] is a proper ancestor of [p]. *)
Definition is_under (d p : Path) : bool :=
  String.eqb (root d) (root p) &&
  match strip_prefix (parts d) (parts p) with
  | Some (_ :: _) => true
  | _ => false
  end.

Definition eqb (p q : Path) : bool :=
  String.eqb (root p) (root q) &&
  if list_eq_dec String.string_dec (parts p) (parts q) then true else false.

End PyPath.

(* ================================================================== *)
(** ** [fnmatch.fnmatch] on POSIX *)

Module Fnmatch.

Inductive item :=
| IChar (c : ascii)
| IRange (lo hi : ascii).

Inductive tok :=
| TStar                                  (* [*]  *)
| TAny                                   (* [?]  *)
| TSet (negated : bool) (items : list item)   (* [[seq]], [[!seq]] *)
| TLit (c : ascii).

(** The members of a bracket expression: a hyphen between two
    characters makes a range, any other character stands for itself. *)
Fixpoint set_items (l : list ascii) : list item :=
  match l with
  | lo :: rest =>
      match rest with
      | "-"%char :: hi :: rest' => IRange lo hi :: set_items rest'
      | _ => IChar lo :: set_items rest
      end
  | [] => []
  end.

Definition mk_set (stuff : list ascii) : tok :=
  match stuff with
  | "!"%char :: s => TSet true (set_items s)
  | s => TSet false (set_items s)
  end.

(** [translate]: one token per pattern element.  After an opening
    bracket an optional [!] and an optional [']'] are skipped, then the
    first [']'] closes the expression; an unclosed bracket is a
    literal. *)
Fixpoint translate (p : list ascii) : list tok :=
  match p with
  | [] => []
  | c :: rest =>
      if Ascii.eqb c "*" then TStar :: translate rest
      else if Ascii.eqb c "?" then TAny :: translate rest
      else if Ascii.eqb c "[" then
        let close :=
          (fix scan (q : list ascii) (acc : list ascii) (skip : nat)
             : option (list tok) :=
             match q with
             | [] => None
             | d :: q' =>
                 match skip with
                 | 2%nat =>
                     if Ascii.eqb d "!" then scan q' (acc ++ [d])%list 1%nat
                     else if Ascii.eqb d "]" then scan q' (acc ++ [d])%list 0%nat
                     else scan q' (acc ++ [d])%list 0%nat
                 | 1%nat => scan q' (acc ++ [d])%list 0%nat
                 | _ =>
                     if Ascii.eqb d "]" then Some (mk_set acc :: translate q')
                     else scan q' (acc ++ [d])%list 0%nat
                 end
             end) rest [] 2%nat in
        match close with
        | Some ts => ts
        | None => TLit c :: translate rest
        end
      else TLit c :: translate rest
  end.

Definition item_has (c : ascii) (i : item) : bool :=
  match i with
  | IChar d => Ascii.eqb c d
  | IRange lo hi =>
      (nat_of_ascii lo <=? nat_of_ascii c)%nat
      && (nat_of_ascii c <=? nat_of_ascii hi)%nat
  end.

Fixpoint tmatch (ts : list tok) (s : list ascii) : bool :=
  match ts with
  | [] => match s with [] => true | _ => false end
  | TStar :: ts' =>
      (fix star (s : list ascii) : bool :=
         tmatch ts' s
         || match s with [] => false | _ :: s' => star s' end) s
  | TAny :: ts' =>
      match s with _ :: s' => tmatch ts' s' | [] => false end
  | TSet neg items :: ts' =>
      match s with
      | c :: s' => xorb neg (existsb (item_has c) items) && tmatch ts' s'
      | [] => false
      end
  | TLit c :: ts' =>
      match s with
      | d :: s' => Ascii.eqb c d && tmatch ts' s'
      | [] => false
      end
  end.

(** [fnmatch(name, pat)]: the whole name must match. *)
Definition fnmatch (name pat : string) : bool :=
  tmatch (translate (list_ascii_of_string pat)) (list_ascii_of_string name).

End Fnmatch.

(* ================================================================== *)
(** ** Exceptions and results *)

Inductive ValueErrorKind :=
| EncryptionNotConfigured     (* raised by [restore_backup] *)
| InvalidSuffix               (* [Path.with_suffix] *)
| NotRelative                 (* [Path.relative_to] *)
| EmptyFilename               (* [ZipFile.extract] *)
| InvalidInitializationOption (* [zlib.compressobj], level outside -1..9 *)
| OpenWritingHandle.          (* [ZipFile.close] while an entry is open *)

Inductive Exc :=
| FileNotFoundError
| FileExistsError
| NotADirectoryError
| IsADirectoryError
| ValueError (kind : ValueErrorKind)
| BadZipFile
| DecryptionError
| TypeError
| KeyError (key : string)
| BackendError (msg : string).

Inductive Result (A : Type) :=
| Ok (a : A)
| Raise (e : Exc).
Arguments Ok {A} a.
Arguments Raise {A} e.

Definition is_raise {A} (r : Result A) : bool :=
  match r with Raise _ => true | Ok _ => false end.

(* ================================================================== *)
(** ** File contents and the file system *)

(** File contents.  A zip container is the ordered list of its entries;
    an encrypted file remembers what was encrypted and how.  Containers
    carry their size on disk, which compression and the cipher decide.
    A zip file its writer gave up holds the local headers of the
    directory entries added until then and no central directory: no
    reader takes it for a zip file. *)
#[warnings="-register-all"]
Inductive Blob :=
| Bytes (b : string)
| ZipArchive (entries : list (string * Blob)) (nbytes : Z)
| Encrypted (password algorithm : string) (plain : Blob) (nbytes : Z)
| Unfinished (directories : list string).

(** A local file header: thirty bytes and the entry name. *)
Definition header_size (entry : string) : Z :=
  30 + Z.of_nat (String.length entry).

Definition blob_size (b : Blob) : Z :=
  match b with
  | Bytes s => Z.of_nat (String.length s)
  | ZipArchive _ n => n
  | Encrypted _ _ _ n => n
  | Unfinished ds => fold_right (fun d n => header_size d + n)%Z 0%Z ds
  end.

Inductive Node :=
| File (content : Blob) (st_ctime : Z)
| Dir (st_size st_ctime : Z).

Definition node_size (n : Node) : Z :=
  match n with File c _ => blob_size c | Dir s _ => s end.
Definition node_ctime (n : Node) : Z :=
  match n with File _ t => t | Dir _ t => t end.

Module FS.
Import PyPath.

(** Directory entries in the order the operating system lists them.
    Paths are looked up as they are written: there are no symbolic links
    and a [..] component is not resolved. *)
Definition t := list (Path * Node).

Fixpoint lookup (fs : t) (p : Path) : option Node :=
  match fs with
  | [] => None
  | (q, n) :: r => if PyPath.eqb q p then Some n else lookup r p
  end.

Definition exists_ (fs : t) (p : Path) : bool :=
  match lookup fs p with Some _ => true | None => false end.

Definition is_file (fs : t) (p : Path) : bool :=
  match lookup fs p with Some (File _ _) => true | _ => false end.

Definition is_dir (fs : t) (p : Path) : bool :=
  match lookup fs p with Some (Dir _ _) => true | _ => false end.

Definition is_child (d p : Path) : bool :=
  String.eqb (root d) (root p) &&
  match strip_prefix (parts d) (parts p) with
  | Some [_] => true
  | _ => false
  end.

(** [d.iterdir()], also [d.glob('*')]: the direct children. *)
Definition iterdir (fs : t) (d : Path) : list Path :=
  map fst (filter (fun e => is_child d (fst e)) fs).

(** The directory [d] and the directories below it down to [depth]
    levels, each before the directories it holds. *)
Fixpoint walk (depth : nat) (fs : t) (d : Path) : list Path :=
  d :: match depth with
       | 0 => []
       | S n => flat_map (walk n fs) (filter (is_dir fs) (iterdir fs d))
       end.

(** [d.rglob('*')]: nothing when [d] is no directory; else the entries
    of [d], then those of every directory below it, a directory's own
    entries before those of the directories it holds.  No directory lies
    deeper than there are entries in the file system. *)
Definition rglob (fs : t) (d : Path) : list Path :=
  if is_dir fs d
  then flat_map (iterdir fs) (walk (List.length fs) fs d)
  else [].

Fixpoint write (fs : t) (p : Path) (n : Node) : t :=
  match fs with
  | [] => [(p, n)]
  | (q, m) :: r =>
      if PyPath.eqb q p then (p, n) :: r else (q, m) :: write r p n
  end.

Fixpoint remove (fs : t) (p : Path) : t :=
  match fs with
  | [] => []
  | (q, m) :: r => if PyPath.eqb q p then remove r p else (q, m) :: remove r p
  end.

(** [shutil.rmtree(d)] *)
Definition remove_tree (fs : t) (d : Path) : t :=
  filter (fun e => negb (PyPath.eqb d (fst e) || is_under d (fst e))) fs.

(** The non-empty prefixes of a component list, shortest first. *)
Fixpoint prefixes (l : list string) : list (list string) :=
  match l with
  | [] => []
  | a :: r => [a] :: map (cons a) (prefixes r)
  end.

(** The path and its ancestors below the root, outermost first. *)
Definition chain (p : Path) : list Path :=
  map (mkPath (root p)) (prefixes (parts p)).

Definition ancestors (p : Path) : list Path :=
  map (mkPath (root p)) (prefixes (removelast (parts p))).

Definition mkdir_if_absent (now : Z) (fs : t) (d : Path) : t :=
  if exists_ fs d then fs else write fs d (Dir 0 now).

(** [os.makedirs(d, exist_ok=True)] *)
Definition makedirs (now : Z) (fs : t) (d : Path) : Result t :=
  if existsb (is_file fs) (chain d) then
    Raise (if is_file fs d then FileExistsError else NotADirectoryError)
  else Ok (fold_left (mkdir_if_absent now) (chain d) fs).

(** [open(p, 'wb').write(content)]: the directory of [p] must exist. *)
Definition open_write (now : Z) (fs : t) (p : Path) (content : Blob)
  : Result t :=
  if existsb (is_file fs) (ancestors p) then Raise NotADirectoryError
  else if existsb (fun a => negb (exists_ fs a)) (ancestors p)
       then Raise FileNotFoundError
  else if is_dir fs p then Raise IsADirectoryError
  else Ok (write fs p (File content now)).

(** The same after creating the missing upper directories, as
    [ZipFile.extract] does. *)
Definition write_file (now : Z) (fs : t) (p : Path) (content : Blob)
  : Result t :=
  if existsb (is_file fs) (ancestors p) then Raise NotADirectoryError
  else if is_dir fs p then Raise IsADirectoryError
  else
    Ok (write (fold_left (mkdir_if_absent now) (ancestors p) fs)
              p (File content now)).

(** [shutil.copy2(src, dst)]: a destination that is a directory
    receives the file under the source's name. *)
Definition copy2 (now : Z) (fs : t) (src dst : Path) : Result t :=
  match lookup fs src with
  | Some (File c _) =>
      let dst' := if is_dir fs dst
                  then mkPath (root dst) (parts dst ++ [name src])
                  else dst in
      open_write now fs dst' c
  | Some (Dir _ _) => Raise IsADirectoryError
  | None => Raise FileNotFoundError
  end.

End FS.

(* ================================================================== *)
(** ** The world the engine runs in *)

(** What a storage backend reports for one backup.  The cloud backends
    report [created_at] as an ISO-8601 string (the object store reports
    none), the local backend as the file's change time, a number of which
    only the order is used. *)
Inductive Stamp :=
| StStr (s : string)
| StNum (t : Z).

Record BackupRecord := mkRecord {
  id : string;
  size : Z;
  created_at : option Stamp
}.

(** The machine's file system, the backend's remote state, the POSIX clock
    and the local time zone's offset from UTC, both in seconds. *)
Record Env (R : Type) := mkEnv {
  e_fs : FS.t;
  e_remote : R;
  e_clock : Z;
  e_utcoffset : Z
}.
Arguments mkEnv {R}.
Arguments e_fs {R}.
Arguments e_remote {R}.
Arguments e_clock {R}.
Arguments e_utcoffset {R}.

Definition set_fs {R} (e : Env R) (fs : FS.t) : Env R :=
  mkEnv fs (e_remote e) (e_clock e) (e_utcoffset e).

(** Calls the engine makes, in order. *)
Inductive Event :=
| EvList
| EvDownload (backup_id : string)
| EvUpload (backup_id : string)
| EvDelete (backup_id : string)
| EvDecrypt (src : PyPath.Path)
| EvLogError (backup_id : string) (e : Exc).

Record World (R : Type) := mkWorld {
  w_env : Env R;
  w_trace : list Event
}.
Arguments mkWorld {R}.
Arguments w_env {R}.
Arguments w_trace {R}.

(** The operations of [BaseStorage] the engine relies on here.  Listing
    is a query in every backend, and every backend builds the list it
    returns afresh, so sorting it in place changes nothing of the
    backend's. *)
Record Backend (R : Type) := mkBackend {
  sb_download : string -> string -> Env R -> Result bool * Env R;
  sb_list_backups : Env R -> Result (list BackupRecord);
  sb_delete : string -> Env R -> Result bool * Env R
}.
Arguments mkBackend {R}.
Arguments sb_download {R}.
Arguments sb_list_backups {R}.
Arguments sb_delete {R}.

(** *** A state and exception monad *)

Definition M (R A : Type) : Type := World R -> Result A * World R.

Definition ret {R A} (a : A) : M R A := fun w => (Ok a, w).
Definition raise {R A} (e : Exc) : M R A := fun w => (Raise e, w).
Definition bind {R A B} (m : M R A) (k : A -> M R B) : M R B :=
  fun w =>
    match m w with
    | (Ok a, w') => k a w'
    | (Raise e, w') => (Raise e, w')
    end.

Declare Scope py_scope.
Delimit Scope py_scope with py.
Notation "x <- m ;; k" := (bind m (fun x => k))
  (at level 100, m at next level, right associativity) : py_scope.
Notation "m ;;; k" := (bind m (fun _ => k))
  (at level 100, right associativity) : py_scope.
Open Scope py_scope.

(** [try: m except Exception as e: h e] *)
Definition try_except {R A} (m : M R A) (h : Exc -> M R A) : M R A :=
  fun w =>
    match m w with
    | (Ok a, w') => (Ok a, w')
    | (Raise e, w') => h e w'
    end.

(** [try: m finally: f] *)
Definition finally {R A} (m : M R A) (f : World R -> World R) : M R A :=
  fun w => let '(r, w') := m w in (r, f w').

Definition log {R} (ev : Event) : M R unit :=
  fun w => (Ok tt, mkWorld (w_env w) (w_trace w ++ [ev])).

Definition get_env {R} : M R (Env R) := fun w => (Ok (w_env w), w).

Definition lift_env {R A} (f : Env R -> Result A * Env R) : M R A :=
  fun w => let '(r, e) := f (w_env w) in (r, mkWorld e (w_trace w)).

Definition lift_fs {R} (f : Z -> FS.t -> Result FS.t) : M R unit :=
  lift_env (fun e =>
    match f (e_clock e) (e_fs e) with
    | Ok fs => (Ok tt, set_fs e fs)
    | Raise x => (Raise x, e)
    end).

Definition of_option {R A} (o : option A) (e : Exc) : M R A :=
  match o with Some a => ret a | None => raise e end.

(* ================================================================== *)
(** ** Python lists: [sort], slices *)

Module PyList.
Section Sorting.
Context {A : Type}.
(** [lt y x]: [y] must come strictly before [x]. *)
Variable lt : A -> A -> bool.

Fixpoint insert (x : A) (l : list A) : list A :=
  match l with
  | [] => [x]
  | y :: r => if lt y x then y :: insert x r else x :: y :: r
  end.

(** The stable sort: elements that compare equal keep their order. *)
Fixpoint stable_sort (l : list A) : list A :=
  match l with
  | [] => []
  | x :: r => insert x (stable_sort r)
  end.
End Sorting.

(** [l[:stop]] for any integer [stop]. *)
Definition slice_to {A} (l : list A) (stop : Z) : list A :=
  let n := Z.of_nat (List.length l) in
  let stop' := if (stop <? 0)%Z then Z.max (stop + n) 0 else Z.min stop n in
  firstn (Z.to_nat stop') l.

Definition same_kind (a b : Stamp) : bool :=
  match a, b with
  | StStr _, StStr _ => true
  | StNum _, StNum _ => true
  | _, _ => false
  end.

(** All keys are strings or all are numbers; comparing a string with a
    number raises [TypeError]. *)
Definition homogeneous (ks : list Stamp) : bool :=
  match ks with
  | [] => true
  | k :: r => forallb (same_kind k) r
  end.

(** [a < b] on keys of one kind. *)
Definition stamp_ltb (a b : Stamp) : bool :=
  match a, b with
  | StStr x, StStr y => String.ltb x y
  | StNum x, StNum y => (x <? y)%Z
  | _, _ => false
  end.

(** [l.sort(key=key)] and [sorted(l, key=key, reverse=True)].  A sort
    of a list whose keys are of both kinds has to compare two of them,
    which raises. *)
Definition sort_by {A} (key : A -> Stamp) (reverse : bool) (l : list A)
  : Result (list A) :=
  if homogeneous (map key l) then
    Ok (stable_sort
          (fun y x => if reverse then stamp_ltb (key x) (key y)
                      else stamp_ltb (key y) (key x)) l)
  else Raise TypeError.

End PyList.

(* ================================================================== *)
(** ** [datetime] *)

Module PyTime.

Record datetime := mkDatetime {
  year : Z; month : Z; day : Z; hour : Z; minute : Z; second : Z
}.

(** The civil date of a day number counted from 1970-01-01. *)
Definition civil_from_days (z : Z) : Z * Z * Z :=
  let z := (z + 719468)%Z in
  let era := (z / 146097)%Z in
  let doe := (z - era * 146097)%Z in
  let yoe := ((doe - doe / 1460 + doe / 36524 - doe / 146096) / 365)%Z in
  let y := (yoe + era * 400)%Z in
  let doy := (doe - (365 * yoe + yoe / 4 - yoe / 100))%Z in
  let mp := ((5 * doy + 2) / 153)%Z in
  let d := (doy - (153 * mp + 2) / 5 + 1)%Z in
  let m := (if (mp <? 10)%Z then mp + 3 else mp - 9)%Z in
  ((if (m <=? 2)%Z then y + 1 else y)%Z, m, d).

(** The broken-down time of a POSIX timestamp shifted by [offset]. *)
Definition fromtimestamp (ts offset : Z) : datetime :=
  let t := (ts + offset)%Z in
  let '(y, m, d) := civil_from_days (t / 86400) in
  let s := (t mod 86400)%Z in
  mkDatetime y m d (s / 3600) ((s mod 3600) / 60) (s mod 60).

(** [datetime.now()]: the naive local time. *)
Definition now {R} (e : Env R) : datetime :=
  fromtimestamp (e_clock e) (e_utcoffset e).

(** [datetime.utcnow()] *)
Definition utcnow {R} (e : Env R) : datetime :=
  fromtimestamp (e_clock e) 0.

(** [dt.strftime("%Y-%m-%d_%H-%M-%S")] *)
Definition strftime_id (dt : datetime) : string :=
  PyStr.zpad 4 (year dt) ++ "-" ++ PyStr.zpad 2 (month dt) ++ "-"
  ++ PyStr.zpad 2 (day dt) ++ "_" ++ PyStr.zpad 2 (hour dt) ++ "-"
  ++ PyStr.zpad 2 (minute dt) ++ "-" ++ PyStr.zpad 2 (second dt).

End PyTime.

(* ================================================================== *)
(** ** [zipfile.ZipFile] *)

Module ZipFile.
Import PyPath.

Definition entries := list (string * Blob).

(** [ZipFile(path, 'r')] *)
Definition open_read (fs : FS.t) (p : Path) : Result entries :=
  match FS.lookup fs p with
  | Some (File (ZipArchive es _) _) => Ok es
  | Some (File _ _) => Raise BadZipFile
  | Some (Dir _ _) => Raise IsADirectoryError
  | None => Raise FileNotFoundError
  end.

Definition namelist (es : entries) : list string := map fst es.

(** [getinfo]: of several entries with one name the last is found. *)
Definition getinfo (es : entries) (member : string) : option Blob :=
  fold_left (fun acc e => if String.eqb (fst e) member then Some (snd e)
                          else acc) es None.

Definition invalid_path_part (x : string) : bool :=
  String.eqb x "" || String.eqb x "." || String.eqb x "..".

(** The components of an entry name that extraction keeps. *)
Definition sanitize (member : string) : list string :=
  filter (fun x => negb (invalid_path_part x)) (PyStr.split "/" member).

Fixpoint ends_with_slash (s : string) : bool :=
  match s with
  | EmptyString => false
  | String c EmptyString => Ascii.eqb c "/"
  | String _ t => ends_with_slash t
  end.

(** One step of [os.path.normpath] over the components seen so far. *)
Definition norm_step (absolute : bool) (acc : list string) (comp : string)
  : list string :=
  if String.eqb comp "" || String.eqb comp "." then acc
  else if negb (String.eqb comp "..")
          || (negb absolute && match acc with [] => true | _ => false end)
          || String.eqb (last acc "") ".."
       then acc ++ [comp]
       else removelast acc.

Definition normpath (p : Path) : Path :=
  mkPath (root p)
         (fold_left (norm_step (negb (String.eqb (root p) ""))) (parts p) []).

(** Where [extract(member, target)] puts the entry. *)
Definition extract_target (target : Path) (member : string) : Path :=
  normpath (mkPath (root target) (parts target ++ sanitize member)).

(** [zipf.extract(member, target)]: the path written and the new file
    system. *)
Definition extract (now : Z) (fs : FS.t) (es : entries) (member : string)
           (target : Path) : Result (Path * FS.t) :=
  match getinfo es member with
  | None => Raise (KeyError member)
  | Some data =>
      let is_dir := ends_with_slash member in
      match sanitize member, is_dir with
      | [], false => Raise (ValueError EmptyFilename)
      | _, _ =>
          let targetpath := extract_target target member in
          if is_dir then
            match FS.makedirs now fs targetpath with
            | Ok fs' => Ok (targetpath, fs')
            | Raise e => Raise e
            end
          else
            match FS.write_file now fs targetpath data with
            | Ok fs' => Ok (targetpath, fs')
            | Raise e => Raise e
            end
      end
  end.

(** The entry name [zipf.write(file, arcname)] records. *)
Definition arcname_of (rel : Path) (is_dir : bool) : string :=
  let n := str (normpath rel) in
  if is_dir then n ++ "/" else n.

(** The levels [zlib.compressobj] takes.  The level given to [ZipFile]
    is handed on when the first regular file is written, not before. *)
Definition valid_level (level : Z) : bool :=
  ((-1 <=? level) && (level <=? 9))%Z.

End ZipFile.

(* ================================================================== *)
(** ** Python values of configuration and metadata *)

(** What a YAML document or a metadata dictionary holds: scalars, lists
    and dictionaries with string keys, in insertion order. *)
#[warnings="-register-all"]
Inductive PyVal :=
| VNone
| VBool (b : bool)
| VInt (n : Z)
| VStr (s : string)
| VList (items : list PyVal)
| VDict (entries : list (string * PyVal)).

(* ================================================================== *)
(** ** [LocalStorage]: the file-system backend *)

Module LocalStorage.
Import PyPath.

Section WithBasePath.
Context {R : Type}.
(** [self.base_path] *)
Variable base_path : Path.

(** [json.dump(metadata, f, ensure_ascii=False, indent=2)]: the text the
    serialiser writes. *)
Variable json_dump : list (string * PyVal) -> string.

(** [upload(file_path, backup_id, metadata)]; no side file is written
    for [None] or an empty dictionary. *)
Definition upload (file_path backup_id : string)
           (metadata : option (list (string * PyVal))) (e : Env R)
  : Result string * Env R :=
  let source_path := parse file_path in
  let target_path := joinpath base_path (backup_id ++ suffix source_path) in
  match FS.copy2 (e_clock e) (e_fs e) (parse file_path) target_path with
  | Raise x => (Raise x, e)
  | Ok fs =>
      match metadata with
      | Some ((_ :: _) as md) =>
          match with_suffix target_path ".meta.json" with
          | None => (Raise (ValueError InvalidSuffix), set_fs e fs)
          | Some metadata_path =>
              match FS.open_write (e_clock e) fs metadata_path
                                  (Bytes (json_dump md)) with
              | Ok fs' => (Ok (str target_path), set_fs e fs')
              | Raise x => (Raise x, set_fs e fs)
              end
          end
      | _ => (Ok (str target_path), set_fs e fs)
      end
  end.

Definition copy_metadata (e : Env R) (source_path : Path)
           (target_path : string) : Result bool * Env R :=
  match with_suffix source_path ".meta.json" with
  | None => (Raise (ValueError InvalidSuffix), e)
  | Some metadata_path =>
      if FS.exists_ (e_fs e) metadata_path then
        match with_suffix (parse target_path) ".meta.json" with
        | None => (Raise (ValueError InvalidSuffix), e)
        | Some target_metadata =>
            match FS.copy2 (e_clock e) (e_fs e) metadata_path
                           target_metadata with
            | Ok fs => (Ok true, set_fs e fs)
            | Raise x => (Raise x, e)
            end
        end
      else (Ok true, e)
  end.

Fixpoint download_from (suffixes : list string)
         (backup_id target_path : string) (e : Env R)
  : Result bool * Env R :=
  match suffixes with
  | [] => (Raise FileNotFoundError, e)
  | sfx :: rest =>
      let source_path := joinpath base_path (backup_id ++ sfx) in
      if FS.exists_ (e_fs e) source_path then
        match FS.copy2 (e_clock e) (e_fs e) source_path
                       (parse target_path) with
        | Ok fs => copy_metadata (set_fs e fs) source_path target_path
        | Raise x => (Raise x, e)
        end
      else download_from rest backup_id target_path e
  end.

(** [download(backup_id, target_path)] *)
Definition download : string -> string -> Env R -> Result bool * Env R :=
  download_from [".zip"; ".zip.enc"].

Definition unlink (fs : FS.t) (p : Path) : Result FS.t :=
  match FS.lookup fs p with
  | Some (File _ _) => Ok (FS.remove fs p)
  | Some (Dir _ _) => Raise IsADirectoryError
  | None => Raise FileNotFoundError
  end.

Fixpoint delete_files (suffixes : list string) (backup_id : string)
         (deleted : bool) (fs : FS.t) : Result bool * FS.t :=
  match suffixes with
  | [] => (Ok deleted, fs)
  | sfx :: rest =>
      let file_path := joinpath base_path (backup_id ++ sfx) in
      if FS.exists_ fs file_path then
        match unlink fs file_path with
        | Ok fs' => delete_files rest backup_id true fs'
        | Raise x => (Raise x, fs)
        end
      else delete_files rest backup_id deleted fs
  end.

(** [delete(backup_id)] *)
Definition delete (backup_id : string) (e : Env R)
  : Result bool * Env R :=
  match delete_files [".zip"; ".zip.enc"] backup_id false (e_fs e) with
  | (Raise x, fs) => (Raise x, set_fs e fs)
  | (Ok deleted, fs) =>
      let metadata_path := joinpath base_path (backup_id ++ ".meta.json") in
      if FS.exists_ fs metadata_path then
        match unlink fs metadata_path with
        | Ok fs' => (Ok deleted, set_fs e fs')
        | Raise x => (Raise x, set_fs e fs)
        end
      else (Ok deleted, set_fs e fs)
  end.

Definition record_of (fs : FS.t) (file_path : Path) : list BackupRecord :=
  if String.eqb (suffix file_path) ".meta.json" then []
  else if String.eqb (suffix file_path) ".zip"
          || String.eqb (suffix file_path) ".enc" then
    match FS.lookup fs file_path with
    | Some n => [mkRecord (stem file_path) (node_size n)
                          (Some (StNum (node_ctime n)))]
    | None => []
    end
  else [].

Definition record_key (b : BackupRecord) : Stamp :=
  match created_at b with Some k => k | None => StStr "" end.

(** [list_backups()] *)
Definition list_backups (e : Env R) : Result (list BackupRecord) :=
  let backups :=
    flat_map (record_of (e_fs e)) (FS.iterdir (e_fs e) base_path) in
  PyList.sort_by record_key true backups.

Definition backend : Backend R :=
  mkBackend download list_backups delete.

End WithBasePath.
End LocalStorage.

(* ================================================================== *)
(** ** [BaseStorage]: what every backend inherits *)

Module BaseStorage.
Section WithBackend.
Context {R : Type}.
Variable st : Backend R.

(** [test_connection()]: whether listing works; it never raises. *)
Definition test_connection (e : Env R) : bool :=
  match sb_list_backups st e with
  | Ok _ => true
  | Raise _ => false
  end.

(** [get_backup_info(backup_id)]: the first listed record with this
    identifier, [None] when there is none. *)
Definition get_backup_info (backup_id : string) (e : Env R)
  : Result (option BackupRecord) :=
  match sb_list_backups st e with
  | Ok backups =>
      Ok (find (fun backup => String.eqb (id backup) backup_id) backups)
  | Raise x => Raise x
  end.

End WithBackend.
End BaseStorage.

(* ================================================================== *)
(** ** [Encryptor] *)

Record Encryptor := mkEncryptor {
  password : string;
  algorithm : string
}.

(** Modelled from the spec: [Encryptor.decrypt_file], whose body is not in
    the source at hand.  Decryption gives back the plain file when
    passphrase and algorithm are the ones used to encrypt, and fails with
    [DecryptionError] on a wrong passphrase, a wrong algorithm or a file
    that is no ciphertext. *)
Definition decrypt_file (enc : Encryptor) (now : Z) (fs : FS.t)
           (source_path target_path : PyPath.Path) : Result FS.t :=
  match FS.lookup fs source_path with
  | Some (File (Encrypted pw alg plain _) _) =>
      if String.eqb pw (password enc) && String.eqb alg (algorithm enc)
      then FS.write_file now fs target_path plain
      else Raise DecryptionError
  | Some (File _ _) => Raise DecryptionError
  | Some (Dir _ _) => Raise IsADirectoryError
  | None => Raise FileNotFoundError
  end.

(* ================================================================== *)
(** ** Configuration *)

Record BackupCfg := mkBackupCfg {
  backup_name : option string;
  backup_exclude : option (list string)
}.

Record EncryptionCfg := mkEncryptionCfg {
  enabled : option bool;
  enc_password : option string;
  enc_algorithm : option string
}.

Record CompressionCfg := mkCompressionCfg { level : option Z }.

Record RetentionCfg := mkRetentionCfg { keep_last : option Z }.

(** The configuration dictionary: [backup] is required, the other
    sections may be missing. *)
Record Config := mkConfig {
  backup : BackupCfg;
  encryption : option EncryptionCfg;
  compression : option CompressionCfg;
  retention : option RetentionCfg
}.

(** [d.get(key, default)] *)
Definition get {A} (o : option A) (default : A) : A :=
  match o with Some a => a | None => default end.

(** [config.get('compression', {}).get('level', 6)] *)
Definition compression_level (cfg : Config) : Z :=
  get (level (get (compression cfg) (mkCompressionCfg None))) 6%Z.

(* ================================================================== *)
(** ** [BackupManager] *)

Record BackupManager (R : Type) := mkManager {
  config : Config;
  storage : Backend R;
  encryptor : option Encryptor
}.
Arguments mkManager {R}.
Arguments config {R}.
Arguments storage {R}.
Arguments encryptor {R}.

Record RestoreResult := mkRestoreResult {
  r_success : bool;
  r_backup_id : string;
  r_target : string;
  r_file_count : nat
}.

(** The dictionary [cleanup_old_backups] returns; which keys it has
    depends on the path taken. *)
Record CleanupResult := mkCleanupResult {
  deleted_count : option Z;
  freed_space : option Z;
  to_delete : list BackupRecord;
  total_backups : option Z;
  will_keep : option Z
}.

Module Manager.
Import PyPath.

(** [BackupManager.__init__] *)
Definition new {R} (cfg : Config) (st : Backend R)
  : Result (BackupManager R) :=
  let enc := get (encryption cfg) (mkEncryptionCfg None None None) in
  if get (enabled enc) false then
    match encryption cfg with
    | None => Raise (KeyError "encryption")
    | Some c =>
        match enc_password c with
        | None => Raise (KeyError "password")
        | Some pw =>
            Ok (mkManager cfg st
                  (Some (mkEncryptor pw
                           (get (enc_algorithm c) "AES-256-GCM"))))
        end
    end
  else Ok (mkManager cfg st None).

Section Methods.
Context {R : Type}.
Variable self : BackupManager R.

(** *** Calls on the storage backend, recorded in the trace *)

Definition storage_download (backup_id target_path : string) : M R bool :=
  log (EvDownload backup_id) ;;;
  lift_env (sb_download (storage self) backup_id target_path).

Definition storage_list_backups : M R (list BackupRecord) :=
  log EvList ;;;
  lift_env (fun e => (sb_list_backups (storage self) e, e)).

Definition storage_delete (backup_id : string) : M R bool :=
  log (EvDelete backup_id) ;;;
  lift_env (sb_delete (storage self) backup_id).

(** [with tempfile.TemporaryDirectory() as temp_dir: body]; the name
    is the fresh one the operating system picks. *)
Definition with_temporary_directory {A} (temp_dir : string)
           (body : M R A) : M R A :=
  lift_fs (fun now fs => FS.makedirs now fs (parse temp_dir)) ;;;
  finally body
    (fun w => mkWorld (set_fs (w_env w)
                         (FS.remove_tree (e_fs (w_env w)) (parse temp_dir)))
                      (w_trace w)).

(** *** [_should_exclude], [_scan_files] *)

Definition _should_exclude (file_path : Path) (patterns : list string)
  : bool :=
  existsb (fun pattern =>
             Fnmatch.fnmatch (str file_path) pattern
             || Fnmatch.fnmatch (name file_path) pattern) patterns.

Definition _scan_files (source_path : Path) : M R (list Path) :=
  let exclude_patterns := get (backup_exclude (backup (config self))) [] in
  e <- get_env ;;
  ret (filter (fun item => FS.is_file (e_fs e) item
                           && negb (_should_exclude item exclude_patterns))
              (FS.rglob (e_fs e) source_path)).

(** *** [_generate_backup_id] *)

Definition _generate_backup_id : M R string :=
  e <- get_env ;;
  let timestamp := PyTime.strftime_id (PyTime.now e) in
  let name := get (backup_name (backup (config self))) "backup" in
  ret (name ++ "_" ++ timestamp).

(** *** [_create_archive] *)

(** The size of the archive the compressor produces at a given level;
    the engine does not depend on it. *)
Variable deflated_size : Z -> ZipFile.entries -> Z.

(** The loop over [files]: every file is added under its path relative
    to the source; what was added stays when a later file fails.  A
    directory is added without compression; a regular file is compressed
    at [level], which zlib refuses outside -1..9, after the header of the
    entry has been written. *)
Fixpoint archive_entries (level : Z) (fs : FS.t) (source_path : Path)
         (files : list Path) (acc : ZipFile.entries)
  : Result unit * ZipFile.entries :=
  match files with
  | [] => (Ok tt, acc)
  | file :: rest =>
      match relative_to file source_path with
      | None => (Raise (ValueError NotRelative), acc)
      | Some rel_path =>
          match FS.lookup fs file with
          | None => (Raise FileNotFoundError, acc)
          | Some (File c _) =>
              if ZipFile.valid_level level then
                archive_entries level fs source_path rest
                  (acc ++ [(ZipFile.arcname_of rel_path false, c)])%list
              else (Raise (ValueError InvalidInitializationOption), acc)
          | Some (Dir _ _) =>
              archive_entries level fs source_path rest
                (acc ++ [(ZipFile.arcname_of rel_path true, Bytes "")])%list
          end
      end
  end.

(** Leaving the [with] block closes the archive, which writes its
    directory.  While an entry is open, as it is after zlib has refused
    the level, [close] raises instead and the file stays without
    directory. *)
Definition _create_archive (source_path : Path) (files : list Path)
           (archive_path : Path) : M R unit :=
  let level := compression_level (config self) in
  let archive es := ZipArchive es (deflated_size level es) in
  lift_fs (fun now fs => FS.open_write now fs archive_path (archive [])) ;;;
  e <- get_env ;;
  let '(r, es) := archive_entries level (e_fs e) source_path files [] in
  match r with
  | Raise (ValueError InvalidInitializationOption) =>
      lift_fs (fun now fs =>
                 Ok (FS.write fs archive_path
                       (File (Unfinished (map fst es)) now))) ;;;
      raise (ValueError OpenWritingHandle)
  | _ =>
      lift_fs (fun now fs =>
                 Ok (FS.write fs archive_path (File (archive es) now))) ;;;
      match r with
      | Ok _ => ret tt
      | Raise x => raise x
      end
  end.

(** *** [_extract_archive] *)

Definition extract_member (es : ZipFile.entries) (member : string)
           (target_path : Path) : M R Path :=
  lift_env (fun e =>
    match ZipFile.extract (e_clock e) (e_fs e) es member target_path with
    | Ok (p, fs) => (Ok p, set_fs e fs)
    | Raise x => (Raise x, e)
    end).

Fixpoint extract_all (es : ZipFile.entries) (members : list string)
         (target_path : Path) (extracted_files : list Path)
  : M R (list Path) :=
  match members with
  | [] => ret extracted_files
  | member :: rest =>
      extracted_path <- extract_member es member target_path ;;
      extract_all es rest target_path
                  (extracted_files ++ [extracted_path])%list
  end.

Definition _extract_archive (archive_path target_path : Path)
  : M R (list Path) :=
  lift_fs (fun now fs => FS.makedirs now fs target_path) ;;;
  e <- get_env ;;
  match ZipFile.open_read (e_fs e) archive_path with
  | Raise x => raise x
  | Ok es => extract_all es (ZipFile.namelist es) target_path []
  end.

(** *** [restore_backup] *)

Definition check_target (target_path : Path) (overwrite : bool)
  : M R unit :=
  e <- get_env ;;
  if FS.exists_ (e_fs e) target_path && negb overwrite then
    if FS.is_dir (e_fs e) target_path then
      match FS.iterdir (e_fs e) target_path with
      | _ :: _ => raise FileExistsError
      | [] => ret tt
      end
    else raise NotADirectoryError
  else ret tt.

Definition decrypt_step (archive_path : Path) : M R Path :=
  if String.eqb (suffix archive_path) ".enc" then
    match encryptor self with
    | None => raise (ValueError EncryptionNotConfigured)
    | Some enc =>
        decrypted_path <-
          of_option (with_suffix archive_path "")
                    (ValueError InvalidSuffix) ;;
        log (EvDecrypt archive_path) ;;;
        lift_fs (fun now fs =>
                   decrypt_file enc now fs archive_path decrypted_path) ;;;
        ret decrypted_path
    end
  else ret archive_path.

Definition restore_backup (backup_id target : string) (overwrite : bool)
           (temp_dir : string) : M R RestoreResult :=
  let target_path := parse target in
  check_target target_path overwrite ;;;
  with_temporary_directory temp_dir (
    let temp_path := parse temp_dir in
    let archive_path := joinpath temp_path (backup_id ++ ".zip") in
    storage_download backup_id (str archive_path) ;;;
    archive_path <- decrypt_step archive_path ;;
    restored_files <- _extract_archive archive_path target_path ;;
    ret (mkRestoreResult true backup_id (str target_path)
                         (List.length restored_files))).

(** *** [cleanup_old_backups] *)

Definition sort_key (x : BackupRecord) : Stamp :=
  get (created_at x) (StStr "").

(** The records to delete among the sorted ones. *)
Definition select_to_delete (backups : list BackupRecord) (to_keep : Z)
  : list BackupRecord :=
  if (Z.of_nat (List.length backups) >? to_keep)%Z
  then PyList.slice_to backups (- to_keep)
  else [].

(** The deletion loop, with the counters it updates. *)
Fixpoint delete_each (to_delete : list BackupRecord)
         (deleted_count freed_space : Z) : M R (Z * Z) :=
  match to_delete with
  | [] => ret (deleted_count, freed_space)
  | backup :: rest =>
      counters <-
        try_except
          (let backup_id := id backup in
           let size := size backup in
           ok <- storage_delete backup_id ;;
           if ok then ret (deleted_count + 1, freed_space + size)%Z
           else ret (deleted_count, freed_space))
          (fun e =>
             log (EvLogError (id backup) e) ;;;
             ret (deleted_count, freed_space)) ;;
      delete_each rest (fst counters) (snd counters)
  end.

Definition cleanup_old_backups (dry_run : bool) : M R CleanupResult :=
  let retention := get (retention (config self)) (mkRetentionCfg None) in
  backups <- storage_list_backups ;;
  match backups with
  | [] => ret (mkCleanupResult (Some 0%Z) (Some 0%Z) [] None None)
  | _ :: _ =>
      match PyList.sort_by sort_key false backups with
      | Raise x => raise x
      | Ok backups =>
          let to_keep := get (keep_last retention) 30%Z in
          let to_delete := select_to_delete backups to_keep in
          if dry_run then
            ret (mkCleanupResult None None to_delete
                   (Some (Z.of_nat (List.length backups)))
                   (Some (Z.of_nat (List.length backups)
                          - Z.of_nat (List.length to_delete))%Z))
          else
            counters <- delete_each to_delete 0%Z 0%Z ;;
            ret (mkCleanupResult (Some (fst counters))
                                 (Some (snd counters))
                                 to_delete None None)
      end
  end.

End Methods.
End Manager.

(* ================================================================== *)
(** ** Sample data *)

Module Sample.
Import PyPath.

(** The local backend over [/backups]. *)
Definition local : Backend unit := LocalStorage.backend (parse "/backups").

Definition cfg (keep : option RetentionCfg) : Config :=
  mkConfig (mkBackupCfg (Some "default-backup")
                        (Some ["*.log"; "temp/*"; "backup_*.tmp"]))
           None None keep.

Definition plain_manager : BackupManager unit :=
  mkManager (cfg None) local None.

Definition fernet_manager : BackupManager unit :=
  mkManager (cfg None) local (Some (mkEncryptor "secret" "Fernet")).

Definition archive_a : Blob := ZipArchive [("a.txt", Bytes "1")] 120.

(** 2024-01-01 00:00:00 UTC on a machine three hours east of it. *)
Definition world_of (fs : FS.t) : World unit :=
  mkWorld (mkEnv fs tt 1704067200 10800) [].

(** A backup directory holding one encrypted backup. *)
Definition fs_encrypted : FS.t :=
  [ (parse "/backups", Dir 4096 10);
    (parse "/backups/b1.zip.enc",
     File (Encrypted "secret" "Fernet" archive_a 160) 20);
    (parse "/tmp", Dir 4096 1) ].

(** A backup directory with three plain backups, an encrypted one and
    a directory that has the name of a backup. *)
Definition fs_retention : FS.t :=
  [ (parse "/backups", Dir 4096 10);
    (parse "/backups/b2.zip", File (ZipArchive [("a.txt", Bytes "22")] 220) 200);
    (parse "/backups/old.zip", Dir 4096 50);
    (parse "/backups/b3.zip", File (ZipArchive [("a.txt", Bytes "333")] 330) 300);
    (parse "/backups/e0.zip.enc",
     File (Encrypted "secret" "Fernet" archive_a 160) 60);
    (parse "/backups/b1.zip", File archive_a 100);
    (parse "/backups/b1.meta.json", File (Bytes "{}") 100) ].

Definition keeping (k : Z) : BackupManager unit :=
  mkManager (cfg (Some (mkRetentionCfg (Some k)))) local None.

Definition rec_old := mkRecord "old" 4096 (Some (StNum 50)).
Definition rec_e0 := mkRecord "e0.zip" 160 (Some (StNum 60)).
Definition rec_b1 := mkRecord "b1" 120 (Some (StNum 100)).
Definition rec_b2 := mkRecord "b2" 220 (Some (StNum 200)).
Definition rec_b3 := mkRecord "b3" 330 (Some (StNum 300)).

(** A backup directory of thirty-one backups, [b01] the oldest, and the
    records the listing gives for them. *)
Definition fs_month : FS.t :=
  (parse "/backups", Dir 4096 10)
  :: map (fun i => (parse ("/backups/b" ++ PyStr.zpad 2 (Z.of_nat i) ++ ".zip"),
                    File archive_a (100 + Z.of_nat i)))
         (seq 1 31).

Definition rec_month (i : nat) : BackupRecord :=
  mkRecord ("b" ++ PyStr.zpad 2 (Z.of_nat i)) 120
           (Some (StNum (100 + Z.of_nat i))).

(** A source tree under [/path/to], a restore target that is in use,
    and a backup with an entry that climbs out of the target. *)
Definition archive_evil : Blob :=
  ZipArchive [("a.txt", Bytes "1"); ("../evil.txt", Bytes "x")] 150.

Definition fs_tree : FS.t :=
  [ (parse "/path", Dir 4096 1);
    (parse "/path/to", Dir 4096 1);
    (parse "/path/to/file.log", File (Bytes "log") 2);
    (parse "/path/to/temp", Dir 4096 2);
    (parse "/path/to/temp/file.txt", File (Bytes "tmp") 3);
    (parse "/path/to/backup_123.tmp", File (Bytes "b") 4);
    (parse "/path/to/normal.txt", File (Bytes "n") 5);
    (parse "/restore", Dir 4096 6);
    (parse "/restore/keep.txt", File (Bytes "mine") 7);
    (parse "/backups", Dir 4096 10);
    (parse "/backups/b2.zip", File archive_evil 20);
    (parse "/tmp", Dir 4096 1) ].

(** The archive size the codec is taken to produce. *)
Definition deflated_size (level : Z) (es : ZipFile.entries) : Z :=
  (22 + 100 * Z.of_nat (List.length es))%Z.

(** A serialiser for metadata, and an encrypted archive next to the
    source tree. *)
Definition json_dump (md : list (string * PyVal)) : string :=
  "{...}".

Definition fs_upload : FS.t :=
  (fs_tree ++ [(parse "/tmp/w/b9.zip.enc",
                File (Encrypted "secret" "Fernet" archive_a 160) 30);
               (parse "/tmp/w", Dir 4096 30)])%list.

End Sample.

(* ================================================================== *)
(** ** What the deletion loop is compared with *)

Section Attempts.
Context {R : Type}.
Variable st : Backend R.

(** The answers of the backend when the candidates are deleted one
    after the other, each in the state the previous one left. *)
Fixpoint attempts (to_delete : list BackupRecord) (e : Env R)
  : list (BackupRecord * Result bool) * Env R :=
  match to_delete with
  | [] => ([], e)
  | b :: rest =>
      let '(r, e1) := sb_delete st (id b) e in
      let '(rs, e2) := attempts rest e1 in
      ((b, r) :: rs, e2)
  end.

Definition succeeded (o : BackupRecord * Result bool) : bool :=
  match snd o with Ok true => true | _ => false end.

Definition sum_sizes (os : list (BackupRecord * Result bool)) : Z :=
  fold_right Z.add 0%Z (map (fun o => size (fst o)) os).

Definition count (os : list (BackupRecord * Result bool)) : Z :=
  Z.of_nat (List.length os).

End Attempts.

(** The identifiers the trace shows a delete call for, in order. *)
Definition deletes_of (tr : list Event) : list string :=
  flat_map (fun ev => match ev with EvDelete i => [i] | _ => [] end) tr.

(** The manager with [retention.keep_last] set. *)
Definition with_keep_last {R} (self : BackupManager R) (k : Z)
  : BackupManager R :=
  let c := config self in
  mkManager (mkConfig (backup c) (encryption c) (compression c)
                      (Some (mkRetentionCfg (Some k))))
            (storage self) (encryptor self).

(* ================================================================== *)
(** ** Vocabulary of the statements *)

Section Vocabulary.
Import PyPath.


(** The paths an extraction to [p] may create or replace: [p] and the
    directories above it. *)
Definition touched (p : Path) : list Path := p :: FS.ancestors p.

(** The entry name [_create_archive] gives a file. *)
Definition entry_name (source_path file : Path) : string :=
  match relative_to file source_path with
  | Some rel_path => ZipFile.arcname_of rel_path false
  | None => ""
  end.

(** [a] may stand before [b] in a list sorted by [lt]: [b] is not
    strictly before [a]. *)
Definition may_precede {A} (lt : A -> A -> bool) (a b : A) : Prop :=
  lt b a = false.

(** Ascending by key: no record stands before one with a smaller key. *)
Definition ascending {A} (key : A -> Stamp) (l : list A) : Prop :=
  Sorted (may_precede (fun y x => PyList.stamp_ltb (key y) (key x))) l.

(** The content of a regular file. *)
Definition file_content (fs : FS.t) (file : Path) : Blob :=
  match FS.lookup fs file with
  | Some (File c _) => c
  | _ => Bytes ""
  end.

End Vocabulary.

(* ================================================================== *)
(** ** Vocabulary of the further statements *)

(** [a] is not newer than [b]: the key of [b] is not smaller. *)
Definition not_older {A} (key : A -> Stamp) (a b : A) : Prop :=
  PyList.stamp_ltb (key b) (key a) = false.

(** [retention.keep_last] as [cleanup_old_backups] reads it. *)
Definition to_keep_of (cfg : Config) : Z :=
  get (keep_last (get (retention cfg) (mkRetentionCfg None))) 30%Z.

(** Where [shutil.copy2(src, dst)] puts the copy. *)
Definition copy_destination (fs : FS.t) (src dst : PyPath.Path) : PyPath.Path :=
  if FS.is_dir fs dst
  then PyPath.mkPath (PyPath.root dst) (PyPath.parts dst ++ [PyPath.name src])
  else dst.

(** A pattern without [*], [?] and [[]. *)
Definition literal_pattern (pat : string) : bool :=
  forallb (fun c => negb (Ascii.eqb c "*" || Ascii.eqb c "?" || Ascii.eqb c "["))
          (list_ascii_of_string pat).

(* ================================================================== *)
(** ** [config.py]: loading and checking the configuration *)

Module ConfigLoader.

(** Why a configuration is refused; all but the last are the messages of
    a [ValueError]. *)
Inductive Problem :=
| EnvVarNotFound (env_var : string)
| SectionMissing (section : string)
| BackupNameMissing
| StorageTypeMissing
| StorageTypeUnsupported (storage_type : PyVal)
| StorageConfigMissing (storage_type : string)
| PyTypeError                    (* [in] or a subscript on a wrong value *)
| PyKeyError (key : string).

Inductive Outcome (A : Type) :=
| Done (a : A)
| Failed (p : Problem).
Arguments Done {A} a.
Arguments Failed {A} p.

(** [os.getenv] *)
Definition Environ := string -> option string.

(** Apply [f] to the elements from left to right, stopping at the first
    failure. *)
Definition traverse {A B} (f : A -> Outcome B) : list A -> Outcome (list B) :=
  fix go (l : list A) : Outcome (list B) :=
    match l with
    | [] => Done []
    | x :: r =>
        match f x with
        | Failed p => Failed p
        | Done y =>
            match go r with
            | Failed p => Failed p
            | Done ys => Done (y :: ys)
            end
        end
    end.

(** [s.endswith(c)] for a single character. *)
Fixpoint endswith_char (c : ascii) (s : string) : bool :=
  match s with
  | EmptyString => false
  | String a EmptyString => Ascii.eqb a c
  | String _ t => endswith_char c t
  end.

(** [obj.startswith("${") and obj.endswith("}")] *)
Definition is_reference (obj : string) : bool :=
  PyStr.startswith "${" obj && endswith_char "}" obj.

(** [obj[2:-1]] *)
Definition env_var_of (obj : string) : string :=
  PyStr.take (String.length obj - 3) (PyStr.drop 2 obj).

(** [_replace_env_vars]: the inner [replace]. *)
Fixpoint replace (getenv : Environ) (obj : PyVal) : Outcome PyVal :=
  match obj with
  | VDict entries =>
      match traverse (fun kv : string * PyVal =>
                        let (k, v) := kv in
                        match replace getenv v with
                        | Done v' => Done (k, v')
                        | Failed p => Failed p
                        end) entries with
      | Done entries' => Done (VDict entries')
      | Failed p => Failed p
      end
  | VList items =>
      match traverse (replace getenv) items with
      | Done items' => Done (VList items')
      | Failed p => Failed p
      end
  | VStr s =>
      if is_reference s then
        match getenv (env_var_of s) with
        | None => Failed (EnvVarNotFound (env_var_of s))
        | Some value => Done (VStr value)
        end
      else Done obj
  | _ => Done obj
  end.

Definition _replace_env_vars : Environ -> PyVal -> Outcome PyVal := replace.

(** [needle in haystack] for strings. *)
Fixpoint is_substring (needle haystack : string) : bool :=
  String.prefix needle haystack
  || match haystack with
     | EmptyString => false
     | String _ t => is_substring needle t
     end.

Definition assoc (entries : list (string * PyVal)) (key : string)
  : option PyVal :=
  match find (fun kv => String.eqb (fst kv) key) entries with
  | Some kv => Some (snd kv)
  | None => None
  end.

(** [key in container] *)
Definition contains (container : PyVal) (key : string) : Outcome bool :=
  match container with
  | VDict entries =>
      Done (match assoc entries key with Some _ => true | None => false end)
  | VList items =>
      Done (existsb (fun v => match v with
                              | VStr s => String.eqb s key
                              | _ => false
                              end) items)
  | VStr s => Done (is_substring key s)
  | _ => Failed PyTypeError
  end.

(** [container[key]] for a string key. *)
Definition subscript (container : PyVal) (key : string) : Outcome PyVal :=
  match container with
  | VDict entries =>
      match assoc entries key with
      | Some v => Done v
      | None => Failed (PyKeyError key)
      end
  | _ => Failed PyTypeError
  end.

Definition valid_storage_types : list string :=
  ["yandex_disk"; "google_drive"; "s3"; "local"].

Definition require (present : Outcome bool) (otherwise : Problem)
  : Outcome unit :=
  match present with
  | Done true => Done tt
  | Done false => Failed otherwise
  | Failed p => Failed p
  end.

Definition and_then {A B} (m : Outcome A) (k : A -> Outcome B) : Outcome B :=
  match m with Done a => k a | Failed p => Failed p end.

(** [_validate_config] *)
Definition _validate_config (config : PyVal) : Outcome unit :=
  and_then (require (contains config "backup") (SectionMissing "backup"))
    (fun _ =>
  and_then (require (contains config "storage") (SectionMissing "storage"))
    (fun _ =>
  and_then (subscript config "backup") (fun backup =>
  and_then (require (contains backup "name") BackupNameMissing) (fun _ =>
  and_then (subscript config "storage") (fun storage =>
  and_then (require (contains storage "type") StorageTypeMissing) (fun _ =>
  and_then (subscript storage "type") (fun storage_type =>
    match storage_type with
    | VStr t =>
        if existsb (String.eqb t) valid_storage_types then
          require (contains storage t) (StorageConfigMissing t)
        else Failed (StorageTypeUnsupported storage_type)
    | _ => Failed (StorageTypeUnsupported storage_type)
    end))))))).

(** What [load_config] does with the parsed document: substitute, then
    check, then return the substituted configuration. *)
Definition load_parsed (getenv : Environ) (parsed : PyVal) : Outcome PyVal :=
  and_then (_replace_env_vars getenv parsed) (fun config =>
  and_then (_validate_config config) (fun _ => Done config)).

(** The variables a configuration refers to, in the order [replace]
    meets them. *)
Fixpoint references (obj : PyVal) : list string :=
  match obj with
  | VDict entries => flat_map (fun kv : string * PyVal =>
                                 let (_, v) := kv in references v) entries
  | VList items => flat_map references items
  | VStr s => if is_reference s then [env_var_of s] else []
  | _ => []
  end.

(** The same configuration with every reference replaced by [value]. *)
Fixpoint substituted (value : string -> string) (obj : PyVal) : PyVal :=
  match obj with
  | VDict entries =>
      VDict (map (fun kv : string * PyVal =>
                    let (k, v) := kv in (k, substituted value v)) entries)
  | VList items => VList (map (substituted value) items)
  | VStr s => if is_reference s then VStr (value (env_var_of s)) else obj
  | _ => obj
  end.

End ConfigLoader.

(** The default configuration of [get_default_config], as far as loading
    looks at it, and an environment that sets its variables. *)
Module SampleConfig.

Definition backup_section : list (string * PyVal) :=
  [ ("name", VStr "default-backup");
    ("description", VStr "Automatic backup");
    ("exclude", VList [VStr ".git"; VStr "__pycache__"; VStr "*.pyc";
                       VStr "*.log"; VStr ".DS_Store"]) ].

Definition storage_section : list (string * PyVal) :=
  [ ("type", VStr "yandex_disk");
    ("yandex_disk", VDict [ ("token", VStr "${YANDEX_TOKEN}");
                            ("folder", VStr "/Backups") ]) ].

Definition sections : list (string * PyVal) :=
  [ ("backup", VDict backup_section);
    ("storage", VDict storage_section);
    ("encryption", VDict [ ("enabled", VBool false);
                           ("algorithm", VStr "AES-256-GCM");
                           ("password", VStr "${ENCRYPTION_PASSWORD}") ]);
    ("retention", VDict [ ("keep_last", VInt 30) ]) ].

Definition default_config : PyVal := VDict sections.

Definition environ : ConfigLoader.Environ :=
  fun x => if String.eqb x "YANDEX_TOKEN" then Some "t0ken"
           else if String.eqb x "ENCRYPTION_PASSWORD" then Some "secret"
           else None.

End SampleConfig.

(** [q] lies in the directory of [target], at any depth. *)
Definition beside (target q : PyPath.Path) : Prop :=
  PyPath.root q = PyPath.root target
  /\ exists rest,
      PyPath.parts q = (removelast (PyPath.parts target) ++ rest)%list.

(** A file or directory name as a file system has them: not empty, not
    [.] or [..], without separator. *)
Definition proper_name (c : string) : bool :=
  negb (ZipFile.invalid_path_part c) && negb (PyStr.contains "/" c).

(** The components of [file] below [source_path]. *)
Definition relative_parts (source_path file : PyPath.Path) : list string :=
  match PyPath.strip_prefix (PyPath.parts source_path) (PyPath.parts file) with
  | Some r => r
  | None => []
  end.

(** Where a file of the source ends up below the target. *)
Definition restored_path (target_path source_path file : PyPath.Path)
  : PyPath.Path :=
  PyPath.mkPath (PyPath.root target_path)
    (PyPath.parts (ZipFile.normpath target_path)
       ++ relative_parts source_path file).


(** A file [_create_archive] can add and extraction can put back under
    its own name: a regular file below the source whose relative path has
    no empty, [.] or [..] component. *)
Definition archivable (fs : FS.t) (source_path file : PyPath.Path) : Prop :=
  FS.is_file fs file = true
  /\ PyPath.is_under source_path file = true
  /\ forallb proper_name (relative_parts source_path file) = true.
(* ================================================================== *)
(** * Properties *)

(** ** The library models on known values *)

Example fnmatch_ex1 : Fnmatch.fnmatch "file.log" "*.log" = true.
Proof. reflexivity. Qed.
Example fnmatch_ex2 : Fnmatch.fnmatch "/path/to/temp/file.txt" "temp/*" = false.
Proof. reflexivity. Qed.
Example fnmatch_ex3 : Fnmatch.fnmatch "a]c" "a[]x]c" = true.
Proof. reflexivity. Qed.
Example fnmatch_ex4 : Fnmatch.fnmatch "b" "[!a-c]" = false.
Proof. reflexivity. Qed.
Example fnmatch_ex5 : Fnmatch.fnmatch "[x" "[x" = true.
Proof. reflexivity. Qed.
Example suffix_ex1 : PyPath.suffix (PyPath.parse "/tmp/t/b1.zip.enc") = ".enc".
Proof. reflexivity. Qed.
Example suffix_ex2 : PyPath.suffix (PyPath.parse "/tmp/t/.zip") = "".
Proof. reflexivity. Qed.
Example zpad_ex : PyStr.zpad 4 2024 = "2024" /\ PyStr.zpad 2 7 = "07".
Proof. split; reflexivity. Qed.
Example slice_ex : PyList.slice_to [1; 2; 3; 4; 5]%Z (-2) = [1; 2; 3]%Z
                   /\ PyList.slice_to [1; 2; 3; 4; 5]%Z (-0) = [].
Proof. split; reflexivity. Qed.
Example leap_day_ex :
  PyTime.fromtimestamp 951782400 0 = PyTime.mkDatetime 2000 2 29 0 0 0.
Proof. reflexivity. Qed.
Example sorted_reverse_ex :
  sb_list_backups Sample.local (w_env (Sample.world_of Sample.fs_retention))
  = Ok [Sample.rec_b3; Sample.rec_b2; Sample.rec_b1; Sample.rec_e0;
        Sample.rec_old].
Proof. reflexivity. Qed.

(** ** Strings and paths *)

Section StringFacts.

Lemma append_length (x y : string) :
  String.length (x ++ y) = (String.length x + String.length y)%nat.
Proof. induction x as [|a x IH]; simpl; [reflexivity | now rewrite IH]. Qed.

Lemma rfind_app (c : ascii) (x y : string) :
  PyStr.rfind c (x ++ y) =
  match PyStr.rfind c y with
  | Some i => Some (String.length x + i)%nat
  | None => PyStr.rfind c x
  end.
Proof.
  induction x as [|a x IH]; simpl.
  - destruct (PyStr.rfind c y); reflexivity.
  - rewrite IH. destruct (PyStr.rfind c y); reflexivity.
Qed.

Lemma drop_app_length (x y : string) :
  PyStr.drop (String.length x) (x ++ y) = y.
Proof. induction x as [|a x IH]; simpl; [destruct y; reflexivity | exact IH]. Qed.

Lemma split_nonempty (sep : ascii) (s : string) : PyStr.split sep s <> [].
Proof.
  destruct s as [|a s]; simpl; [discriminate|].
  destruct (PyStr.split sep s); [discriminate|].
  destruct (Ascii.eqb a sep); discriminate.
Qed.

Lemma split_without_sep (sep : ascii) (x : string) :
  PyStr.contains sep x = false -> PyStr.split sep x = [x].
Proof.
  induction x as [|a x IH]; simpl; [reflexivity|].
  intros H. apply orb_false_iff in H as [Ha Hx].
  rewrite (IH Hx), Ha. reflexivity.
Qed.

(** Appending a string without separator only extends the last
    field. *)
Lemma split_app (sep : ascii) (s x : string) :
  PyStr.contains sep x = false ->
  PyStr.split sep (s ++ x) =
  (removelast (PyStr.split sep s)
     ++ [(last (PyStr.split sep s) "" ++ x)%string])%list.
Proof.
  intros Hx. induction s as [|a s IH].
  - simpl. now rewrite (split_without_sep _ _ Hx).
  - change (String a s ++ x) with (String a (s ++ x)).
    cbn [PyStr.split]. rewrite IH. clear IH.
    pose proof (split_nonempty sep s) as Hne.
    destruct (PyStr.split sep s) as [|h [|k r]]; [congruence| |].
    + destruct (Ascii.eqb a sep); reflexivity.
    + destruct (Ascii.eqb a sep); reflexivity.
Qed.

End StringFacts.

Section PathFacts.
Import PyPath.

Lemma keep_part_zip (y : string) : keep_part (y ++ ".zip") = true.
Proof.
  unfold keep_part. destruct y as [|a [|b y]]; simpl; try reflexivity;
    destruct (Ascii.eqb a "."); reflexivity.
Qed.

(** The file name of [dir / (backup_id + ".zip")] ends in [.zip],
    whatever the directory and the identifier. *)
Lemma name_of_zip_path (dir : Path) (backup_id : string) :
  exists x, name (joinpath dir (backup_id ++ ".zip")) = x ++ ".zip".
Proof.
  exists (last (PyStr.split "/" backup_id) "").
  unfold joinpath, parse, name. cbn [root parts].
  rewrite (split_app "/" backup_id ".zip" eq_refl).
  rewrite filter_app. cbn [filter]. rewrite keep_part_zip.
  destruct (String.eqb _ ""); cbn [parts].
  - rewrite app_assoc. apply last_last.
  - apply last_last.
Qed.

Lemma name_suffix_zip (x : string) :
  name_suffix (x ++ ".zip") = if (String.length x =? 0)%nat then "" else ".zip".
Proof.
  unfold name_suffix. rewrite rfind_app.
  change (PyStr.rfind "." ".zip") with (Some 0%nat).
  cbv beta iota. rewrite Nat.add_0_r, append_length.
  destruct x as [|a x]; [reflexivity|].
  change (String.length ".zip") with 4%nat.
  replace (0 <? String.length (String a x))%nat with true by reflexivity.
  replace (String.length (String a x) <? String.length (String a x) + 4 - 1)%nat
    with true by (symmetry; apply Nat.ltb_lt; simpl; lia).
  cbn [andb String.length Nat.eqb].
  apply (drop_app_length (String a x) ".zip").
Qed.

(** The path the archive is downloaded to never has the suffix of an
    encrypted payload. *)
Lemma archive_suffix_never_enc (dir : Path) (backup_id : string) :
  String.eqb (suffix (joinpath dir (backup_id ++ ".zip"))) ".enc" = false.
Proof.
  unfold suffix. destruct (name_of_zip_path dir backup_id) as [x ->].
  rewrite name_suffix_zip. destruct (String.length x =? 0)%nat; reflexivity.
Qed.

End PathFacts.

(* ================================================================== *)
(** ** Restore and encrypted payloads *)

Section RestoreFacts.
Import PyPath.
Context {R : Type}.

Lemma decrypt_step_skipped (self : BackupManager R) (dir : Path)
      (backup_id : string) :
  Manager.decrypt_step self (joinpath dir (backup_id ++ ".zip"))
  = ret (joinpath dir (backup_id ++ ".zip")).
Proof.
  unfold Manager.decrypt_step. now rewrite archive_suffix_never_enc.
Qed.

(** [restore_backup] does not depend on the configured encryptor. *)
Lemma restore_ignores_encryptor (cfg : Config) (st : Backend R)
      (enc1 enc2 : option Encryptor) (backup_id target : string)
      (overwrite : bool) (temp_dir : string) :
  Manager.restore_backup (mkManager cfg st enc1) backup_id target
                         overwrite temp_dir
  = Manager.restore_backup (mkManager cfg st enc2) backup_id target
                           overwrite temp_dir.
Proof.
  unfold Manager.restore_backup. rewrite !decrypt_step_skipped.
  reflexivity.
Qed.

End RestoreFacts.

(** C1: [restore_backup] looks for the suffix [.enc] on the local path it
    has itself named [<backup_id>.zip], so it never sees an encrypted
    payload as such.  Restoring is the same with and without an encryptor,
    and the encrypted backup [b1.zip.enc] of the local backend goes to
    extraction undecrypted, with and without an encryptor: the call fails
    in the zip reader, not with the error for missing encryption, and no
    decryption is recorded. *)
Theorem C1_restore_never_decrypts :
  (forall (R : Type) (cfg : Config) (st : Backend R) (enc : option Encryptor)
          (backup_id target : string) (overwrite : bool) (temp_dir : string),
      Manager.restore_backup (mkManager cfg st enc) backup_id target
                             overwrite temp_dir
      = Manager.restore_backup (mkManager cfg st None) backup_id target
                               overwrite temp_dir)
  /\ (let '(r, w) := Manager.restore_backup Sample.plain_manager "b1"
                       "/restore" false "/tmp/tmpab12"
                       (Sample.world_of Sample.fs_encrypted) in
      r = Raise BadZipFile /\ w_trace w = [EvDownload "b1"])
  /\ (let '(r, w) := Manager.restore_backup Sample.fernet_manager "b1"
                       "/restore" false "/tmp/tmpab12"
                       (Sample.world_of Sample.fs_encrypted) in
      r = Raise BadZipFile /\ w_trace w = [EvDownload "b1"]).
Proof.
  split; [|split].
  - intros. apply restore_ignores_encryptor.
  - vm_compute. split; reflexivity.
  - vm_compute. split; reflexivity.
Qed.

(* ================================================================== *)
(** ** Sorting and slicing *)

Section SortFacts.
Context {A : Type}.
Variable lt : A -> A -> bool.
Hypothesis lt_asym : forall a b, lt a b = true -> lt b a = false.

Lemma insert_perm (x : A) (l : list A) :
  Permutation (PyList.insert lt x l) (x :: l).
Proof.
  induction l as [|y r IH]; simpl; [reflexivity|].
  destruct (lt y x); [|reflexivity].
  rewrite IH. apply perm_swap.
Qed.

Lemma stable_sort_perm (l : list A) : Permutation (PyList.stable_sort lt l) l.
Proof.
  induction l as [|x r IH]; simpl; [reflexivity|].
  rewrite insert_perm. now constructor.
Qed.

Lemma stable_sort_length (l : list A) :
  List.length (PyList.stable_sort lt l) = List.length l.
Proof. apply Permutation_length, stable_sort_perm. Qed.

Lemma insert_hd (x y : A) (l : list A) :
  may_precede lt y x -> HdRel (may_precede lt) y l ->
  HdRel (may_precede lt) y (PyList.insert lt x l).
Proof.
  intros Hyx Hl. destruct l as [|z r]; simpl.
  - now constructor.
  - destruct (lt z x); constructor; [now inversion Hl | exact Hyx].
Qed.

Lemma insert_sorted (x : A) (l : list A) :
  Sorted (may_precede lt) l -> Sorted (may_precede lt) (PyList.insert lt x l).
Proof.
  induction l as [|y r IH]; intros Hs; simpl.
  - repeat constructor.
  - inversion Hs as [|? ? Hr Hhd]; subst.
    destruct (lt y x) eqn:E.
    + constructor; [now apply IH|].
      apply insert_hd; [now apply lt_asym | exact Hhd].
    + constructor; [exact Hs|]. constructor. exact E.
Qed.

Lemma stable_sort_sorted (l : list A) :
  Sorted (may_precede lt) (PyList.stable_sort lt l).
Proof.
  induction l as [|x r IH]; simpl; [constructor | now apply insert_sorted].
Qed.

(** A list that is sorted already is left as it is: elements that
    compare equal keep their order. *)
Lemma stable_sort_fixes_sorted (l : list A) :
  Sorted (may_precede lt) l -> PyList.stable_sort lt l = l.
Proof.
  induction 1 as [|x r _ IH Hhd]; simpl; [reflexivity|].
  rewrite IH. destruct Hhd as [|y r' Hxy]; simpl; [reflexivity|].
  unfold may_precede in Hxy. now rewrite Hxy.
Qed.

End SortFacts.

Section StampFacts.

Lemma string_ltb_asym (a b : string) :
  String.ltb a b = true -> String.ltb b a = false.
Proof.
  unfold String.ltb. rewrite (String.compare_antisym b a).
  destruct (String.compare a b); simpl; congruence.
Qed.

Lemma stamp_ltb_asym (a b : Stamp) :
  PyList.stamp_ltb a b = true -> PyList.stamp_ltb b a = false.
Proof.
  destruct a, b; simpl; try congruence.
  - apply string_ltb_asym.
  - intros H. apply Z.ltb_lt in H. apply Z.ltb_ge. lia.
Qed.

Lemma sort_by_ascending {A} (key : A -> Stamp) (l sorted : list A) :
  PyList.sort_by key false l = Ok sorted ->
  ascending key sorted /\ Permutation sorted l.
Proof.
  unfold PyList.sort_by. destruct (PyList.homogeneous (map key l)); [|discriminate].
  intros H. injection H as <-. split.
  - apply (stable_sort_sorted (fun y x => PyList.stamp_ltb (key y) (key x))).
    intros a b. apply stamp_ltb_asym.
  - apply stable_sort_perm.
Qed.

Lemma sort_by_total {A} (key : A -> Stamp) (l : list A) :
  PyList.homogeneous (map key l) = true ->
  exists sorted, PyList.sort_by key false l = Ok sorted.
Proof. intros H. unfold PyList.sort_by. rewrite H. eauto. Qed.

End StampFacts.

Section SliceFacts.

Lemma slice_to_zero {A} (l : list A) : PyList.slice_to l (- 0) = [].
Proof.
  unfold PyList.slice_to. cbn [Z.opp Z.ltb Z.compare].
  rewrite Z.min_l by lia. reflexivity.
Qed.

(** With [keep_last = 0] nothing is selected. *)
Lemma select_to_delete_zero (backups : list BackupRecord) :
  Manager.select_to_delete backups 0 = [].
Proof.
  unfold Manager.select_to_delete.
  destruct (_ >? 0)%Z; [apply slice_to_zero | reflexivity].
Qed.

(** With a positive [keep_last] the oldest [len - keep_last] records are
    selected. *)
Lemma select_to_delete_pos (backups : list BackupRecord) (k : Z) :
  (0 < k)%Z ->
  Manager.select_to_delete backups k
  = firstn (List.length backups - Z.to_nat k) backups.
Proof.
  intros Hk. unfold Manager.select_to_delete, PyList.slice_to.
  destruct (Z.gtb_spec (Z.of_nat (List.length backups)) k) as [Hgt|Hle].
  - replace (- k <? 0)%Z with true by (symmetry; apply Z.ltb_lt; lia).
    f_equal. lia.
  - replace (List.length backups - Z.to_nat k)%nat with 0%nat by lia.
    reflexivity.
Qed.

End SliceFacts.

(* ================================================================== *)
(** ** Retention *)

Ltac run_monad :=
  unfold Manager.storage_delete, Manager.storage_list_backups,
    Manager.storage_download, try_except, finally, bind, ret, raise, log,
    lift_fs, lift_env, get_env, of_option; cbn [w_env w_trace fst snd].

Section CleanupFacts.
Context {R : Type}.
Variable self : BackupManager R.

Lemma deletes_of_app (a b : list Event) :
  deletes_of (a ++ b) = (deletes_of a ++ deletes_of b)%list.
Proof. apply flat_map_app. Qed.

(** The loop attempts every candidate, in order, whatever the earlier
    deletions answered, and counts exactly the successful ones. *)
Lemma delete_each_spec (to_delete : list BackupRecord) :
  forall (c f : Z) (w : World R),
  exists tr,
    Manager.delete_each self to_delete c f w
    = (Ok ((c + count (filter succeeded
                         (fst (attempts (storage self) to_delete (w_env w)))))%Z,
           (f + sum_sizes (filter succeeded
                         (fst (attempts (storage self) to_delete (w_env w)))))%Z),
       mkWorld (snd (attempts (storage self) to_delete (w_env w))) tr)
    /\ deletes_of tr = (deletes_of (w_trace w) ++ map id to_delete)%list.
Proof.
  induction to_delete as [|b rest IH]; intros c f w.
  - exists (w_trace w). cbn. rewrite !Z.add_0_r, app_nil_r.
    destruct w; split; reflexivity.
  - cbn [Manager.delete_each attempts]. run_monad.
    destruct (sb_delete (storage self) (id b) (w_env w)) as [r e1] eqn:E.
    destruct (attempts (storage self) rest e1) as [rs e2] eqn:Er.
    assert (Hstep : forall c' f' tr1,
               deletes_of tr1 = (deletes_of (w_trace w) ++ [id b])%list ->
               (c' + count (filter succeeded rs)
                = c + count (filter succeeded ((b, r) :: rs)))%Z ->
               (f' + sum_sizes (filter succeeded rs)
                = f + sum_sizes (filter succeeded ((b, r) :: rs)))%Z ->
               exists tr,
                 Manager.delete_each self rest c' f' (mkWorld e1 tr1)
                 = (Ok ((c + count (filter succeeded ((b, r) :: rs)))%Z,
                        (f + sum_sizes (filter succeeded ((b, r) :: rs)))%Z),
                    mkWorld e2 tr)
                 /\ deletes_of tr
                    = (deletes_of (w_trace w) ++ id b :: map id rest)%list).
    { intros c' f' tr1 Htr Hc Hf.
      destruct (IH c' f' (mkWorld e1 tr1)) as [tr [Heq Hd]].
      cbn [w_env w_trace] in Heq, Hd. rewrite Er in Heq. cbn [fst snd] in Heq.
      exists tr. split.
      - rewrite Heq, Hc, Hf. reflexivity.
      - rewrite Hd, Htr, <- app_assoc. reflexivity. }
    cbn [fst snd].
    destruct r as [[|]|x]; cbn [fst snd w_env w_trace]; apply Hstep;
      cbn [w_env w_trace];
      rewrite ?deletes_of_app; cbn [deletes_of flat_map app];
      rewrite ?app_nil_r; try reflexivity;
      unfold count, sum_sizes, succeeded;
      cbn [filter snd fst map fold_right List.length];
      lia.
Qed.

End CleanupFacts.

Section CleanupRuns.
Context {R : Type}.

(** A dry run depends on the world only through its environment. *)
Lemma cleanup_dry_run_env (self : BackupManager R) (w1 w2 : World R) :
  w_env w1 = w_env w2 ->
  fst (Manager.cleanup_old_backups self true w1)
  = fst (Manager.cleanup_old_backups self true w2).
Proof.
  intros He. unfold Manager.cleanup_old_backups. run_monad. rewrite He.
  destruct (sb_list_backups (storage self) (w_env w2)) as [[|b bs]|x];
    try reflexivity.
  destruct (PyList.sort_by Manager.sort_key false (b :: bs)); reflexivity.
Qed.

Lemma cleanup_dry_run_frame (self : BackupManager R) (w : World R) :
  snd (Manager.cleanup_old_backups self true w)
  = mkWorld (w_env w) (w_trace w ++ [EvList]).
Proof.
  unfold Manager.cleanup_old_backups. run_monad.
  destruct (sb_list_backups (storage self) (w_env w)) as [[|b bs]|x];
    try reflexivity.
  destruct (PyList.sort_by Manager.sort_key false (b :: bs)); reflexivity.
Qed.

End CleanupRuns.

(** C2: the slice [backups[:-keep_last]] is empty for [keep_last = 0],
    so nothing is selected then, whatever the records; the claim asks for
    every record.  On the sample directory of five backups the dry run
    with [keep_last = 0] selects none and keeps five. *)
Theorem C2_keep_last_zero_selects_nothing :
  (forall backups : list BackupRecord,
      Manager.select_to_delete backups 0 = [])
  /\ fst (Manager.cleanup_old_backups (Sample.keeping 0) true
            (Sample.world_of Sample.fs_retention))
     = Ok (mkCleanupResult None None [] (Some 5%Z) (Some 5%Z)).
Proof.
  split.
  - apply select_to_delete_zero.
  - vm_compute. reflexivity.
Qed.

(** C6: in a cleanup that is no dry run every candidate is handed to the
    backend's delete, in order, whatever the earlier deletions did
    (returned false or raised), and the counters returned are the number
    and the total size of the candidates whose delete returned true. *)
Theorem C6_cleanup_counts_successful_deletes :
  forall (R : Type) (self : BackupManager R) (w : World R)
         (backups sorted : list BackupRecord),
    sb_list_backups (storage self) (w_env w) = Ok backups ->
    backups <> [] ->
    PyList.sort_by Manager.sort_key false backups = Ok sorted ->
    let candidates :=
      Manager.select_to_delete sorted
        (get (keep_last (get (retention (config self)) (mkRetentionCfg None)))
             30%Z) in
    let answers := attempts (storage self) candidates (w_env w) in
    exists tr,
      Manager.cleanup_old_backups self false w
      = (Ok (mkCleanupResult
               (Some (count (filter succeeded (fst answers))))
               (Some (sum_sizes (filter succeeded (fst answers))))
               candidates None None),
         mkWorld (snd answers) tr)
      /\ deletes_of tr = (deletes_of (w_trace w) ++ map id candidates)%list.
Proof.
  intros R self w backups sorted Hlist Hne Hsort candidates answers.
  unfold Manager.cleanup_old_backups. run_monad. rewrite Hlist.
  destruct backups as [|b bs]; [congruence|].
  rewrite Hsort. fold candidates.
  destruct (delete_each_spec self candidates 0%Z 0%Z
              (mkWorld (w_env w) (w_trace w ++ [EvList]))) as [tr [Heq Hd]].
  cbn [w_env w_trace] in Heq, Hd. fold answers in Heq.
  exists tr. split.
  - rewrite Heq. reflexivity.
  - rewrite Hd, deletes_of_app. cbn. now rewrite app_nil_r.
Qed.

Lemma C6_cleanup_counts_successful_deletes_witness :
  exists tr,
    Manager.cleanup_old_backups (Sample.keeping 2) false
      (Sample.world_of Sample.fs_retention)
    = (Ok (mkCleanupResult (Some 1%Z) (Some 120%Z)
             [Sample.rec_old; Sample.rec_e0; Sample.rec_b1] None None),
       mkWorld
         (mkEnv [ (PyPath.parse "/backups", Dir 4096 10);
                  (PyPath.parse "/backups/b2.zip",
                   File (ZipArchive [("a.txt", Bytes "22")] 220) 200);
                  (PyPath.parse "/backups/old.zip", Dir 4096 50);
                  (PyPath.parse "/backups/b3.zip",
                   File (ZipArchive [("a.txt", Bytes "333")] 330) 300);
                  (PyPath.parse "/backups/e0.zip.enc",
                   File (Encrypted "secret" "Fernet" Sample.archive_a 160) 60) ]
                tt 1704067200 10800) tr)
    /\ deletes_of tr = ["old"; "e0.zip"; "b1"].
Proof.
  apply (C6_cleanup_counts_successful_deletes unit (Sample.keeping 2)
           (Sample.world_of Sample.fs_retention)
           [Sample.rec_b3; Sample.rec_b2; Sample.rec_b1; Sample.rec_e0;
            Sample.rec_old]
           [Sample.rec_old; Sample.rec_e0; Sample.rec_b1; Sample.rec_b2;
            Sample.rec_b3]).
  - vm_compute. reflexivity.
  - discriminate.
  - vm_compute. reflexivity.
Defined.

(** C7: a dry run calls the backend's listing and nothing else; it leaves
    the environment (file system and remote state) as it was, and a dry
    run in any world with the same environment, the one it leaves
    included, returns the same result. *)
Theorem C7_dry_run_changes_nothing :
  forall (R : Type) (self : BackupManager R) (w : World R),
    let '(r, w') := Manager.cleanup_old_backups self true w in
    w_env w' = w_env w
    /\ w_trace w' = (w_trace w ++ [EvList])%list
    /\ fst (Manager.cleanup_old_backups self true w') = r
    /\ forall w2, w_env w2 = w_env w ->
                  fst (Manager.cleanup_old_backups self true w2) = r.
Proof.
  intros R self w.
  pose proof (cleanup_dry_run_frame self w) as Hframe.
  destruct (Manager.cleanup_old_backups self true w) as [r w'] eqn:E.
  cbn [snd] in Hframe. subst w'. cbn [w_env w_trace].
  repeat split.
  - rewrite (cleanup_dry_run_env self
               (mkWorld (w_env w) (w_trace w ++ [EvList])) w eq_refl), E.
    reflexivity.
  - intros w2 H2. rewrite (cleanup_dry_run_env self w2 w H2), E. reflexivity.
Qed.

(* ================================================================== *)
(** ** Restore onto a target in use *)

Section TargetFacts.

Lemma is_dir_exists (fs : FS.t) (p : PyPath.Path) :
  FS.is_dir fs p = true -> FS.exists_ fs p = true.
Proof.
  unfold FS.is_dir, FS.exists_. destruct (FS.lookup fs p) as [[|]|];
    congruence.
Qed.

End TargetFacts.

(** C8: when the target is a directory with at least one entry and
    [overwrite] is false, [restore_backup] raises [FileExistsError] (the
    code's error for a target that is not empty) and leaves the world as
    it was: no call on the storage backend is recorded and the file
    system, the target directory included, is the same. *)
Theorem C8_restore_refuses_target_in_use :
  forall (R : Type) (self : BackupManager R) (backup_id target temp_dir : string)
         (w : World R),
    FS.is_dir (e_fs (w_env w)) (PyPath.parse target) = true ->
    FS.iterdir (e_fs (w_env w)) (PyPath.parse target) <> [] ->
    Manager.restore_backup self backup_id target false temp_dir w
    = (Raise FileExistsError, w).
Proof.
  intros R self backup_id target temp_dir w Hdir Hne.
  unfold Manager.restore_backup, Manager.check_target. run_monad.
  rewrite (is_dir_exists _ _ Hdir), Hdir. cbn [negb andb].
  destruct (FS.iterdir (e_fs (w_env w)) (PyPath.parse target)); [congruence|].
  reflexivity.
Qed.

Lemma C8_restore_refuses_target_in_use_witness :
  Manager.restore_backup Sample.plain_manager "b2" "/restore" false
    "/tmp/tmpab12" (Sample.world_of Sample.fs_tree)
  = (Raise FileExistsError, Sample.world_of Sample.fs_tree).
Proof.
  apply (C8_restore_refuses_target_in_use unit Sample.plain_manager "b2"
           "/restore" "/tmp/tmpab12" (Sample.world_of Sample.fs_tree)).
  - vm_compute. reflexivity.
  - vm_compute. discriminate.
Defined.

(* ================================================================== *)
(** ** Backup identifiers *)

Section IdFacts.

Lemma digits_length (w : nat) :
  forall (n : Z) (acc : string),
    String.length (PyStr.digits w n acc) = (w + String.length acc)%nat.
Proof.
  induction w as [|w IH]; intros n acc; simpl; [reflexivity|].
  rewrite IH. simpl. lia.
Qed.

Lemma zpad_length (w : nat) (n : Z) : String.length (PyStr.zpad w n) = w.
Proof. unfold PyStr.zpad. rewrite digits_length. simpl. lia. Qed.

(** The time stamp always has nineteen characters. *)
Lemma strftime_id_length (dt : PyTime.datetime) :
  String.length (PyTime.strftime_id dt) = 19%nat.
Proof.
  unfold PyTime.strftime_id.
  repeat (rewrite append_length || rewrite zpad_length). reflexivity.
Qed.

End IdFacts.

(** C9, as the claim states it, fails: the time stamp is taken from
    [datetime.now()], the local time.  On a machine three hours east of
    UTC the identifier generated at 2024-01-01 00:00:00 UTC carries
    03-00-00, not the UTC time, and two machines with one name and one
    UTC instant but different offsets generate different identifiers. *)
Lemma C9_id_is_not_utc :
  fst (Manager._generate_backup_id Sample.plain_manager
         (Sample.world_of []))
  = Ok "default-backup_2024-01-01_03-00-00"
  /\ PyTime.strftime_id (PyTime.utcnow (w_env (Sample.world_of [])))
     = "2024-01-01_00-00-00"
  /\ ~ (forall e1 e2 : Env unit,
           e_clock e1 = e_clock e2 ->
           fst (Manager._generate_backup_id Sample.plain_manager
                  (mkWorld e1 []))
           = fst (Manager._generate_backup_id Sample.plain_manager
                    (mkWorld e2 []))).
Proof.
  split; [vm_compute; reflexivity|]. split; [vm_compute; reflexivity|].
  intros H.
  specialize (H (mkEnv [] tt 1704067200 0) (mkEnv [] tt 1704067200 10800)
                eq_refl).
  vm_compute in H. discriminate H.
Qed.

(** C9, amended: the identifier is the configured name ([backup] when
    none is configured), an underscore and the local time of creation in
    the nineteen characters of [%Y-%m-%d_%H-%M-%S]; generating it changes
    nothing, and two generations with the same configured name and the
    same local time give the same identifier. *)
Theorem C9_backup_id_is_name_and_local_time :
  forall (R : Type) (self1 self2 : BackupManager R) (w1 w2 : World R),
    backup_name (backup (config self1)) = backup_name (backup (config self2)) ->
    PyTime.now (w_env w1) = PyTime.now (w_env w2) ->
    Manager._generate_backup_id self1 w1
    = (Ok (get (backup_name (backup (config self1))) "backup" ++ "_"
           ++ PyTime.strftime_id (PyTime.now (w_env w1))), w1)
    /\ String.length (PyTime.strftime_id (PyTime.now (w_env w1))) = 19%nat
    /\ fst (Manager._generate_backup_id self1 w1)
       = fst (Manager._generate_backup_id self2 w2).
Proof.
  intros R self1 self2 w1 w2 Hname Hnow.
  unfold Manager._generate_backup_id. run_monad.
  rewrite Hname, Hnow.
  split; [reflexivity|]. split; [apply strftime_id_length | reflexivity].
Qed.

Lemma C9_backup_id_is_name_and_local_time_witness :
  Manager._generate_backup_id Sample.plain_manager
    (Sample.world_of Sample.fs_tree)
  = (Ok "default-backup_2024-01-01_03-00-00", Sample.world_of Sample.fs_tree)
  /\ String.length "2024-01-01_03-00-00" = 19%nat
  /\ fst (Manager._generate_backup_id Sample.plain_manager
            (Sample.world_of Sample.fs_tree))
     = fst (Manager._generate_backup_id Sample.fernet_manager
              (mkWorld (mkEnv [] tt 1704078000 0) [])).
Proof.
  apply (C9_backup_id_is_name_and_local_time unit Sample.plain_manager
           Sample.fernet_manager (Sample.world_of Sample.fs_tree)
           (mkWorld (mkEnv [] tt 1704078000 0) [])).
  - reflexivity.
  - vm_compute. reflexivity.
Defined.

(* ================================================================== *)
(** ** Exclusion patterns *)

Section ExcludeFacts.
Import PyPath.

(** What [_should_exclude] decides: some pattern matches the path as it
    was handed in, or its file name. *)
Lemma should_exclude_iff (file_path : Path) (patterns : list string) :
  Manager._should_exclude file_path patterns = true <->
  exists pattern,
    In pattern patterns
    /\ (Fnmatch.fnmatch (str file_path) pattern = true
        \/ Fnmatch.fnmatch (name file_path) pattern = true).
Proof.
  unfold Manager._should_exclude. rewrite existsb_exists.
  split; intros [pat [Hin H]]; exists pat; split; auto.
  - now apply orb_true_iff.
  - now apply orb_true_iff.
Qed.

End ExcludeFacts.

(** C5: the patterns are matched against the path as the scan produced
    it, which starts with the source directory, and not against the path
    relative to the source.  For the file [/path/to/temp/file.txt] and the
    patterns of the repository's own test, [_should_exclude] answers
    false, where the test expects true: the relative path
    [temp/file.txt] matches [temp/*].  The scan of [/path/to] keeps the
    file.  In the other direction a pattern on the path with the source
    directory excludes a file whose relative path and name do not match. *)
Theorem C5_exclusion_matches_the_full_path :
  Manager._should_exclude (PyPath.parse "/path/to/temp/file.txt")
    ["*.log"; "temp/*"; "backup_*.tmp"] = false
  /\ (exists rel,
         PyPath.relative_to (PyPath.parse "/path/to/temp/file.txt")
                            (PyPath.parse "/path/to") = Some rel
         /\ PyPath.str rel = "temp/file.txt"
         /\ Fnmatch.fnmatch (PyPath.str rel) "temp/*" = true)
  /\ fst (Manager._scan_files Sample.plain_manager (PyPath.parse "/path/to")
            (Sample.world_of Sample.fs_tree))
     = Ok [PyPath.parse "/path/to/normal.txt";
           PyPath.parse "/path/to/temp/file.txt"]
  /\ Manager._should_exclude (PyPath.parse "/path/to/normal.txt")
       ["/path/*"] = true
  /\ Fnmatch.fnmatch "normal.txt" "/path/*" = false.
Proof.
  split; [vm_compute; reflexivity|].
  split; [eexists; repeat split; vm_compute; reflexivity|].
  repeat split; vm_compute; reflexivity.
Qed.

(* ================================================================== *)
(** ** The file system *)

Section FsFacts.
Import PyPath.

Lemma path_eqb_eq (p q : Path) : PyPath.eqb p q = true <-> p = q.
Proof.
  unfold PyPath.eqb. destruct p as [rp pp], q as [rq pq]; cbn [root parts].
  destruct (list_eq_dec string_dec pp pq) as [->|Hne].
  - rewrite andb_true_r, String.eqb_eq. split; [now intros -> | congruence].
  - rewrite andb_false_r. split; [discriminate | congruence].
Qed.

Lemma path_eqb_neq (p q : Path) : p <> q -> PyPath.eqb p q = false.
Proof.
  intros H. destruct (PyPath.eqb p q) eqn:E; [|reflexivity].
  now apply path_eqb_eq in E.
Qed.

Lemma lookup_write_same (fs : FS.t) (p : Path) (n : Node) :
  FS.lookup (FS.write fs p n) p = Some n.
Proof.
  induction fs as [|[k m] r IH]; simpl.
  - now rewrite (proj2 (path_eqb_eq p p) eq_refl).
  - destruct (PyPath.eqb k p) eqn:E; simpl.
    + now rewrite (proj2 (path_eqb_eq p p) eq_refl).
    + now rewrite E.
Qed.

Lemma lookup_write_other (fs : FS.t) (p q : Path) (n : Node) :
  q <> p -> FS.lookup (FS.write fs p n) q = FS.lookup fs q.
Proof.
  intros Hne. induction fs as [|[k m] r IH]; simpl.
  - rewrite path_eqb_neq by congruence. reflexivity.
  - destruct (PyPath.eqb k p) eqn:E; simpl.
    + apply path_eqb_eq in E. subst k.
      rewrite !path_eqb_neq by congruence. reflexivity.
    + destruct (PyPath.eqb k q); [reflexivity | exact IH].
Qed.

Lemma lookup_mkdir_other (now : Z) (fs : FS.t) (d q : Path) :
  q <> d -> FS.lookup (FS.mkdir_if_absent now fs d) q = FS.lookup fs q.
Proof.
  intros Hne. unfold FS.mkdir_if_absent.
  destruct (FS.exists_ fs d); [reflexivity|].
  now apply lookup_write_other.
Qed.

Lemma lookup_mkdirs_other (now : Z) (l : list Path) (q : Path) :
  ~ In q l ->
  forall fs, FS.lookup (fold_left (FS.mkdir_if_absent now) l fs) q
             = FS.lookup fs q.
Proof.
  induction l as [|d r IH]; intros Hq fs; simpl; [reflexivity|].
  rewrite IH by (intros H; apply Hq; now right).
  apply lookup_mkdir_other. intros ->. apply Hq. now left.
Qed.

Lemma prefixes_cases (l x : list string) :
  In x (FS.prefixes l) -> x = l \/ In x (FS.prefixes (removelast l)).
Proof.
  revert x. induction l as [|a r IH]; intros x Hx; simpl in Hx; [tauto|].
  destruct Hx as [<-|Hx].
  - destruct r; [now left | right; now left].
  - apply in_map_iff in Hx as [y [<- Hy]].
    destruct (IH y Hy) as [->|Hin]; [now left|].
    right. destruct r as [|b r]; [contradiction|].
    change (removelast (a :: b :: r)) with (a :: removelast (b :: r)).
    simpl. right. apply in_map_iff. eauto.
Qed.

Lemma chain_touched (p q : Path) : In q (FS.chain p) -> In q (touched p).
Proof.
  unfold FS.chain, touched, FS.ancestors. intros H.
  apply in_map_iff in H as [x [<- Hx]].
  destruct (prefixes_cases _ _ Hx) as [->|Hin].
  - left. now destruct p.
  - right. apply in_map_iff. eauto.
Qed.

Lemma makedirs_frame (now : Z) (fs fs' : FS.t) (d q : Path) :
  FS.makedirs now fs d = Ok fs' -> ~ In q (touched d) ->
  FS.lookup fs' q = FS.lookup fs q.
Proof.
  unfold FS.makedirs. destruct (existsb _ _); [discriminate|].
  intros H Hq. injection H as <-. apply lookup_mkdirs_other.
  intros Hin. apply Hq. now apply chain_touched.
Qed.

Lemma mkdirs_keep (now : Z) (l : list Path) (p : Path) (n : Node) :
  forall fs, FS.lookup fs p = Some n ->
             FS.lookup (fold_left (FS.mkdir_if_absent now) l fs) p = Some n.
Proof.
  induction l as [|d r IH]; intros fs H; [exact H|]. cbn [fold_left].
  apply IH. unfold FS.mkdir_if_absent.
  destruct (FS.exists_ fs d) eqn:E; [exact H|].
  rewrite lookup_write_other; [exact H|]. intros ->.
  unfold FS.exists_ in E. now rewrite H in E.
Qed.

Lemma makedirs_keep (now : Z) (fs fs' : FS.t) (d p : Path) (n : Node) :
  FS.makedirs now fs d = Ok fs' -> FS.lookup fs p = Some n ->
  FS.lookup fs' p = Some n.
Proof.
  unfold FS.makedirs. destruct (existsb _ _); [discriminate|].
  intros H. injection H as <-. apply mkdirs_keep.
Qed.




Lemma write_file_frame (now : Z) (fs fs' : FS.t) (p q : Path) (c : Blob) :
  FS.write_file now fs p c = Ok fs' -> ~ In q (touched p) ->
  FS.lookup fs' q = FS.lookup fs q.
Proof.
  unfold FS.write_file. destruct (existsb _ _); [discriminate|].
  destruct (FS.is_dir fs p); [discriminate|].
  intros H Hq. injection H as <-.
  rewrite lookup_write_other by (intros ->; apply Hq; now left).
  apply lookup_mkdirs_other. intros Hin. apply Hq. now right.
Qed.

End FsFacts.

(* ================================================================== *)
(** ** Extraction *)

Section ExtractFacts.
Import PyPath.


Lemma norm_step_valid (absolute : bool) (acc : list string) (c : string) :
  ZipFile.invalid_path_part c = false ->
  ZipFile.norm_step absolute acc c = (acc ++ [c])%list.
Proof.
  unfold ZipFile.invalid_path_part, ZipFile.norm_step. intros H.
  apply orb_false_iff in H as [H Hdd]. rewrite H, Hdd. reflexivity.
Qed.

Lemma normalise_valid (absolute : bool) (l : list string) :
  Forall (fun c => ZipFile.invalid_path_part c = false) l ->
  forall acc, fold_left (ZipFile.norm_step absolute) l acc = (acc ++ l)%list.
Proof.
  induction 1 as [|c r Hc _ IH]; intros acc; simpl.
  - now rewrite app_nil_r.
  - rewrite (norm_step_valid _ _ _ Hc), IH, <- app_assoc. reflexivity.
Qed.


Lemma extract_path (now : Z) (fs fs' : FS.t) (es : ZipFile.entries)
      (member : string) (target p : Path) :
  ZipFile.extract now fs es member target = Ok (p, fs') ->
  p = ZipFile.extract_target target member.
Proof.
  unfold ZipFile.extract. destruct (ZipFile.getinfo es member); [|discriminate].
  destruct (ZipFile.sanitize member) eqn:Es, (ZipFile.ends_with_slash member);
    try discriminate;
    try (destruct (FS.makedirs _ _ _); [|discriminate]; congruence);
    try (destruct (FS.write_file _ _ _ _); [|discriminate]; congruence).
Qed.

(** What the extraction of one member that names a file does. *)
Lemma extract_file (now : Z) (fs fs' : FS.t) (es : ZipFile.entries)
      (member : string) (target p : Path) :
  ZipFile.extract now fs es member target = Ok (p, fs') ->
  ZipFile.ends_with_slash member = false ->
  exists d,
    ZipFile.getinfo es member = Some d
    /\ p = ZipFile.extract_target target member
    /\ fs' = FS.write (fold_left (FS.mkdir_if_absent now) (FS.ancestors p) fs)
                      p (File d now).
Proof.
  unfold ZipFile.extract. intros H Hfile. rewrite Hfile in H.
  destruct (ZipFile.getinfo es member) as [d|]; [|discriminate].
  exists d. split; [reflexivity|].
  destruct (ZipFile.sanitize member); [discriminate|].
  destruct (FS.write_file _ _ _ _) as [fs2|x] eqn:E; [|discriminate].
  injection H as <- <-. split; [reflexivity|].
  unfold FS.write_file in E. destruct (existsb _ _); [discriminate|].
  destruct (FS.is_dir _ _); [discriminate|]. congruence.
Qed.


Lemma extract_frame (now : Z) (fs fs' : FS.t) (es : ZipFile.entries)
      (member : string) (target p q : Path) :
  ZipFile.extract now fs es member target = Ok (p, fs') ->
  ~ In q (touched (ZipFile.extract_target target member)) ->
  FS.lookup fs' q = FS.lookup fs q.
Proof.
  unfold ZipFile.extract. destruct (ZipFile.getinfo es member); [|discriminate].
  intros H Hq.
  destruct (ZipFile.sanitize member) eqn:Es, (ZipFile.ends_with_slash member);
    try discriminate.
  all: try (destruct (FS.makedirs _ _ _) eqn:E; [|discriminate];
            injection H as _ <-; now apply (makedirs_frame _ _ _ _ _ E)).
  all: destruct (FS.write_file _ _ _ _) eqn:E; [|discriminate];
    injection H as _ <-; now apply (write_file_frame _ _ _ _ _ _ E).
Qed.

Context {R : Type}.

(** The loop extracts the members in order; the file system changes
    only where the members are put. *)
Lemma extract_all_spec (es : ZipFile.entries) (target : Path)
      (members : list string) :
  forall (acc : list Path) (w w' : World R) (r : Result (list Path)),
    Manager.extract_all es members target acc w = (r, w') ->
    w_trace w' = w_trace w
    /\ (forall files, r = Ok files ->
          files = (acc ++ map (ZipFile.extract_target target) members)%list)
    /\ (forall q,
          (forall member, In member members ->
              ~ In q (touched (ZipFile.extract_target target member))) ->
          FS.lookup (e_fs (w_env w')) q = FS.lookup (e_fs (w_env w)) q).
Proof.
  induction members as [|m rest IH]; intros acc w w' r.
  - cbn. intros H. injection H as <- <-. repeat split.
    intros files Hf. injection Hf as <-. now rewrite app_nil_r.
  - cbn [Manager.extract_all]. unfold Manager.extract_member. run_monad.
    destruct (ZipFile.extract (e_clock (w_env w)) (e_fs (w_env w)) es m target)
      as [[p fs1]|x] eqn:E.
    + intros H. apply IH in H. cbn [w_env w_trace e_fs set_fs] in H.
      destruct H as [Htr [Hfiles Hframe]]. split; [exact Htr|]. split.
      * intros files Hf. rewrite (Hfiles files Hf), <- app_assoc.
        now rewrite (extract_path _ _ _ _ _ _ _ E).
      * intros q Hq. rewrite Hframe by (intros m' Hm'; apply Hq; now right).
        apply (extract_frame _ _ _ _ _ _ _ _ E). apply Hq. now left.
    + intros H. injection H as <- <-. repeat split. discriminate.
Qed.

Lemma extract_archive_spec (archive_path target : Path)
      (w w' : World R) (r : Result (list Path)) :
  Manager._extract_archive archive_path target w = (r, w') ->
  w_trace w' = w_trace w
  /\ (forall files, r = Ok files ->
        exists es, files = map (ZipFile.extract_target target)
                               (ZipFile.namelist es))
  /\ (forall q,
        ~ In q (touched target) ->
        (forall member, ~ In q (touched (ZipFile.extract_target target member))) ->
        FS.lookup (e_fs (w_env w')) q = FS.lookup (e_fs (w_env w)) q).
Proof.
  unfold Manager._extract_archive. run_monad.
  destruct (FS.makedirs (e_clock (w_env w)) (e_fs (w_env w)) target)
    as [fs1|x] eqn:Emk; cbn [w_env w_trace e_fs set_fs].
  - destruct (ZipFile.open_read fs1 archive_path) as [es|x] eqn:Eopen.
    + intros H. apply extract_all_spec in H.
      cbn [w_env w_trace e_fs set_fs] in H.
      destruct H as [Htr [Hfiles Hframe]]. split; [exact Htr|]. split.
      * intros files Hf. exists es. now apply Hfiles.
      * intros q Hq Hm. rewrite Hframe by (intros m _; apply Hm).
        now apply (makedirs_frame _ _ _ _ _ Emk).
    + intros H. injection H as <- <-. cbn [w_env w_trace e_fs set_fs].
      repeat split; [discriminate|].
      intros q Hq _. now apply (makedirs_frame _ _ _ _ _ Emk).
  - intros H. injection H as <- <-. repeat split. discriminate.
Qed.



End ExtractFacts.




(* ================================================================== *)
(** ** Archive construction *)

Section ArchiveFacts.
Import PyPath.
Context {R : Type}.

(** At a level zlib takes, the loop adds one entry for every input
    file, in order. *)
Lemma archive_entries_spec (level : Z) (fs : FS.t) (source_path : Path)
      (files : list Path) :
  ZipFile.valid_level level = true ->
  Forall (fun f => relative_to f source_path <> None
                   /\ FS.is_file fs f = true) files ->
  forall acc,
    Manager.archive_entries level fs source_path files acc
    = (Ok tt,
       (acc ++ map (fun f => (entry_name source_path f, file_content fs f))
                   files)%list).
Proof.
  intros Hlevel.
  induction 1 as [|f rest [Hrel Hfile] _ IH]; intros acc.
  - cbn. now rewrite app_nil_r.
  - cbn [Manager.archive_entries map]. unfold entry_name, file_content.
    unfold FS.is_file in Hfile.
    destruct (relative_to f source_path) as [rel|]; [|congruence].
    destruct (FS.lookup fs f) as [[c t|]|]; try discriminate.
    rewrite Hlevel, IH, <- app_assoc. reflexivity.
Qed.

(** At any other level the loop stops at the first file, with nothing
    added. *)
Lemma archive_entries_refused (level : Z) (fs : FS.t) (source_path : Path)
      (f : Path) (rest : list Path) (acc : ZipFile.entries) :
  ZipFile.valid_level level = false ->
  relative_to f source_path <> None -> FS.is_file fs f = true ->
  Manager.archive_entries level fs source_path (f :: rest) acc
  = (Raise (ValueError InvalidInitializationOption), acc).
Proof.
  intros Hlevel Hrel Hfile. cbn [Manager.archive_entries].
  unfold FS.is_file in Hfile.
  destruct (relative_to f source_path) as [rel|]; [|congruence].
  destruct (FS.lookup fs f) as [[c t|]|]; try discriminate.
  now rewrite Hlevel.
Qed.

End ArchiveFacts.




(* ================================================================== *)
(** * Further properties of the engine *)

(** ** Retention: which records go and which stay *)

Section RetentionOrder.

Lemma string_ltb_lt (a b : string) :
  String.ltb a b = true <-> Stdlib.Structures.OrderedTypeEx.String_as_OT.lt a b.
Proof.
  unfold String.ltb. rewrite <- Stdlib.Structures.OrderedTypeEx.String_as_OT.cmp_lt.
  unfold Stdlib.Structures.OrderedTypeEx.String_as_OT.cmp.
  destruct (String.compare a b); split; congruence.
Qed.

Lemma string_ltb_total (a b : string) :
  String.ltb a b = false -> a = b \/ String.ltb b a = true.
Proof.
  unfold String.ltb. rewrite (String.compare_antisym b a).
  destruct (String.compare a b) eqn:E; simpl; intros H; try discriminate.
  - left. now apply String.compare_eq_iff.
  - now right.
Qed.

(** On strings [<=] is transitive. *)
Lemma string_not_ltb_trans (a b c : string) :
  String.ltb b a = false -> String.ltb c b = false -> String.ltb c a = false.
Proof.
  intros Hba Hcb. destruct (String.ltb c a) eqn:Hca; [|reflexivity].
  apply string_ltb_lt in Hca.
  destruct (string_ltb_total _ _ Hba) as [->|Hab].
  - apply string_ltb_lt in Hca. congruence.
  - apply string_ltb_lt in Hab.
    pose proof (Stdlib.Structures.OrderedTypeEx.String_as_OT.lt_trans _ _ _ Hca Hab) as Hcb'.
    apply string_ltb_lt in Hcb'. congruence.
Qed.

Lemma stamp_not_ltb_trans (a b c : Stamp) :
  PyList.same_kind a b = true -> PyList.same_kind b c = true ->
  PyList.stamp_ltb b a = false -> PyList.stamp_ltb c b = false ->
  PyList.stamp_ltb c a = false.
Proof.
  destruct a, b, c; simpl; try discriminate; intros _ _.
  - apply string_not_ltb_trans.
  - intros H1 H2. apply Z.ltb_ge in H1, H2. apply Z.ltb_ge. lia.
Qed.

Lemma same_kind_trans (a b c : Stamp) :
  PyList.same_kind a b = true -> PyList.same_kind b c = true ->
  PyList.same_kind a c = true.
Proof. destruct a, b, c; simpl; congruence. Qed.

Lemma same_kind_sym (a b : Stamp) :
  PyList.same_kind a b = true -> PyList.same_kind b a = true.
Proof. destruct a, b; simpl; congruence. Qed.

(** In a list that sorts without [TypeError] any two keys are of one
    kind. *)
Lemma homogeneous_pairs (ks : list Stamp) :
  PyList.homogeneous ks = true ->
  forall a b, In a ks -> In b ks -> PyList.same_kind a b = true.
Proof.
  destruct ks as [|k r]; [intros _ a b []|]. cbn [PyList.homogeneous].
  intros H. rewrite forallb_forall in H.
  assert (Hk : forall x, In x (k :: r) -> PyList.same_kind k x = true).
  { intros x [<-|Hx]; [destruct k; reflexivity | now apply H]. }
  intros a b Ha Hb.
  apply (same_kind_trans a k b); [apply same_kind_sym|]; now apply Hk.
Qed.

Context {A : Type}.
Variable key : A -> Stamp.

Lemma ascending_head (l : list A) :
  forall x,
    ascending key (x :: l) ->
    (forall a b, In a (x :: l) -> In b (x :: l) ->
                 PyList.same_kind (key a) (key b) = true) ->
    Forall (not_older key x) l.
Proof.
  unfold ascending, not_older, may_precede.
  induction l as [|y r IH]; intros x Hs Hk; [constructor|].
  inversion Hs as [|? ? Hr Hhd]; subst. inversion Hhd as [|? ? Hxy]; subst.
  constructor; [exact Hxy|].
  assert (Hy : Forall (fun b => PyList.stamp_ltb (key b) (key y) = false) r).
  { apply IH; [exact Hr|]. intros; apply Hk; now right. }
  rewrite Forall_forall in *. intros b Hb.
  apply (stamp_not_ltb_trans (key x) (key y) (key b)).
  - apply Hk; cbn; auto.
  - apply Hk; cbn; auto.
  - exact Hxy.
  - now apply Hy.
Qed.

(** In an ascending list of keys of one kind, whatever stands in a
    prefix is not newer than whatever stands behind it. *)
Lemma ascending_split (l1 l2 : list A) :
  ascending key (l1 ++ l2) ->
  (forall a b, In a (l1 ++ l2) -> In b (l1 ++ l2) ->
               PyList.same_kind (key a) (key b) = true) ->
  forall a b, In a l1 -> In b l2 -> not_older key a b.
Proof.
  induction l1 as [|x r IH]; intros Hs Hk a b Ha Hb; [destruct Ha|].
  cbn [app] in Hs, Hk. destruct Ha as [<-|Ha].
  - pose proof (ascending_head _ _ Hs Hk) as Hall.
    rewrite Forall_forall in Hall. apply Hall, in_or_app. now right.
  - apply IH; try assumption.
    + unfold ascending in *. now inversion Hs.
    + intros; apply Hk; now right.
Qed.

End RetentionOrder.

Section RetentionSelection.
Context {R : Type}.
Variable self : BackupManager R.

(** What is selected is always a prefix of the sorted records. *)
Lemma select_to_delete_prefix (sorted : list BackupRecord) (k : Z) :
  exists n, Manager.select_to_delete sorted k = firstn n sorted.
Proof.
  unfold Manager.select_to_delete, PyList.slice_to.
  destruct (_ >? k)%Z; [eauto | now exists 0%nat].
Qed.

(** With a negative [keep_last] the slice counts from the front. *)
Lemma select_to_delete_neg (sorted : list BackupRecord) (k : Z) :
  (k < 0)%Z ->
  Manager.select_to_delete sorted k = firstn (Z.to_nat (- k)) sorted.
Proof.
  intros Hk. unfold Manager.select_to_delete, PyList.slice_to.
  replace (Z.of_nat (List.length sorted) >? k)%Z with true
    by (symmetry; apply Z.gtb_lt; lia).
  replace (- k <? 0)%Z with false by (symmetry; apply Z.ltb_ge; lia).
  destruct (Z.le_ge_cases (- k) (Z.of_nat (List.length sorted))) as [H|H].
  - now rewrite Z.min_l.
  - rewrite Z.min_r by lia. rewrite Nat2Z.id.
    rewrite !firstn_all2; [reflexivity | lia | lia].
Qed.

Lemma dry_run_result (w : World R) (backups sorted : list BackupRecord) :
  sb_list_backups (storage self) (w_env w) = Ok backups ->
  backups <> [] ->
  PyList.sort_by Manager.sort_key false backups = Ok sorted ->
  fst (Manager.cleanup_old_backups self true w)
  = Ok (mkCleanupResult None None
          (Manager.select_to_delete sorted (to_keep_of (config self)))
          (Some (Z.of_nat (List.length sorted)))
          (Some (Z.of_nat (List.length sorted)
                 - Z.of_nat (List.length
                      (Manager.select_to_delete sorted
                         (to_keep_of (config self)))))%Z)).
Proof.
  intros Hlist Hne Hsort. unfold Manager.cleanup_old_backups. run_monad.
  rewrite Hlist. destruct backups as [|b bs]; [congruence|].
  rewrite Hsort. reflexivity.
Qed.

Lemma sort_by_homogeneous {A} (key : A -> Stamp) (l sorted : list A) :
  PyList.sort_by key false l = Ok sorted ->
  PyList.homogeneous (map key l) = true.
Proof.
  unfold PyList.sort_by. destruct (PyList.homogeneous (map key l));
    [reflexivity | discriminate].
Qed.

End RetentionSelection.

(** C10: without a retention section, or with one that has no
    [keep_last], cleanup keeps the thirty newest records and takes all
    older ones, and only those.  Of the listed records sorted by
    [created_at], the thirty last (all, when there are no more) stay and
    none of the others is newer than one that stays; a dry run reports
    exactly the others as [to_delete], and a run hands exactly them to
    the backend's delete, in order, and returns normally. *)
Theorem C10_default_keep_last_is_30 :
  forall (R : Type) (self : BackupManager R) (w : World R)
         (backups sorted : list BackupRecord),
    retention (config self) = None
    \/ retention (config self) = Some (mkRetentionCfg None) ->
    sb_list_backups (storage self) (w_env w) = Ok backups ->
    backups <> [] ->
    PyList.sort_by Manager.sort_key false backups = Ok sorted ->
    let older := firstn (List.length backups - 30) sorted in
    let newest := skipn (List.length backups - 30) sorted in
    let answers := attempts (storage self) older (w_env w) in
    Permutation (older ++ newest) backups
    /\ List.length newest = Nat.min 30 (List.length backups)
    /\ (forall d k, In d older -> In k newest ->
                    not_older Manager.sort_key d k)
    /\ fst (Manager.cleanup_old_backups self true w)
       = Ok (mkCleanupResult None None older
               (Some (Z.of_nat (List.length backups)))
               (Some (Z.of_nat (List.length newest))))
    /\ exists tr,
         Manager.cleanup_old_backups self false w
         = (Ok (mkCleanupResult
                  (Some (count (filter succeeded (fst answers))))
                  (Some (sum_sizes (filter succeeded (fst answers))))
                  older None None),
            mkWorld (snd answers) tr)
         /\ deletes_of tr = (deletes_of (w_trace w) ++ map id older)%list.
Proof.
  intros R self w backups sorted Hcfg Hlist Hne Hsort older newest answers.
  pose proof (sort_by_ascending _ _ _ Hsort) as [Hasc Hperm].
  pose proof (Permutation_length Hperm) as Hlen.
  assert (Happ : (older ++ newest)%list = sorted) by apply firstn_skipn.
  assert (Hsel : Manager.select_to_delete sorted
                   (get (keep_last (get (retention (config self))
                                        (mkRetentionCfg None))) 30%Z)
                 = older).
  { replace (get (keep_last (get (retention (config self))
                                 (mkRetentionCfg None))) 30%Z) with 30%Z
      by (destruct Hcfg as [-> | ->]; reflexivity).
    rewrite (select_to_delete_pos sorted 30) by lia.
    unfold older. rewrite Hlen. reflexivity. }
  split; [rewrite Happ; exact Hperm|].
  split; [unfold newest; rewrite length_skipn; lia|].
  split.
  { intros d k Hd Hk.
    apply (ascending_split Manager.sort_key older newest);
      try assumption; rewrite Happ; [exact Hasc|].
    intros a b Ha Hb.
    apply (homogeneous_pairs (map Manager.sort_key backups)
             (sort_by_homogeneous _ _ _ Hsort));
      apply in_map, (Permutation_in _ Hperm); assumption. }
  split.
  { rewrite (dry_run_result self w backups sorted Hlist Hne Hsort).
    unfold to_keep_of. rewrite Hsel, Hlen. do 3 f_equal.
    unfold older, newest. rewrite length_firstn, length_skipn. lia. }
  unfold Manager.cleanup_old_backups. run_monad. rewrite Hlist.
  destruct backups as [|b bs]; [congruence|].
  rewrite Hsort, Hsel.
  destruct (delete_each_spec self older 0%Z 0%Z
              (mkWorld (w_env w) (w_trace w ++ [EvList]))) as [tr [Heq Hd]].
  cbn [w_env w_trace] in Heq, Hd. fold answers in Heq.
  exists tr. split.
  - rewrite Heq. reflexivity.
  - rewrite Hd, deletes_of_app. cbn. now rewrite app_nil_r.
Qed.

Lemma C10_default_keep_last_is_30_witness :
  let w := Sample.world_of Sample.fs_month in
  let backups := map Sample.rec_month (rev (seq 1 31)) in
  let older := [Sample.rec_month 1] in
  let newest := map Sample.rec_month (seq 2 30) in
  let answers := attempts (storage Sample.plain_manager) older (w_env w) in
  Permutation (older ++ newest) backups
  /\ List.length newest = Nat.min 30 (List.length backups)
  /\ (forall d k, In d older -> In k newest ->
                  not_older Manager.sort_key d k)
  /\ fst (Manager.cleanup_old_backups Sample.plain_manager true w)
     = Ok (mkCleanupResult None None older
             (Some (Z.of_nat (List.length backups)))
             (Some (Z.of_nat (List.length newest))))
  /\ exists tr,
       Manager.cleanup_old_backups Sample.plain_manager false w
       = (Ok (mkCleanupResult
                (Some (count (filter succeeded (fst answers))))
                (Some (sum_sizes (filter succeeded (fst answers))))
                older None None),
          mkWorld (snd answers) tr)
       /\ deletes_of tr = (deletes_of (w_trace w) ++ map id older)%list.
Proof.
  apply (C10_default_keep_last_is_30 unit Sample.plain_manager
           (Sample.world_of Sample.fs_month)
           (map Sample.rec_month (rev (seq 1 31)))
           (map Sample.rec_month (seq 1 31))).
  - left. reflexivity.
  - vm_compute. reflexivity.
  - discriminate.
  - vm_compute. reflexivity.
Defined.

(** A dry run splits the listed records into those to delete and those
    to keep: together they are the listed records, the count of the kept
    ones is what [will_keep] reports, and no record to delete is newer
    than a record kept, whatever [keep_last] is. *)
Theorem cleanup_keeps_the_newest :
  forall (R : Type) (self : BackupManager R) (w : World R)
         (backups sorted : list BackupRecord),
    sb_list_backups (storage self) (w_env w) = Ok backups ->
    backups <> [] ->
    PyList.sort_by Manager.sort_key false backups = Ok sorted ->
    exists r kept,
      fst (Manager.cleanup_old_backups self true w) = Ok r
      /\ (to_delete r ++ kept)%list = sorted
      /\ Permutation (to_delete r ++ kept) backups
      /\ total_backups r = Some (Z.of_nat (List.length backups))
      /\ will_keep r = Some (Z.of_nat (List.length kept))
      /\ forall d k, In d (to_delete r) -> In k kept ->
                     not_older Manager.sort_key d k.
Proof.
  intros R self w backups sorted Hlist Hne Hsort.
  destruct (select_to_delete_prefix sorted (to_keep_of (config self)))
    as [n Hn].
  pose proof (sort_by_ascending _ _ _ Hsort) as [Hasc Hperm].
  eexists. exists (skipn n sorted).
  rewrite (dry_run_result self w backups sorted Hlist Hne Hsort), Hn.
  cbn [to_delete total_backups will_keep].
  assert (Happ : (firstn n sorted ++ skipn n sorted)%list = sorted)
    by apply firstn_skipn.
  split; [reflexivity|]. cbn [to_delete total_backups will_keep].
  split; [exact Happ|]. split; [now rewrite Happ|].
  split; [now rewrite (Permutation_length Hperm)|].
  split.
  - f_equal. rewrite length_firstn, length_skipn. lia.
  - intros d k Hd Hk.
    apply (ascending_split Manager.sort_key (firstn n sorted) (skipn n sorted));
      try assumption; rewrite Happ; [exact Hasc|].
    intros a b Ha Hb.
    apply (homogeneous_pairs (map Manager.sort_key backups)
             (sort_by_homogeneous _ _ _ Hsort));
      apply in_map, (Permutation_in _ Hperm); assumption.
Qed.

Lemma cleanup_keeps_the_newest_witness :
  exists r kept,
    fst (Manager.cleanup_old_backups (Sample.keeping 2) true
           (Sample.world_of Sample.fs_retention)) = Ok r
    /\ (to_delete r ++ kept)%list
       = [Sample.rec_old; Sample.rec_e0; Sample.rec_b1; Sample.rec_b2;
          Sample.rec_b3]
    /\ Permutation (to_delete r ++ kept)
         [Sample.rec_b3; Sample.rec_b2; Sample.rec_b1; Sample.rec_e0;
          Sample.rec_old]
    /\ total_backups r = Some 5%Z
    /\ will_keep r = Some (Z.of_nat (List.length kept))
    /\ forall d k, In d (to_delete r) -> In k kept ->
                   not_older Manager.sort_key d k.
Proof.
  apply (cleanup_keeps_the_newest unit (Sample.keeping 2)
           (Sample.world_of Sample.fs_retention)
           [Sample.rec_b3; Sample.rec_b2; Sample.rec_b1; Sample.rec_e0;
            Sample.rec_old]
           [Sample.rec_old; Sample.rec_e0; Sample.rec_b1; Sample.rec_b2;
            Sample.rec_b3]).
  - vm_compute. reflexivity.
  - discriminate.
  - vm_compute. reflexivity.
Defined.

(** With a positive [keep_last] a dry run reports [min(len, keep_last)]
    records to keep and selects the other [len - keep_last]. *)
Theorem cleanup_counts_with_positive_keep_last :
  forall (R : Type) (self : BackupManager R) (w : World R)
         (backups sorted : list BackupRecord),
    sb_list_backups (storage self) (w_env w) = Ok backups ->
    backups <> [] ->
    PyList.sort_by Manager.sort_key false backups = Ok sorted ->
    (0 < to_keep_of (config self))%Z ->
    exists r,
      fst (Manager.cleanup_old_backups self true w) = Ok r
      /\ will_keep r
         = Some (Z.min (Z.of_nat (List.length backups))
                       (to_keep_of (config self)))
      /\ Z.of_nat (List.length (to_delete r))
         = Z.max 0 (Z.of_nat (List.length backups) - to_keep_of (config self)).
Proof.
  intros R self w backups sorted Hlist Hne Hsort Hk.
  pose proof (sort_by_ascending _ _ _ Hsort) as [_ Hperm].
  apply Permutation_length in Hperm.
  eexists. split; [apply (dry_run_result self w backups sorted Hlist Hne Hsort)|].
  cbn [to_delete will_keep].
  rewrite (select_to_delete_pos sorted _ Hk), length_firstn, Hperm.
  split; [f_equal|]; lia.
Qed.

Lemma cleanup_counts_with_positive_keep_last_witness :
  exists r,
    fst (Manager.cleanup_old_backups (Sample.keeping 2) true
           (Sample.world_of Sample.fs_retention)) = Ok r
    /\ will_keep r = Some (Z.min 5 2)
    /\ Z.of_nat (List.length (to_delete r)) = Z.max 0 (5 - 2).
Proof.
  apply (cleanup_counts_with_positive_keep_last unit (Sample.keeping 2)
           (Sample.world_of Sample.fs_retention)
           [Sample.rec_b3; Sample.rec_b2; Sample.rec_b1; Sample.rec_e0;
            Sample.rec_old]
           [Sample.rec_old; Sample.rec_e0; Sample.rec_b1; Sample.rec_b2;
            Sample.rec_b3]).
  - vm_compute. reflexivity.
  - discriminate.
  - vm_compute. reflexivity.
  - vm_compute. reflexivity.
Defined.

(** A negative [keep_last] is taken as a count from the front: the
    [-keep_last] oldest records (all of them when there are fewer) are
    selected for deletion. *)
Theorem cleanup_with_negative_keep_last :
  forall (R : Type) (self : BackupManager R) (w : World R)
         (backups sorted : list BackupRecord),
    sb_list_backups (storage self) (w_env w) = Ok backups ->
    backups <> [] ->
    PyList.sort_by Manager.sort_key false backups = Ok sorted ->
    (to_keep_of (config self) < 0)%Z ->
    exists r,
      fst (Manager.cleanup_old_backups self true w) = Ok r
      /\ to_delete r
         = firstn (Z.to_nat (- to_keep_of (config self))) sorted.
Proof.
  intros R self w backups sorted Hlist Hne Hsort Hk.
  eexists. split; [apply (dry_run_result self w backups sorted Hlist Hne Hsort)|].
  cbn [to_delete]. apply (select_to_delete_neg sorted _ Hk).
Qed.

Lemma cleanup_with_negative_keep_last_witness :
  exists r,
    fst (Manager.cleanup_old_backups (Sample.keeping (-1)) true
           (Sample.world_of Sample.fs_retention)) = Ok r
    /\ to_delete r
       = firstn (Z.to_nat (- to_keep_of (config (Sample.keeping (-1)))))
           [Sample.rec_old; Sample.rec_e0; Sample.rec_b1; Sample.rec_b2;
            Sample.rec_b3].
Proof.
  apply (cleanup_with_negative_keep_last unit (Sample.keeping (-1))
           (Sample.world_of Sample.fs_retention)
           [Sample.rec_b3; Sample.rec_b2; Sample.rec_b1; Sample.rec_e0;
            Sample.rec_old]).
  - vm_compute. reflexivity.
  - discriminate.
  - vm_compute. reflexivity.
  - vm_compute. reflexivity.
Defined.

(* ================================================================== *)
(** ** Restore: the temporary workspace and the backend *)

Section RestoreWorkspace.
Import PyPath.
Context {R : Type}.
Variable self : BackupManager R.

Lemma lookup_remove_tree_inside (fs : FS.t) (d q : Path) :
  q = d \/ is_under d q = true ->
  FS.lookup (FS.remove_tree fs d) q = None.
Proof.
  intros Hq. unfold FS.remove_tree.
  induction fs as [|[k n] r IH]; cbn [filter fst]; [reflexivity|].
  destruct (PyPath.eqb d k || is_under d k) eqn:E; cbn [negb]; [exact IH|].
  cbn [FS.lookup]. destruct (PyPath.eqb k q) eqn:Ekq; [|exact IH].
  apply path_eqb_eq in Ekq. subst k. apply orb_false_iff in E as [E1 E2].
  destruct Hq as [->|Hq]; [|congruence].
  now rewrite (proj2 (path_eqb_eq d d) eq_refl) in E1.
Qed.

Lemma world_eta (w : World R) : mkWorld (w_env w) (w_trace w) = w.
Proof. now destruct w. Qed.

(** Past the check of the target and the creation of the workspace, the
    one call on the backend is the download. *)
Lemma restore_body_trace (backup_id : string) (archive_path target_path : Path)
      (w : World R) :
  w_trace (snd ((Manager.storage_download self backup_id (str archive_path) ;;;
                 restored_files <-
                   Manager._extract_archive archive_path target_path ;;
                 ret (mkRestoreResult true backup_id (str target_path)
                        (List.length restored_files))) w))
  = (w_trace w ++ [EvDownload backup_id])%list.
Proof.
  unfold Manager.storage_download, bind, log, lift_env. cbn [w_env w_trace].
  destruct (sb_download (storage self) backup_id (str archive_path) (w_env w))
    as [[ok|x] e1]; [|reflexivity].
  destruct (Manager._extract_archive archive_path target_path
              (mkWorld e1 (w_trace w ++ [EvDownload backup_id])))
    as [[files|x] w2] eqn:E;
    apply extract_archive_spec in E; destruct E as [Htr _]; exact Htr.
Qed.

(** The check of the target only reads. *)
Lemma check_target_reads (target_path : Path) (overwrite : bool)
      (w : World R) :
  snd (Manager.check_target target_path overwrite w) = w.
Proof.
  unfold Manager.check_target. run_monad.
  destruct (FS.exists_ _ _ && negb overwrite); [|reflexivity].
  destruct (FS.is_dir _ _); [|reflexivity].
  destruct (FS.iterdir _ _); reflexivity.
Qed.

(** The scoped temporary directory: either it cannot be created and
    nothing has happened, or the body runs and afterwards the directory
    and everything below it are gone. *)
Lemma with_temporary_directory_spec {A} (temp_dir : string) (body : M R A)
      (w : World R) :
  let '(r, w') := Manager.with_temporary_directory temp_dir body w in
  (is_raise r = true /\ w' = w)
  \/ (exists w0,
         w_trace w0 = w_trace w
         /\ r = fst (body w0)
         /\ w_trace w' = w_trace (snd (body w0))
         /\ forall q,
             q = parse temp_dir \/ is_under (parse temp_dir) q = true ->
             FS.lookup (e_fs (w_env w')) q = None).
Proof.
  unfold Manager.with_temporary_directory. run_monad.
  destruct (FS.makedirs (e_clock (w_env w)) (e_fs (w_env w)) (parse temp_dir))
    as [fs|x].
  - cbv beta iota.
    destruct (body (mkWorld (set_fs (w_env w) fs) (w_trace w)))
      as [r w'] eqn:Eb.
    right. exists (mkWorld (set_fs (w_env w) fs) (w_trace w)).
    rewrite Eb. cbn [fst snd w_env w_trace e_fs set_fs].
    repeat split. intros q Hq. now apply lookup_remove_tree_inside.
  - cbv beta iota. left. split; [reflexivity | apply world_eta].
Qed.

End RestoreWorkspace.

(** [restore_backup] either stops before doing anything, with an error
    and the world as it was, or makes exactly one call on the backend, the
    download, and, whether it then returns or raises, leaves nothing of
    its temporary directory behind. *)
Theorem restore_releases_its_workspace :
  forall (R : Type) (self : BackupManager R)
         (backup_id target : string) (overwrite : bool) (temp_dir : string)
         (w : World R),
    let '(r, w') :=
      Manager.restore_backup self backup_id target overwrite temp_dir w in
    (is_raise r = true /\ w' = w)
    \/ (w_trace w' = (w_trace w ++ [EvDownload backup_id])%list
        /\ forall q,
            q = PyPath.parse temp_dir
            \/ PyPath.is_under (PyPath.parse temp_dir) q = true ->
            FS.lookup (e_fs (w_env w')) q = None).
Proof.
  intros R self backup_id target overwrite temp_dir w.
  unfold Manager.restore_backup. rewrite decrypt_step_skipped.
  unfold bind at 1.
  pose proof (check_target_reads (PyPath.parse target) overwrite w) as Hchk.
  destruct (Manager.check_target (PyPath.parse target) overwrite w)
    as [[u|x] w0]; cbn [snd] in Hchk; subst w0.
  - match goal with
    | |- context [Manager.with_temporary_directory temp_dir ?b w] =>
        pose proof (with_temporary_directory_spec temp_dir b w) as Hspec;
        destruct (Manager.with_temporary_directory temp_dir b w) as [r w']
    end.
    destruct Hspec as [Hstop | [w0 [Htr0 [_ [Htr Hgone]]]]]; [now left|].
    right. split; [|exact Hgone].
    rewrite Htr. unfold bind at 2. unfold ret at 1.
    pose proof (restore_body_trace self backup_id
                  (PyPath.joinpath (PyPath.parse temp_dir) (backup_id ++ ".zip"))
                  (PyPath.parse target) w0) as Hbody.
    rewrite <- Htr0. exact Hbody.
  - left. split; reflexivity.
Qed.

(* ================================================================== *)
(** ** The local backend *)

Section StoredNames.
Import PyPath.

(** The file name of [dir / (backup_id + sfx)] for a suffix that neither
    holds a separator nor can complete an empty or [.] component. *)
Lemma name_of_joined (dir : Path) (backup_id sfx : string) :
  PyStr.contains "/" sfx = false ->
  (forall y, keep_part (y ++ sfx) = true) ->
  name (joinpath dir (backup_id ++ sfx))
  = last (PyStr.split "/" backup_id) "" ++ sfx.
Proof.
  intros Hsep Hkeep. unfold joinpath, parse, name. cbn [root parts].
  rewrite (split_app "/" backup_id sfx Hsep).
  rewrite filter_app. cbn [filter]. rewrite Hkeep.
  destruct (String.eqb _ ""); cbn [parts].
  - rewrite app_assoc. apply last_last.
  - apply last_last.
Qed.

Lemma keep_part_dotted (c : ascii) (rest y : string) :
  keep_part (y ++ String "." (String c rest)) = true.
Proof.
  unfold keep_part. destruct y as [|a [|b y]]; simpl; try reflexivity;
    destruct (Ascii.eqb a "."); reflexivity.
Qed.

Lemma append_same_prefix (x a b : string) : x ++ a = x ++ b -> a = b.
Proof. induction x as [|c x IH]; simpl; intros H; [exact H|]. apply IH. congruence. Qed.

(** Payloads and side file of one backup have three different paths. *)
Lemma stored_paths_differ (dir : Path) (backup_id : string) :
  joinpath dir (backup_id ++ ".zip") <> joinpath dir (backup_id ++ ".zip.enc")
  /\ joinpath dir (backup_id ++ ".zip") <> joinpath dir (backup_id ++ ".meta.json")
  /\ joinpath dir (backup_id ++ ".zip.enc")
     <> joinpath dir (backup_id ++ ".meta.json").
Proof.
  assert (Hn : forall s1 s2 c1 r1 c2 r2,
             s1 = String "." (String c1 r1) -> s2 = String "." (String c2 r2) ->
             PyStr.contains "/" s1 = false -> PyStr.contains "/" s2 = false ->
             s1 <> s2 ->
             joinpath dir (backup_id ++ s1) <> joinpath dir (backup_id ++ s2)).
  { intros s1 s2 c1 r1 c2 r2 -> -> H1 H2 Hne Heq.
    apply (f_equal name) in Heq.
    rewrite !name_of_joined in Heq
      by (try assumption; intros; apply keep_part_dotted).
    apply append_same_prefix in Heq. contradiction. }
  repeat split; eapply Hn; try reflexivity; discriminate.
Qed.

End StoredNames.

Section LocalFacts.
Import PyPath.
Context {R : Type}.
Variable base_path : Path.

Lemma lookup_remove (fs : FS.t) (p q : Path) :
  FS.lookup (FS.remove fs p) q
  = if PyPath.eqb p q then None else FS.lookup fs q.
Proof.
  induction fs as [|[k m] r IH]; cbn [FS.remove FS.lookup].
  - now destruct (PyPath.eqb p q).
  - destruct (PyPath.eqb k p) eqn:Ekp.
    + apply path_eqb_eq in Ekp. subst k. rewrite IH.
      now destruct (PyPath.eqb p q).
    + cbn [FS.lookup]. destruct (PyPath.eqb k q) eqn:Ekq.
      * apply path_eqb_eq in Ekq. subst k.
        destruct (PyPath.eqb p q) eqn:Epq; [|reflexivity].
        apply path_eqb_eq in Epq. subst p.
        now rewrite (proj2 (path_eqb_eq q q) eq_refl) in Ekp.
      * exact IH.
Qed.

Lemma remove_absent (fs : FS.t) (p : Path) :
  FS.exists_ fs p = false -> FS.remove fs p = fs.
Proof.
  unfold FS.exists_. induction fs as [|[k m] r IH]; cbn [FS.remove FS.lookup];
    [reflexivity|].
  destruct (PyPath.eqb k p); [discriminate|]. intros H. now rewrite IH.
Qed.

(** One step of [delete]: a path that exists is unlinked. *)
Lemma unlink_existing (fs fs' : FS.t) (p : Path) :
  LocalStorage.unlink fs p = Ok fs' -> fs' = FS.remove fs p.
Proof.
  unfold LocalStorage.unlink. destruct (FS.lookup fs p) as [[c t|s t]|];
    congruence.
Qed.

(** A delete that returns has removed the three paths of the backup and
    nothing else. *)
Lemma delete_ok (backup_id : string) (e e' : Env R) (deleted : bool) :
  LocalStorage.delete base_path backup_id e = (Ok deleted, e') ->
  let p1 := joinpath base_path (backup_id ++ ".zip") in
  let p2 := joinpath base_path (backup_id ++ ".zip.enc") in
  let pm := joinpath base_path (backup_id ++ ".meta.json") in
  e' = set_fs e (FS.remove (FS.remove (FS.remove (e_fs e) p1) p2) pm)
  /\ deleted = FS.exists_ (e_fs e) p1 || FS.exists_ (FS.remove (e_fs e) p1) p2.
Proof.
  intros H p1 p2 pm. unfold LocalStorage.delete in H.
  cbn [LocalStorage.delete_files] in H. fold p1 p2 pm in H.
  destruct (FS.exists_ (e_fs e) p1) eqn:E1.
  - destruct (LocalStorage.unlink (e_fs e) p1) as [fs1|x] eqn:U1;
      [|discriminate].
    apply unlink_existing in U1. subst fs1.
    destruct (FS.exists_ (FS.remove (e_fs e) p1) p2) eqn:E2.
    + destruct (LocalStorage.unlink _ p2) as [fs2|x] eqn:U2; [|discriminate].
      apply unlink_existing in U2. subst fs2.
      destruct (FS.exists_ _ pm) eqn:Em.
      * destruct (LocalStorage.unlink _ pm) as [fs3|x] eqn:U3; [|discriminate].
        apply unlink_existing in U3. subst fs3. injection H as <- <-. auto.
      * injection H as <- <-. rewrite (remove_absent _ _ Em). auto.
    + rewrite (remove_absent _ _ E2).
      destruct (FS.exists_ _ pm) eqn:Em.
      * destruct (LocalStorage.unlink _ pm) as [fs3|x] eqn:U3; [|discriminate].
        apply unlink_existing in U3. subst fs3. injection H as <- <-. auto.
      * injection H as <- <-. rewrite (remove_absent _ _ Em). auto.
  - rewrite (remove_absent _ _ E1).
    destruct (FS.exists_ (e_fs e) p2) eqn:E2.
    + destruct (LocalStorage.unlink _ p2) as [fs2|x] eqn:U2; [|discriminate].
      apply unlink_existing in U2. subst fs2.
      destruct (FS.exists_ _ pm) eqn:Em.
      * destruct (LocalStorage.unlink _ pm) as [fs3|x] eqn:U3; [|discriminate].
        apply unlink_existing in U3. subst fs3. injection H as <- <-. auto.
      * injection H as <- <-. rewrite (remove_absent _ _ Em). auto.
    + rewrite (remove_absent _ _ E2).
      destruct (FS.exists_ _ pm) eqn:Em.
      * destruct (LocalStorage.unlink _ pm) as [fs3|x] eqn:U3; [|discriminate].
        apply unlink_existing in U3. subst fs3. injection H as <- <-. auto.
      * injection H as <- <-. rewrite (remove_absent _ _ Em). auto.
Qed.

(** Without either payload [download] raises and changes nothing. *)
Lemma download_missing (backup_id target_path : string) (e : Env R) :
  FS.exists_ (e_fs e) (joinpath base_path (backup_id ++ ".zip")) = false ->
  FS.exists_ (e_fs e) (joinpath base_path (backup_id ++ ".zip.enc")) = false ->
  LocalStorage.download base_path backup_id target_path e
  = (Raise FileNotFoundError, e).
Proof.
  intros H1 H2. unfold LocalStorage.download.
  cbn [LocalStorage.download_from]. now rewrite H1, H2.
Qed.

Lemma delete_missing (backup_id : string) (e : Env R) :
  FS.exists_ (e_fs e) (joinpath base_path (backup_id ++ ".zip")) = false ->
  FS.exists_ (e_fs e) (joinpath base_path (backup_id ++ ".zip.enc")) = false ->
  FS.exists_ (e_fs e) (joinpath base_path (backup_id ++ ".meta.json")) = false ->
  LocalStorage.delete base_path backup_id e = (Ok false, e).
Proof.
  intros H1 H2 Hm. unfold LocalStorage.delete.
  cbn [LocalStorage.delete_files]. rewrite H1, H2, Hm. now destruct e.
Qed.

End LocalFacts.

(** After a [delete] of the local backend that returns, neither payload
    nor the side file of the backup is left and every other path is as
    before; the answer is whether a payload existed; a download of the
    identifier then raises [FileNotFoundError] and a second delete
    answers false, both without changing anything. *)
Theorem local_delete_removes_the_backup :
  forall (R : Type) (base_path : PyPath.Path) (backup_id target_path : string)
         (e e' : Env R) (deleted : bool),
    LocalStorage.delete base_path backup_id e = (Ok deleted, e') ->
    let p1 := PyPath.joinpath base_path (backup_id ++ ".zip") in
    let p2 := PyPath.joinpath base_path (backup_id ++ ".zip.enc") in
    let pm := PyPath.joinpath base_path (backup_id ++ ".meta.json") in
    deleted = FS.exists_ (e_fs e) p1 || FS.exists_ (e_fs e) p2
    /\ (forall q,
          FS.lookup (e_fs e') q
          = if PyPath.eqb p1 q || PyPath.eqb p2 q || PyPath.eqb pm q
            then None else FS.lookup (e_fs e) q)
    /\ LocalStorage.download base_path backup_id target_path e'
       = (Raise FileNotFoundError, e')
    /\ LocalStorage.delete base_path backup_id e' = (Ok false, e').
Proof.
  intros R base_path backup_id target_path e e' deleted H p1 p2 pm.
  apply delete_ok in H. fold p1 p2 pm in H. destruct H as [-> ->].
  destruct (stored_paths_differ base_path backup_id) as [H12 [H1m H2m]].
  fold p1 p2 pm in H12, H1m, H2m.
  assert (Hlk : forall q,
             FS.lookup (FS.remove (FS.remove (FS.remove (e_fs e) p1) p2) pm) q
             = if PyPath.eqb p1 q || PyPath.eqb p2 q || PyPath.eqb pm q
               then None else FS.lookup (e_fs e) q).
  { intros q. rewrite !lookup_remove.
    destruct (PyPath.eqb pm q), (PyPath.eqb p2 q), (PyPath.eqb p1 q);
      reflexivity. }
  assert (Hgone : forall p, p = p1 \/ p = p2 \/ p = pm ->
             FS.exists_ (FS.remove (FS.remove (FS.remove (e_fs e) p1) p2) pm) p
             = false).
  { intros p Hp. unfold FS.exists_. rewrite Hlk.
    destruct Hp as [->|[->| ->]];
      rewrite (proj2 (path_eqb_eq _ _) eq_refl), ?orb_true_r; reflexivity. }
  split; [|split; [|split]].
  - f_equal. unfold FS.exists_. rewrite lookup_remove.
    now rewrite (path_eqb_neq _ _ H12).
  - exact Hlk.
  - apply download_missing; cbn [e_fs set_fs]; apply Hgone; auto.
  - apply delete_missing; cbn [e_fs set_fs]; apply Hgone; auto.
Qed.

Lemma local_delete_removes_the_backup_witness :
  let e := w_env (Sample.world_of Sample.fs_retention) in
  let e' :=
    set_fs e
      [ (PyPath.parse "/backups", Dir 4096 10);
        (PyPath.parse "/backups/b2.zip",
         File (ZipArchive [("a.txt", Bytes "22")] 220) 200);
        (PyPath.parse "/backups/old.zip", Dir 4096 50);
        (PyPath.parse "/backups/b3.zip",
         File (ZipArchive [("a.txt", Bytes "333")] 330) 300);
        (PyPath.parse "/backups/e0.zip.enc",
         File (Encrypted "secret" "Fernet" Sample.archive_a 160) 60) ] in
  let p1 := PyPath.joinpath (PyPath.parse "/backups") ("b1" ++ ".zip") in
  let p2 := PyPath.joinpath (PyPath.parse "/backups") ("b1" ++ ".zip.enc") in
  let pm := PyPath.joinpath (PyPath.parse "/backups") ("b1" ++ ".meta.json") in
  true = FS.exists_ (e_fs e) p1 || FS.exists_ (e_fs e) p2
  /\ (forall q,
        FS.lookup (e_fs e') q
        = if PyPath.eqb p1 q || PyPath.eqb p2 q || PyPath.eqb pm q
          then None else FS.lookup (e_fs e) q)
  /\ LocalStorage.download (PyPath.parse "/backups") "b1" "/tmp/b1.zip" e'
     = (Raise FileNotFoundError, e')
  /\ LocalStorage.delete (PyPath.parse "/backups") "b1" e' = (Ok false, e').
Proof.
  apply (local_delete_removes_the_backup unit (PyPath.parse "/backups") "b1"
           "/tmp/b1.zip" (w_env (Sample.world_of Sample.fs_retention))).
  vm_compute. reflexivity.
Defined.

Section LocalListing.
Import PyPath.
Context {R : Type}.
Variable base_path : Path.

Lemma homogeneous_numbers (ks : list Stamp) :
  Forall (fun k => exists t, k = StNum t) ks -> PyList.homogeneous ks = true.
Proof.
  destruct ks as [|k r]; [reflexivity|]. intros H.
  inversion H as [|? ? [t ->] Hr]; subst. cbn [PyList.homogeneous].
  apply forallb_forall. intros x Hx. rewrite Forall_forall in Hr.
  destruct (Hr x Hx) as [u ->]. reflexivity.
Qed.

(** What a directory entry contributes to the listing. *)
Lemma record_of_spec (fs : FS.t) (p : Path) (b : BackupRecord) :
  In b (LocalStorage.record_of fs p) <->
  exists n,
    FS.lookup fs p = Some n
    /\ (suffix p = ".zip" \/ suffix p = ".enc")
    /\ b = mkRecord (stem p) (node_size n) (Some (StNum (node_ctime n))).
Proof.
  unfold LocalStorage.record_of.
  destruct (String.eqb (suffix p) ".meta.json") eqn:Em.
  - apply String.eqb_eq in Em. split; [intros []|].
    intros [n [_ [[H|H] _]]]; rewrite Em in H; discriminate.
  - destruct (String.eqb (suffix p) ".zip") eqn:Ez;
      [|destruct (String.eqb (suffix p) ".enc") eqn:Ee]; cbn [orb].
    + apply String.eqb_eq in Ez.
      destruct (FS.lookup fs p) as [n|]; split.
      * intros [<-|[]]. eauto.
      * intros [n' [Hn [_ ->]]]. injection Hn as ->. now left.
      * intros [].
      * intros [n' [Hn _]]. discriminate.
    + apply String.eqb_eq in Ee.
      destruct (FS.lookup fs p) as [n|]; split.
      * intros [<-|[]]. eauto.
      * intros [n' [Hn [_ ->]]]. injection Hn as ->. now left.
      * intros [].
      * intros [n' [Hn _]]. discriminate.
    + apply String.eqb_neq in Ez, Ee. split; [intros []|].
      intros [n [_ [[H|H] _]]]; contradiction.
Qed.

Lemma record_of_numbers (fs : FS.t) (paths : list Path) :
  Forall (fun k => exists t, k = StNum t)
         (map LocalStorage.record_key
              (flat_map (LocalStorage.record_of fs) paths)).
Proof.
  apply Forall_forall. intros k Hk. apply in_map_iff in Hk as [b [<- Hb]].
  apply in_flat_map in Hb as [p [_ Hb]].
  apply record_of_spec in Hb as [n [_ [_ ->]]]. cbn. eauto.
Qed.

End LocalListing.

(** The listing of the local backend never fails.  It has one record for
    every entry of the backup directory whose suffix is [.zip] or [.enc],
    named by the entry's stem and with its size and change time, and
    nothing else (no side files), newest first; so [test_connection]
    answers true. *)
Theorem local_listing_is_newest_first :
  forall (R : Type) (base_path : PyPath.Path) (e : Env R),
  exists backups,
    LocalStorage.list_backups base_path e = Ok backups
    /\ Sorted (fun a b => not_older LocalStorage.record_key b a) backups
    /\ (forall b,
          In b backups <->
          exists p n,
            In p (FS.iterdir (e_fs e) base_path)
            /\ FS.lookup (e_fs e) p = Some n
            /\ (PyPath.suffix p = ".zip" \/ PyPath.suffix p = ".enc")
            /\ b = mkRecord (PyPath.stem p) (node_size n)
                            (Some (StNum (node_ctime n))))
    /\ BaseStorage.test_connection (LocalStorage.backend base_path) e = true.
Proof.
  intros R base_path e.
  unfold BaseStorage.test_connection. cbn [LocalStorage.backend sb_list_backups].
  unfold LocalStorage.list_backups, PyList.sort_by.
  rewrite (homogeneous_numbers _ (record_of_numbers (e_fs e) _)).
  eexists. split; [reflexivity|]. split; [|split; [|reflexivity]].
  - apply (stable_sort_sorted
             (fun y x => PyList.stamp_ltb (LocalStorage.record_key x)
                                          (LocalStorage.record_key y))).
    intros a b. apply stamp_ltb_asym.
  - intros b. split.
    + intros Hb. apply (Permutation_in _ (stable_sort_perm _ _)) in Hb.
      apply in_flat_map in Hb as [p [Hp Hb]].
      apply record_of_spec in Hb as [n Hn]. exists p, n. tauto.
    + intros [p [n [Hp Hn]]].
      apply (Permutation_in _ (Permutation_sym (stable_sort_perm _ _))).
      apply in_flat_map. exists p. split; [exact Hp|].
      apply record_of_spec. exists n. exact Hn.
Qed.

Section SuffixFacts.
Import PyPath.

Lemma take_length (n : nat) (s : string) :
  String.length (PyStr.take n s) = Nat.min n (String.length s).
Proof.
  revert s. induction n as [|n IH]; intros [|a s]; simpl; try reflexivity.
  now rewrite IH.
Qed.

Lemma take_drop (n : nat) (s : string) : PyStr.take n s ++ PyStr.drop n s = s.
Proof.
  revert s. induction n as [|n IH]; intros [|a s]; simpl; try reflexivity.
  now rewrite IH.
Qed.

Lemma take_all (s : string) : PyStr.take (String.length s) s ++ "" = s.
Proof. induction s as [|a s IH]; simpl; [reflexivity | now rewrite IH]. Qed.

Lemma drop_length (n : nat) (s : string) :
  String.length (PyStr.drop n s) = (String.length s - n)%nat.
Proof.
  revert s. induction n as [|n IH]; intros [|a s]; simpl; try reflexivity.
  apply IH.
Qed.

Lemma rfind_bound (c : ascii) (s : string) (i : nat) :
  PyStr.rfind c s = Some i -> (i < String.length s)%nat.
Proof.
  revert i. induction s as [|a s IH]; intros i; simpl; [discriminate|].
  destruct (PyStr.rfind c s) as [j|].
  - intros H. injection H as <-. specialize (IH j eq_refl). lia.
  - destruct (Ascii.eqb a c); [|discriminate]. intros H. injection H as <-. lia.
Qed.

(** From the last dot on there is no other dot. *)
Lemma rfind_drop (c : ascii) (s : string) (i : nat) :
  PyStr.rfind c s = Some i -> PyStr.rfind c (PyStr.drop i s) = Some 0%nat.
Proof.
  revert i. induction s as [|a s IH]; intros i; simpl; [discriminate|].
  destruct (PyStr.rfind c s) as [j|] eqn:E.
  - intros H. injection H as <-. simpl. now apply IH.
  - destruct (Ascii.eqb a c) eqn:Ea; [|discriminate].
    intros H. injection H as <-. simpl. now rewrite E, Ea.
Qed.

(** A name is its stem followed by its suffix, and the suffix has at most
    the one dot it starts with. *)
Lemma name_suffix_split (nm : string) :
  PyStr.take (String.length nm - String.length (name_suffix nm)) nm
  ++ name_suffix nm = nm
  /\ (name_suffix nm = ""
      \/ PyStr.rfind "." (name_suffix nm) = Some 0%nat).
Proof.
  unfold name_suffix. destruct (PyStr.rfind "." nm) as [i|] eqn:E.
  - destruct ((0 <? i)%nat && (i <? String.length nm - 1)%nat).
    + pose proof (rfind_bound _ _ _ E) as Hi. rewrite drop_length.
      replace (String.length nm - (String.length nm - i))%nat with i by lia.
      split; [apply take_drop | right; now apply rfind_drop].
    + cbn [String.length]. rewrite Nat.sub_0_r. split; [|now left].
      apply take_all.
  - cbn [String.length]. rewrite Nat.sub_0_r. split; [|now left].
    apply take_all.
Qed.

(** Replacing the suffix by [.meta.json] gives another name in the same
    directory. *)
Lemma with_suffix_meta (p q : Path) :
  with_suffix p ".meta.json" = Some q ->
  q <> p
  /\ root q = root p
  /\ List.length (parts q) = List.length (parts p)
  /\ parts p <> [].
Proof.
  unfold with_suffix. cbn [PyStr.contains Ascii.eqb orb].
  change (PyStr.contains "/" ".meta.json") with false.
  change (negb (".meta.json" =? "")%string
          && negb (PyStr.startswith "." ".meta.json")
          || (".meta.json" =? ".")%string) with false.
  cbv beta iota.
  destruct (String.eqb (name p) "") eqn:En; [discriminate|].
  apply String.eqb_neq in En. intros H. injection H as <-.
  assert (Hne : parts p <> []).
  { intros Hp. apply En. unfold name. now rewrite Hp. }
  split; [|split; [reflexivity|split; [|exact Hne]]].
  - intros Heq. apply (f_equal name) in Heq. unfold name at 1 in Heq.
    cbn [parts] in Heq. rewrite last_last in Heq.
    unfold suffix in Heq.
    destruct (name_suffix_split (name p)) as [Hsplit Hdot].
    pose proof (eq_trans Heq (eq_sym Hsplit)) as Heq'.
    apply append_same_prefix in Heq'.
    destruct Hdot as [Hd|Hd]; rewrite <- Heq' in Hd; discriminate.
  - cbn [parts]. rewrite length_app. cbn [List.length].
    destruct (parts p) as [|a r] using rev_ind; [congruence|].
    rewrite removelast_last, length_app. reflexivity.
Qed.

End SuffixFacts.

Section CopyFacts.
Import PyPath.

Lemma lookup_write (fs : FS.t) (p q : Path) (n : Node) :
  FS.lookup (FS.write fs p n) q
  = if PyPath.eqb p q then Some n else FS.lookup fs q.
Proof.
  destruct (PyPath.eqb p q) eqn:E.
  - apply path_eqb_eq in E. subst q. apply lookup_write_same.
  - apply lookup_write_other. intros ->.
    now rewrite (proj2 (path_eqb_eq p p) eq_refl) in E.
Qed.

Lemma open_write_ok (now : Z) (fs fs' : FS.t) (p : Path) (c : Blob) :
  FS.open_write now fs p c = Ok fs' -> fs' = FS.write fs p (File c now).
Proof.
  unfold FS.open_write.
  destruct (existsb _ _); [discriminate|].
  destruct (existsb _ _); [discriminate|].
  destruct (FS.is_dir fs p); [discriminate|]. congruence.
Qed.

Lemma copy2_ok (now : Z) (fs fs' : FS.t) (src dst : Path) :
  FS.copy2 now fs src dst = Ok fs' ->
  exists c t,
    FS.lookup fs src = Some (File c t)
    /\ fs' = FS.write fs (copy_destination fs src dst) (File c now).
Proof.
  unfold FS.copy2, copy_destination.
  destruct (FS.lookup fs src) as [[c t|s t]|]; try discriminate.
  intros H. apply open_write_ok in H. eauto.
Qed.

(** Writing a file makes no path a directory. *)
Lemma is_dir_write_file (fs : FS.t) (p q : Path) (c : Blob) (t : Z) :
  FS.is_dir fs q = false -> FS.is_dir (FS.write fs p (File c t)) q = false.
Proof.
  unfold FS.is_dir. rewrite lookup_write. now destruct (PyPath.eqb p q).
Qed.

Lemma child_differs (d : Path) (x : string) :
  mkPath (root d) (parts d ++ [x]) <> d.
Proof.
  intros H. apply (f_equal (fun p => List.length (parts p))) in H.
  cbn [parts] in H. rewrite length_app in H. cbn in H. lia.
Qed.

(** A copy next to, or below, the side-file name of [p] is not at [p]. *)
Lemma meta_destination_differs (fs : FS.t) (src p q : Path) :
  with_suffix p ".meta.json" = Some q -> copy_destination fs src q <> p.
Proof.
  intros H. apply with_suffix_meta in H as [Hne [_ [Hlen _]]].
  unfold copy_destination. destruct (FS.is_dir fs q); [|exact Hne].
  intros Heq. apply (f_equal (fun p => List.length (parts p))) in Heq.
  cbn [parts] in Heq. rewrite length_app in Heq. cbn in Heq. lia.
Qed.

End CopyFacts.

Section UploadFacts.
Import PyPath.
Context {R : Type}.
Variable base_path : Path.
Variable json_dump : list (string * PyVal) -> string.

(** What an upload that returns has done. *)
Lemma upload_ok (file_path backup_id : string)
      (metadata : option (list (string * PyVal))) (e e1 : Env R)
      (loc : string) :
  LocalStorage.upload base_path json_dump file_path backup_id metadata e
  = (Ok loc, e1) ->
  let p := joinpath base_path (backup_id ++ suffix (parse file_path)) in
  exists c t,
    FS.lookup (e_fs e) (parse file_path) = Some (File c t)
    /\ loc = str p
    /\ e_clock e1 = e_clock e
    /\ let fs1 := FS.write (e_fs e)
                    (copy_destination (e_fs e) (parse file_path) p)
                    (File c (e_clock e)) in
       e_fs e1 = fs1
       \/ exists pmeta text,
            with_suffix p ".meta.json" = Some pmeta
            /\ e_fs e1 = FS.write fs1 pmeta (File (Bytes text) (e_clock e)).
Proof.
  intros H p. unfold LocalStorage.upload in H. fold p in H.
  destruct (FS.copy2 _ _ _ p) as [fs1|x] eqn:Ecp; [|discriminate].
  apply copy2_ok in Ecp as [c [t [Hsrc ->]]]. exists c, t.
  destruct metadata as [[|kv md]|].
  - injection H as <- <-. cbn. auto.
  - destruct (with_suffix p ".meta.json") as [pmeta|]; [|discriminate].
    destruct (FS.open_write _ _ pmeta _) as [fs2|x] eqn:Eow; [|discriminate].
    apply open_write_ok in Eow. subst fs2. injection H as <- <-.
    cbn [e_fs e_clock set_fs]. repeat split; try assumption. right. eauto.
  - injection H as <- <-. cbn. auto.
Qed.

End UploadFacts.

(** Round trip through the local backend: a [.zip] file uploaded under an
    identifier and then downloaded under it to a path that is no
    directory arrives with the content it had, whether or not metadata
    were given. *)
Theorem local_upload_download_round_trip :
  forall (R : Type) (base_path : PyPath.Path)
         (json_dump : list (string * PyVal) -> string)
         (file_path backup_id target_path : string)
         (metadata : option (list (string * PyVal)))
         (e e1 e2 : Env R) (loc : string) (ok : bool) (c : Blob) (t : Z),
    PyPath.suffix (PyPath.parse file_path) = ".zip" ->
    FS.lookup (e_fs e) (PyPath.parse file_path) = Some (File c t) ->
    FS.is_dir (e_fs e) (PyPath.parse target_path) = false ->
    LocalStorage.upload base_path json_dump file_path backup_id metadata e
    = (Ok loc, e1) ->
    LocalStorage.download base_path backup_id target_path e1 = (Ok ok, e2) ->
    ok = true
    /\ loc = PyPath.str (PyPath.joinpath base_path (backup_id ++ ".zip"))
    /\ FS.lookup (e_fs e2) (PyPath.parse target_path)
       = Some (File c (e_clock e)).
Proof.
  intros R base_path json_dump file_path backup_id target_path metadata
         e e1 e2 loc ok c t Hsfx Hsrc Htgt Hup Hdown.
  apply upload_ok in Hup. rewrite Hsfx in Hup.
  set (p1 := PyPath.joinpath base_path (backup_id ++ ".zip")) in *.
  destruct Hup as [c' [t' [Hsrc' [Hloc [Hclock Hfs]]]]].
  rewrite Hsrc in Hsrc'. injection Hsrc' as <- <-.
  cbv zeta in Hfs.
  set (d1 := copy_destination (e_fs e) (PyPath.parse file_path) p1) in *.
  set (fs1 := FS.write (e_fs e) d1 (File c (e_clock e))) in *.
  (* the stored payload and the target after the upload *)
  assert (Hstate :
    FS.is_dir (e_fs e1) (PyPath.parse target_path) = false
    /\ FS.lookup (e_fs e1) p1
       = if FS.is_dir (e_fs e) p1 then FS.lookup (e_fs e) p1
         else Some (File c (e_clock e))).
  { assert (H1 : FS.is_dir fs1 (PyPath.parse target_path) = false)
      by now apply is_dir_write_file.
    assert (H2 : FS.lookup fs1 p1
                 = if FS.is_dir (e_fs e) p1 then FS.lookup (e_fs e) p1
                   else Some (File c (e_clock e))).
    { unfold fs1, d1, copy_destination. rewrite lookup_write.
      destruct (FS.is_dir (e_fs e) p1).
      - now rewrite (path_eqb_neq _ _ (child_differs p1 _)).
      - now rewrite (proj2 (path_eqb_eq p1 p1) eq_refl). }
    destruct Hfs as [->|[pmeta [text [Hm ->]]]]; [now split|].
    split; [now apply is_dir_write_file|].
    rewrite lookup_write.
    rewrite (path_eqb_neq pmeta p1); [exact H2|].
    now apply with_suffix_meta in Hm as [Hne _]. }
  destruct Hstate as [Htgt1 Hp1]. clear Hfs.
  unfold LocalStorage.download in Hdown.
  cbn [LocalStorage.download_from] in Hdown. fold p1 in Hdown.
  destruct (FS.is_dir (e_fs e) p1) eqn:Edir.
  - (* the upload went into a directory of that name: no download *)
    unfold FS.is_dir in Edir.
    destruct (FS.lookup (e_fs e) p1) as [[?|s u]|] eqn:El; try discriminate.
    assert (Hex : FS.exists_ (e_fs e1) p1 = true)
      by (unfold FS.exists_; now rewrite Hp1).
    rewrite Hex in Hdown. unfold FS.copy2 in Hdown. rewrite Hp1 in Hdown.
    discriminate.
  - assert (Hex : FS.exists_ (e_fs e1) p1 = true)
      by (unfold FS.exists_; now rewrite Hp1).
    rewrite Hex in Hdown.
    destruct (FS.copy2 (e_clock e1) (e_fs e1) p1 (PyPath.parse target_path))
      as [fs3|x] eqn:Ecp; [|discriminate].
    apply copy2_ok in Ecp as [c3 [t3 [Hc3 ->]]].
    rewrite Hp1 in Hc3. injection Hc3 as <- <-.
    unfold copy_destination in Hdown at 1. rewrite Htgt1 in Hdown.
    rewrite Hclock in Hdown.
    set (fs3 := FS.write (e_fs e1) (PyPath.parse target_path)
                         (File c (e_clock e))) in *.
    assert (H3 : FS.lookup fs3 (PyPath.parse target_path)
                 = Some (File c (e_clock e))) by apply lookup_write_same.
    unfold LocalStorage.copy_metadata in Hdown.
    cbn [e_fs e_clock set_fs] in Hdown.
    destruct (PyPath.with_suffix p1 ".meta.json") as [pmeta|];
      [|discriminate].
    destruct (FS.exists_ fs3 pmeta).
    + destruct (PyPath.with_suffix (PyPath.parse target_path) ".meta.json")
        as [tmeta|] eqn:Etm; [|discriminate].
      destruct (FS.copy2 _ fs3 pmeta tmeta) as [fs4|x] eqn:Ecm; [|discriminate].
      apply copy2_ok in Ecm as [cm [tm [_ ->]]].
      injection Hdown as <- <-. cbn [e_fs set_fs].
      repeat split; try assumption. rewrite lookup_write.
      now rewrite (path_eqb_neq _ _ (meta_destination_differs fs3 pmeta _ _ Etm)).
    + injection Hdown as <- <-. cbn [e_fs set_fs]. repeat split; assumption.
Qed.

Lemma local_upload_download_round_trip_witness :
  let e := w_env (Sample.world_of Sample.fs_tree) in
  let e1 := snd (LocalStorage.upload (PyPath.parse "/backups") Sample.json_dump
                   "/backups/b2.zip" "copy" (Some [("description", VNone)]) e) in
  let e2 := snd (LocalStorage.download (PyPath.parse "/backups") "copy"
                   "/tmp/got.zip" e1) in
  true = true
  /\ "/backups/copy.zip"
     = PyPath.str (PyPath.joinpath (PyPath.parse "/backups") ("copy" ++ ".zip"))
  /\ FS.lookup (e_fs e2) (PyPath.parse "/tmp/got.zip")
     = Some (File Sample.archive_evil (e_clock e)).
Proof.
  eapply (local_upload_download_round_trip unit (PyPath.parse "/backups")
            Sample.json_dump "/backups/b2.zip" "copy" "/tmp/got.zip"
            (Some [("description", VNone)])
            (w_env (Sample.world_of Sample.fs_tree))) with (t := 20%Z).
  - vm_compute. reflexivity.
  - vm_compute. reflexivity.
  - vm_compute. reflexivity.
  - vm_compute. reflexivity.
  - vm_compute. reflexivity.
Defined.

Section EncryptedUpload.
Import PyPath.

Lemma name_suffix_dotted (x : string) (c : ascii) (rest : string) :
  PyStr.rfind "." (String "." (String c rest)) = Some 0%nat ->
  name_suffix (x ++ String "." (String c rest))
  = if (String.length x =? 0)%nat then "" else String "." (String c rest).
Proof.
  intros Hdot. unfold name_suffix. rewrite rfind_app, Hdot.
  cbv beta iota. rewrite Nat.add_0_r, append_length.
  destruct x as [|a x]; [reflexivity|].
  replace (0 <? String.length (String a x))%nat with true by reflexivity.
  replace (String.length (String a x)
           <? String.length (String a x)
              + String.length (String "." (String c rest)) - 1)%nat
    with true by (symmetry; apply Nat.ltb_lt; simpl; lia).
  cbn [andb String.length Nat.eqb].
  apply (drop_app_length (String a x)).
Qed.

Lemma with_suffix_name (p q : Path) (sfx : string) :
  with_suffix p sfx = Some q ->
  name q
  = PyStr.take (String.length (name p) - String.length (suffix p)) (name p)
    ++ sfx.
Proof.
  unfold with_suffix. destruct (PyStr.contains "/" sfx); [discriminate|].
  destruct (_ || _); [discriminate|].
  destruct (String.eqb (name p) ""); [discriminate|].
  intros H. injection H as <-. unfold name at 1. cbn [parts].
  apply last_last.
Qed.

Lemma take_app_length (x y : string) :
  PyStr.take (String.length x) (x ++ y) = x.
Proof. induction x as [|a x IH]; simpl; [reflexivity | now rewrite IH]. Qed.

(** The side file of [dir / (backup_id + ".enc")]. *)
Lemma meta_of_enc (dir : Path) (backup_id : string) (q : Path) :
  with_suffix (joinpath dir (backup_id ++ ".enc")) ".meta.json" = Some q ->
  name q = last (PyStr.split "/" backup_id) "" ++ ".meta.json"
  \/ (last (PyStr.split "/" backup_id) "" = "" /\ name q = ".enc.meta.json").
Proof.
  intros H. apply with_suffix_name in H. rewrite H. clear H. unfold suffix.
  rewrite (name_of_joined dir backup_id ".enc" eq_refl)
    by (intros; apply keep_part_dotted).
  generalize (last (PyStr.split "/" backup_id) ""). intros L.
  rewrite (name_suffix_dotted L "e" "nc" eq_refl).
  destruct L as [|a L]; [right; now split|]. left.
  cbn [String.length Nat.eqb]. rewrite append_length.
  f_equal.
  replace (String.length (String a L) + String.length ".enc" - 4)%nat
    with (String.length (String a L)) by (simpl; lia).
  apply (take_app_length (String a L) ".enc").
Qed.

End EncryptedUpload.

(** A file with the suffix [.enc], which is what an encrypted archive
    has, is stored by the local backend as [<backup_id>.enc].  Download
    does not look for that name: unless a payload [<backup_id>.zip] or
    [<backup_id>.zip.enc] was there before, downloading the identifier
    just uploaded raises [FileNotFoundError]. *)
Theorem local_encrypted_upload_is_not_found :
  forall (R : Type) (base_path : PyPath.Path)
         (json_dump : list (string * PyVal) -> string)
         (file_path backup_id target_path : string)
         (metadata : option (list (string * PyVal)))
         (e e1 : Env R) (loc : string),
    PyPath.suffix (PyPath.parse file_path) = ".enc" ->
    FS.exists_ (e_fs e) (PyPath.joinpath base_path (backup_id ++ ".zip"))
    = false ->
    FS.exists_ (e_fs e) (PyPath.joinpath base_path (backup_id ++ ".zip.enc"))
    = false ->
    FS.is_dir (e_fs e) (PyPath.joinpath base_path (backup_id ++ ".enc"))
    = false ->
    LocalStorage.upload base_path json_dump file_path backup_id metadata e
    = (Ok loc, e1) ->
    loc = PyPath.str (PyPath.joinpath base_path (backup_id ++ ".enc"))
    /\ FS.is_file (e_fs e1) (PyPath.joinpath base_path (backup_id ++ ".enc"))
       = true
    /\ LocalStorage.download base_path backup_id target_path e1
       = (Raise FileNotFoundError, e1).
Proof.
  intros R base_path json_dump file_path backup_id target_path metadata
         e e1 loc Hsfx H1 H2 Hdir Hup.
  apply upload_ok in Hup. rewrite Hsfx in Hup.
  set (pe := PyPath.joinpath base_path (backup_id ++ ".enc")) in *.
  set (p1 := PyPath.joinpath base_path (backup_id ++ ".zip")) in *.
  set (p2 := PyPath.joinpath base_path (backup_id ++ ".zip.enc")) in *.
  destruct Hup as [c [t [Hsrc [Hloc [Hclock Hfs]]]]]. cbv zeta in Hfs.
  unfold copy_destination in Hfs. rewrite Hdir in Hfs.
  assert (Hnames :
    PyPath.name pe = last (PyStr.split "/" backup_id) "" ++ ".enc"
    /\ PyPath.name p1 = last (PyStr.split "/" backup_id) "" ++ ".zip"
    /\ PyPath.name p2 = last (PyStr.split "/" backup_id) "" ++ ".zip.enc").
  { repeat split; apply name_of_joined; try reflexivity;
      intros; apply keep_part_dotted. }
  destruct Hnames as [Hne [Hn1 Hn2]].
  assert (Hpe : pe <> p1 /\ pe <> p2).
  { split; intros Heq; apply (f_equal PyPath.name) in Heq;
      rewrite Hne, ?Hn1, ?Hn2 in Heq; apply append_same_prefix in Heq;
      discriminate. }
  assert (Hmeta : forall pmeta,
             PyPath.with_suffix pe ".meta.json" = Some pmeta ->
             pmeta <> p1 /\ pmeta <> p2).
  { intros pmeta Hm. apply meta_of_enc in Hm.
    split; intros Heq; apply (f_equal PyPath.name) in Heq;
      rewrite ?Hn1, ?Hn2 in Heq; destruct Hm as [Hm|[HL Hm]];
      rewrite Hm in Heq; try rewrite HL in Heq; try discriminate;
      apply append_same_prefix in Heq; discriminate. }
  assert (Hstate :
    FS.exists_ (e_fs e1) p1 = false /\ FS.exists_ (e_fs e1) p2 = false
    /\ FS.is_file (e_fs e1) pe = true).
  { unfold FS.exists_, FS.is_file in *.
    destruct Hfs as [->|[pmeta [text [Hm ->]]]].
    - rewrite !lookup_write.
      rewrite (path_eqb_neq _ _ (proj1 Hpe)), (path_eqb_neq _ _ (proj2 Hpe)).
      now rewrite (proj2 (path_eqb_eq pe pe) eq_refl).
    - destruct (Hmeta pmeta Hm) as [Hm1 Hm2]. rewrite !lookup_write.
      rewrite (path_eqb_neq _ _ Hm1), (path_eqb_neq _ _ Hm2).
      rewrite (path_eqb_neq _ _ (proj1 Hpe)), (path_eqb_neq _ _ (proj2 Hpe)).
      rewrite (proj2 (path_eqb_eq pe pe) eq_refl).
      destruct (PyPath.eqb pmeta pe); auto. }
  destruct Hstate as [He1 [He2 Hfile]].
  repeat split; try assumption. now apply download_missing.
Qed.

Lemma local_encrypted_upload_is_not_found_witness :
  let e := w_env (Sample.world_of Sample.fs_upload) in
  let e1 := snd (LocalStorage.upload (PyPath.parse "/backups") Sample.json_dump
                   "/tmp/w/b9.zip.enc" "b9" (Some [("description", VNone)]) e) in
  "/backups/b9.enc"
  = PyPath.str (PyPath.joinpath (PyPath.parse "/backups") ("b9" ++ ".enc"))
  /\ FS.is_file (e_fs e1)
       (PyPath.joinpath (PyPath.parse "/backups") ("b9" ++ ".enc")) = true
  /\ LocalStorage.download (PyPath.parse "/backups") "b9" "/tmp/w/b9.zip" e1
     = (Raise FileNotFoundError, e1).
Proof.
  apply (local_encrypted_upload_is_not_found unit (PyPath.parse "/backups")
           Sample.json_dump "/tmp/w/b9.zip.enc" "b9" "/tmp/w/b9.zip"
           (Some [("description", VNone)])
           (w_env (Sample.world_of Sample.fs_upload))).
  - vm_compute. reflexivity.
  - vm_compute. reflexivity.
  - vm_compute. reflexivity.
  - vm_compute. reflexivity.
  - vm_compute. reflexivity.
Defined.

(* ================================================================== *)
(** ** Exclusion patterns: literals and [*suffix] *)

Section PatternFacts.

Lemma translate_literal (p : list ascii) :
  forallb (fun c => negb (Ascii.eqb c "*" || Ascii.eqb c "?" || Ascii.eqb c "["))
          p = true ->
  Fnmatch.translate p = map Fnmatch.TLit p.
Proof.
  induction p as [|c r IH]; [reflexivity|]. cbn [forallb].
  intros H. apply andb_true_iff in H as [Hc Hr].
  apply negb_true_iff in Hc. apply orb_false_iff in Hc as [Hc H3].
  apply orb_false_iff in Hc as [H1 H2].
  cbn [Fnmatch.translate map]. rewrite H1, H2, H3, (IH Hr). reflexivity.
Qed.

Lemma tmatch_literal (p s : list ascii) :
  Fnmatch.tmatch (map Fnmatch.TLit p) s = true <-> s = p.
Proof.
  revert s. induction p as [|c r IH]; intros s; cbn [map Fnmatch.tmatch].
  - destruct s; split; congruence.
  - destruct s as [|d s]; [split; discriminate|].
    rewrite andb_true_iff, IH, Ascii.eqb_eq. split.
    + intros [-> ->]. reflexivity.
    + intros H. injection H as -> ->. auto.
Qed.

(** [*] followed by more: some tail of the name matches the rest. *)
Lemma tmatch_star (ts : list Fnmatch.tok) (s : list ascii) :
  Fnmatch.tmatch (Fnmatch.TStar :: ts) s = true <->
  exists pre rest, s = (pre ++ rest)%list /\ Fnmatch.tmatch ts rest = true.
Proof.
  cbn [Fnmatch.tmatch]. induction s as [|c s IH].
  - rewrite orb_false_r. split.
    + intros H. exists [], []. auto.
    + intros [pre [rest [Hs H]]]. symmetry in Hs.
      apply app_eq_nil in Hs as [_ ->]. exact H.
  - rewrite orb_true_iff, IH. split.
    + intros [H|[pre [rest [-> H]]]].
      * exists [], (c :: s). auto.
      * exists (c :: pre), rest. auto.
    + intros [[|d pre] [rest [Hs H]]]; cbn [app] in Hs.
      * left. now subst rest.
      * right. injection Hs as -> ->. eauto.
Qed.

Lemma chars_app (a b : string) :
  list_ascii_of_string (a ++ b)
  = (list_ascii_of_string a ++ list_ascii_of_string b)%list.
Proof. induction a as [|c a IH]; simpl; [reflexivity | now rewrite IH]. Qed.

Lemma chars_inj (a b : string) :
  list_ascii_of_string a = list_ascii_of_string b -> a = b.
Proof.
  intros H. rewrite <- (string_of_list_ascii_of_string a),
              <- (string_of_list_ascii_of_string b). now rewrite H.
Qed.

(** A pattern without wildcard matches itself and nothing else. *)
Lemma fnmatch_literal (name pat : string) :
  literal_pattern pat = true ->
  (Fnmatch.fnmatch name pat = true <-> name = pat).
Proof.
  intros Hlit. unfold Fnmatch.fnmatch.
  rewrite (translate_literal _ Hlit), tmatch_literal. split.
  - apply chars_inj.
  - now intros ->.
Qed.

(** [*] and a literal: the names that end with the literal. *)
Lemma fnmatch_star_literal (name lit : string) :
  literal_pattern lit = true ->
  (Fnmatch.fnmatch name ("*" ++ lit) = true <->
   exists pre, name = pre ++ lit).
Proof.
  intros Hlit. unfold Fnmatch.fnmatch.
  change (list_ascii_of_string ("*" ++ lit))
    with ("*"%char :: list_ascii_of_string lit).
  change (Fnmatch.translate ("*"%char :: list_ascii_of_string lit))
    with (Fnmatch.TStar :: Fnmatch.translate (list_ascii_of_string lit)).
  rewrite (translate_literal _ Hlit), tmatch_star. split.
  - intros [pre [rest [Hs H]]]. apply tmatch_literal in H. subst rest.
    exists (string_of_list_ascii pre). apply chars_inj.
    now rewrite chars_app, list_ascii_of_string_of_list_ascii.
  - intros [pre ->]. exists (list_ascii_of_string pre), (list_ascii_of_string lit).
    split; [apply chars_app | now apply tmatch_literal].
Qed.

End PatternFacts.

(** With patterns that have no wildcard, a file is excluded exactly when
    its path as scanned, or its file name, is one of the patterns: the
    name of a directory excludes nothing that lies in it. *)
Theorem literal_patterns_exclude_exact_names :
  forall (file_path : PyPath.Path) (patterns : list string),
    forallb literal_pattern patterns = true ->
    (Manager._should_exclude file_path patterns = true <->
     In (PyPath.str file_path) patterns \/ In (PyPath.name file_path) patterns).
Proof.
  intros file_path patterns Hlit. rewrite should_exclude_iff.
  rewrite forallb_forall in Hlit. split.
  - intros [pat [Hin [H|H]]]; apply (fnmatch_literal _ _ (Hlit pat Hin)) in H;
      subst pat; auto.
  - intros [H|H]; eexists; (split; [exact H|]).
    + left. now apply fnmatch_literal; [apply Hlit|].
    + right. now apply fnmatch_literal; [apply Hlit|].
Qed.

Lemma literal_patterns_exclude_exact_names_witness :
  Manager._should_exclude (PyPath.parse "/src/.git/config")
    [".git"; "__pycache__"; ".DS_Store"] = true <->
  In (PyPath.str (PyPath.parse "/src/.git/config"))
     [".git"; "__pycache__"; ".DS_Store"]
  \/ In (PyPath.name (PyPath.parse "/src/.git/config"))
        [".git"; "__pycache__"; ".DS_Store"].
Proof.
  apply (literal_patterns_exclude_exact_names
           (PyPath.parse "/src/.git/config")
           [".git"; "__pycache__"; ".DS_Store"]).
  vm_compute. reflexivity.
Defined.

(** With the one pattern [*] followed by a text without wildcard, a file
    is excluded exactly when its path as scanned, or its file name, ends
    with that text. *)
Theorem suffix_pattern_excludes_by_ending :
  forall (file_path : PyPath.Path) (lit : string),
    literal_pattern lit = true ->
    (Manager._should_exclude file_path ["*" ++ lit] = true <->
     (exists pre, PyPath.str file_path = pre ++ lit)
     \/ (exists pre, PyPath.name file_path = pre ++ lit)).
Proof.
  intros file_path lit Hlit. unfold Manager._should_exclude.
  cbn [existsb]. rewrite orb_false_r, orb_true_iff.
  now rewrite !(fnmatch_star_literal _ _ Hlit).
Qed.

Lemma suffix_pattern_excludes_by_ending_witness :
  Manager._should_exclude (PyPath.parse "/src/app/debug.log") ["*" ++ ".log"]
  = true <->
  (exists pre, PyPath.str (PyPath.parse "/src/app/debug.log") = pre ++ ".log")
  \/ (exists pre,
         PyPath.name (PyPath.parse "/src/app/debug.log") = pre ++ ".log").
Proof.
  apply (suffix_pattern_excludes_by_ending
           (PyPath.parse "/src/app/debug.log") ".log").
  vm_compute. reflexivity.
Defined.

(* ================================================================== *)
(** ** Walking a directory tree *)

Section TreeFacts.
Import PyPath.

Lemma strip_prefix_spec (pre l r : list string) :
  strip_prefix pre l = Some r -> l = (pre ++ r)%list.
Proof.
  revert l. induction pre as [|a pre IH]; intros l; cbn.
  - congruence.
  - destruct l as [|b l]; [discriminate|].
    destruct (String.eqb a b) eqn:E; [|discriminate].
    apply String.eqb_eq in E. subst b. intros H. now rewrite (IH _ H).
Qed.

Lemma strip_prefix_app (l r : list string) : strip_prefix l (l ++ r) = Some r.
Proof.
  induction l as [|a l IH]; [reflexivity|]. cbn.
  now rewrite String.eqb_refl.
Qed.

Lemma in_iterdir (fs : FS.t) (d k : Path) :
  In k (FS.iterdir fs d) -> FS.is_child d k = true /\ In k (map fst fs).
Proof.
  unfold FS.iterdir. intros H. apply in_map_iff in H as [[q n] [<- H]].
  apply filter_In in H as [Hin Hc]. split; [exact Hc|].
  now apply (in_map fst) in Hin.
Qed.


(** A child lies one component deeper than its directory. *)
Lemma child_depth (d k : Path) :
  FS.is_child d k = true ->
  List.length (parts k) = S (List.length (parts d)).
Proof.
  unfold FS.is_child. intros H. apply andb_true_iff in H as [_ H].
  destruct (strip_prefix (parts d) (parts k)) as [[|x [|y r]]|] eqn:E;
    try discriminate.
  apply strip_prefix_spec in E. rewrite E, length_app. cbn. lia.
Qed.




Lemma flat_map_ext_in {A B} (f g : A -> list B) (l : list A) :
  (forall a, In a l -> f a = g a) -> flat_map f l = flat_map g l.
Proof.
  induction l as [|a r IH]; intros H; [reflexivity|]. cbn [flat_map].
  rewrite (H a (or_introl eq_refl)), IH; [reflexivity|].
  intros b Hb. apply H. now right.
Qed.

(** One level more changes the walk only where the tree has a chain of
    that many entries, each deeper than the one before. *)
Lemma walk_step (fs : FS.t) (n : nat) :
  forall d,
    (forall l, List.length l = S n -> NoDup l -> incl l (map fst fs) ->
               Forall (fun p => List.length (parts d) < List.length (parts p)) l ->
               False) ->
    FS.walk (S n) fs d = FS.walk n fs d.
Proof.
  induction n as [|n IH]; intros d Hno.
  - cbn [FS.walk]. f_equal.
    destruct (filter (FS.is_dir fs) (FS.iterdir fs d)) as [|k r] eqn:E;
      [reflexivity|]. exfalso.
    assert (Hk : In k (filter (FS.is_dir fs) (FS.iterdir fs d)))
      by (rewrite E; now left).
    apply filter_In in Hk as [Hk _]. apply in_iterdir in Hk as [Hc Hin].
    apply (Hno [k]); [reflexivity | repeat constructor; intros [] | |].
    + intros x [<-|[]]. exact Hin.
    + constructor; [|constructor]. rewrite (child_depth _ _ Hc). lia.
  - change (FS.walk (S (S n)) fs d)
      with (d :: flat_map (FS.walk (S n) fs)
                   (filter (FS.is_dir fs) (FS.iterdir fs d))).
    change (FS.walk (S n) fs d)
      with (d :: flat_map (FS.walk n fs)
                   (filter (FS.is_dir fs) (FS.iterdir fs d))).
    f_equal. apply flat_map_ext_in. intros k Hk.
    apply filter_In in Hk as [Hk _]. apply in_iterdir in Hk as [Hc Hin].
    pose proof (child_depth _ _ Hc) as Hd.
    apply IH. intros l Hlen Hnd Hincl Hdeep. rewrite Forall_forall in Hdeep.
    apply (Hno (k :: l)).
    + cbn. now rewrite Hlen.
    + constructor; [|exact Hnd]. intros Hkl. specialize (Hdeep _ Hkl). lia.
    + intros x [<-|Hx]; [exact Hin | now apply Hincl].
    + constructor; [lia|]. apply Forall_forall. intros x Hx.
      specialize (Hdeep _ Hx). lia.
Qed.

(** The depth [rglob] walks to is enough: walking deeper finds no
    further directory. *)
Lemma walk_deep_enough (fs : FS.t) (d : Path) (n : nat) :
  List.length fs <= n -> FS.walk n fs d = FS.walk (List.length fs) fs d.
Proof.
  induction 1 as [|n Hle IH]; [reflexivity|]. rewrite <- IH.
  apply walk_step. intros l Hlen Hnd Hincl _.
  pose proof (NoDup_incl_length Hnd Hincl) as Hl.
  rewrite length_map in Hl. lia.
Qed.

End TreeFacts.

(* ================================================================== *)
(** ** From the scan to the archive *)

Section ScanFacts.
Import PyPath.
Context {R : Type}.
Variable self : BackupManager R.



Lemma under_relative (d p : Path) :
  is_under d p = true -> relative_to p d <> None.
Proof.
  unfold is_under, relative_to. intros H. apply andb_true_iff in H as [Hr Hs].
  rewrite String.eqb_sym, Hr.
  destruct (strip_prefix (parts d) (parts p)); [discriminate | discriminate].
Qed.

End ScanFacts.



(* ================================================================== *)
(** ** Configuration: substitution and validation *)

Section ConfigFacts.
Import ConfigLoader.

(** Induction on configuration values, through lists and dictionaries. *)
Lemma PyVal_induction (P : PyVal -> Prop) :
  P VNone -> (forall b, P (VBool b)) -> (forall n, P (VInt n)) ->
  (forall s, P (VStr s)) ->
  (forall items, Forall P items -> P (VList items)) ->
  (forall entries, Forall (fun kv => P (snd kv)) entries -> P (VDict entries)) ->
  forall v, P v.
Proof.
  intros Hnone Hbool Hint Hstr Hlist Hdict.
  fix IH 1. intros [| b | n | s | items | entries].
  - exact Hnone.
  - apply Hbool.
  - apply Hint.
  - apply Hstr.
  - apply Hlist. induction items as [|x r IHr]; constructor; [apply IH | exact IHr].
  - apply Hdict. induction entries as [|[k v] r IHr]; constructor;
      [apply IH | exact IHr].
Qed.

Lemma traverse_done {A B} (f : A -> Outcome B) (g : A -> B) (l : list A) :
  Forall (fun x => f x = Done (g x)) l -> traverse f l = Done (map g l).
Proof.
  induction 1 as [|x r Hx _ IH]; cbn; [reflexivity|]. now rewrite Hx, IH.
Qed.

Lemma traverse_failed {A B} (f : A -> Outcome B) (l : list A) (p : Problem) :
  traverse f l = Failed p -> exists x, In x l /\ f x = Failed p.
Proof.
  induction l as [|x r IH]; cbn; [discriminate|].
  destruct (f x) as [y|q] eqn:Ex.
  - destruct (traverse f r) as [ys|q] eqn:Er; [discriminate|].
    intros H. injection H as ->. destruct (IH eq_refl) as [z [Hz Hf]].
    exists z. split; [now right | exact Hf].
  - intros H. injection H as ->. exists x. split; [now left | exact Ex].
Qed.

(** With every referenced variable set, substitution succeeds and gives
    the configuration with the references replaced. *)
Lemma replace_done (getenv : Environ) (v : PyVal) :
  (forall x, In x (references v) -> getenv x <> None) ->
  replace getenv v = Done (substituted (fun x => get (getenv x) "") v).
Proof.
  induction v as [| b | n | s | items IH | entries IH] using PyVal_induction;
    intros Hset; try reflexivity.
  - cbn [replace substituted references] in *.
    destruct (is_reference s); [|reflexivity].
    destruct (getenv (env_var_of s)) eqn:E; [reflexivity|].
    exfalso. apply (Hset (env_var_of s)); [now left | exact E].
  - cbn [replace substituted]. erewrite traverse_done; [reflexivity|].
    rewrite Forall_forall in *. intros x Hx. apply IH; [exact Hx|].
    intros y Hy. apply Hset. cbn [references]. apply in_flat_map. eauto.
  - cbn [replace substituted].
    erewrite (traverse_done _
               (fun kv : string * PyVal =>
                  let (k, v) := kv in
                  (k, substituted (fun x => get (getenv x) "") v)));
      [reflexivity|].
    rewrite Forall_forall in *. intros [k v] Hx.
    pose proof (IH (k, v) Hx) as Hv. cbn [snd] in Hv.
    rewrite Hv; [reflexivity|].
    intros y Hy. apply Hset. cbn [references]. apply in_flat_map.
    exists (k, v). auto.
Qed.

(** Substitution fails only for a referenced variable that is not set. *)
Lemma replace_failed (getenv : Environ) (v : PyVal) (p : Problem) :
  replace getenv v = Failed p ->
  exists x, p = EnvVarNotFound x /\ In x (references v) /\ getenv x = None.
Proof.
  revert p.
  induction v as [| b | n | s | items IH | entries IH] using PyVal_induction;
    intros p; try discriminate.
  - cbn [replace references]. destruct (is_reference s); [|discriminate].
    destruct (getenv (env_var_of s)) eqn:E; [discriminate|].
    intros H. injection H as <-. exists (env_var_of s). cbn. auto.
  - cbn [replace references].
    destruct (traverse (replace getenv) items) as [l|q] eqn:E; [discriminate|].
    intros H. injection H as ->.
    apply traverse_failed in E as [x [Hx Hf]].
    rewrite Forall_forall in IH. destruct (IH x Hx p Hf) as [y [-> [Hy Hn]]].
    exists y. repeat split; [|exact Hn]. apply in_flat_map. eauto.
  - cbn [replace references].
    destruct (traverse _ entries) as [l|q] eqn:E; [discriminate|].
    intros H. injection H as ->.
    apply traverse_failed in E as [[k v] [Hx Hf]].
    destruct (replace getenv v) as [v'|q] eqn:Ev; [discriminate|].
    injection Hf as ->.
    rewrite Forall_forall in IH. pose proof (IH (k, v) Hx p) as Hv.
    cbn [snd] in Hv. destruct (Hv Ev) as [y [-> [Hy Hn]]].
    exists y. repeat split; [|exact Hn]. apply in_flat_map.
    exists (k, v). auto.
Qed.

Lemma substituted_without_references (value : string -> string) (v : PyVal) :
  references v = [] -> substituted value v = v.
Proof.
  induction v as [| b | n | s | items IH | entries IH] using PyVal_induction;
    intros Href; try reflexivity.
  - cbn [substituted references] in *. destruct (is_reference s);
      [discriminate | reflexivity].
  - cbn [substituted references] in *. f_equal.
    induction items as [|x r IHr]; [reflexivity|]. cbn [map flat_map] in *.
    apply app_eq_nil in Href as [Hx Hr].
    inversion IH as [|? ? Px Pr]; subst.
    now rewrite (Px Hx), (IHr Pr Hr).
  - cbn [substituted references] in *. f_equal.
    induction entries as [|[k v] r IHr]; [reflexivity|]. cbn [map flat_map] in *.
    apply app_eq_nil in Href as [Hx Hr].
    inversion IH as [|? ? Px Pr]; subst. cbn [snd] in Px.
    now rewrite (Px Hx), (IHr Pr Hr).
Qed.

End ConfigFacts.

(** [_replace_env_vars] succeeds exactly when every variable the
    configuration refers to is set.  It then returns the configuration
    with each reference, a string that starts with [${] and ends with
    [}], replaced by the variable's value and everything else, keys
    included, as it was; a configuration without references comes back
    unchanged.  Otherwise it fails for a referenced variable that is not
    set. *)
Theorem replace_env_vars_outcome :
  forall (getenv : ConfigLoader.Environ) (config : PyVal),
    ((forall x, In x (ConfigLoader.references config) -> getenv x <> None) ->
     ConfigLoader._replace_env_vars getenv config
     = ConfigLoader.Done
         (ConfigLoader.substituted (fun x => get (getenv x) "") config))
    /\ (ConfigLoader.references config = [] ->
        ConfigLoader._replace_env_vars getenv config = ConfigLoader.Done config)
    /\ (forall p,
          ConfigLoader._replace_env_vars getenv config = ConfigLoader.Failed p ->
          exists x, p = ConfigLoader.EnvVarNotFound x
                    /\ In x (ConfigLoader.references config)
                    /\ getenv x = None).
Proof.
  intros getenv config. unfold ConfigLoader._replace_env_vars.
  split; [apply replace_done|]. split; [|apply replace_failed].
  intros Href. rewrite replace_done.
  - now rewrite substituted_without_references.
  - rewrite Href. intros x [].
Qed.

Lemma replace_env_vars_outcome_witness :
  ConfigLoader._replace_env_vars SampleConfig.environ SampleConfig.default_config
  = ConfigLoader.Done
      (ConfigLoader.substituted (fun x => get (SampleConfig.environ x) "")
                                SampleConfig.default_config).
Proof.
  apply (proj1 (replace_env_vars_outcome SampleConfig.environ SampleConfig.default_config)).
  intros x Hx. vm_compute in Hx.
  destruct Hx as [<-|[<-|[]]]; vm_compute; discriminate.
Defined.

(** For a configuration whose [backup] and [storage] sections are
    dictionaries, [_validate_config] accepts exactly when [backup] has a
    [name], [storage] has a [type] that is one of the four supported
    names, and [storage] has a section of that name. *)
Theorem validate_config_accepts :
  forall (entries backup storage : list (string * PyVal)),
    ConfigLoader.assoc entries "backup" = Some (VDict backup) ->
    ConfigLoader.assoc entries "storage" = Some (VDict storage) ->
    (ConfigLoader._validate_config (VDict entries) = ConfigLoader.Done tt <->
     ConfigLoader.assoc backup "name" <> None
     /\ exists t,
         ConfigLoader.assoc storage "type" = Some (VStr t)
         /\ In t ConfigLoader.valid_storage_types
         /\ ConfigLoader.assoc storage t <> None).
Proof.
  intros entries backup storage Hb Hs.
  unfold ConfigLoader._validate_config, ConfigLoader.and_then,
    ConfigLoader.require, ConfigLoader.contains, ConfigLoader.subscript.
  rewrite Hb, Hs.
  destruct (ConfigLoader.assoc backup "name") as [nm|].
  - destruct (ConfigLoader.assoc storage "type") as [ty|].
    + destruct ty as [| b | n | t | items | d];
        try (split; [discriminate | intros [_ [t' [H _]]]; discriminate]).
      destruct (existsb (String.eqb t) ConfigLoader.valid_storage_types) eqn:Ev.
      * apply existsb_exists in Ev as [t' [Hin Heq]].
        apply String.eqb_eq in Heq. subst t'.
        destruct (ConfigLoader.assoc storage t) as [sec|] eqn:Esec.
        -- split; [intros _|reflexivity]. split; [discriminate|].
           exists t. rewrite Esec. repeat split; [exact Hin | discriminate].
        -- split; [discriminate|]. intros [_ [t' [H [_ Hsec]]]].
           injection H as <-. congruence.
      * split; [discriminate|]. intros [_ [t' [H [Hin _]]]].
        injection H as <-.
        assert (existsb (String.eqb t) ConfigLoader.valid_storage_types = true)
          by (apply existsb_exists; exists t; split;
              [exact Hin | apply String.eqb_refl]).
        congruence.
    + split; [discriminate | intros [_ [t [H _]]]; discriminate].
  - split; [discriminate | intros [H _]; congruence].
Qed.

Lemma validate_config_accepts_witness :
  ConfigLoader._validate_config SampleConfig.default_config
  = ConfigLoader.Done tt <->
  ConfigLoader.assoc SampleConfig.backup_section "name" <> None
  /\ exists t,
      ConfigLoader.assoc SampleConfig.storage_section "type" = Some (VStr t)
      /\ In t ConfigLoader.valid_storage_types
      /\ ConfigLoader.assoc SampleConfig.storage_section t <> None.
Proof.
  apply (validate_config_accepts SampleConfig.sections
           SampleConfig.backup_section SampleConfig.storage_section).
  - vm_compute. reflexivity.
  - vm_compute. reflexivity.
Defined.

(* ================================================================== *)
(** ** The local backend: what is uploaded is listed *)

Section ListedAfterUpload.
Import PyPath.
Context {R : Type}.
Variable base_path : Path.

Lemma parse_root_relative (s : string) :
  PyStr.contains "/" s = false -> parse_root s = "".
Proof.
  destruct s as [|a s]; [reflexivity|]. cbn [PyStr.contains].
  intros H. apply orb_false_iff in H as [Ha _].
  unfold parse_root, PyStr.startswith. cbn [String.prefix].
  destruct (ascii_dec "/" a) as [<-|Hne]; [discriminate Ha|].
  reflexivity.
Qed.

(** The stored path of a backup whose identifier is a plain name. *)
Lemma stored_path_plain (backup_id sfx : string) :
  PyStr.contains "/" backup_id = false ->
  PyStr.contains "/" sfx = false ->
  keep_part (backup_id ++ sfx) = true ->
  joinpath base_path (backup_id ++ sfx)
  = mkPath (root base_path) (parts base_path ++ [backup_id ++ sfx]).
Proof.
  intros Hid Hsfx Hkeep.
  assert (Hno : PyStr.contains "/" (backup_id ++ sfx) = false).
  { clear Hkeep. induction backup_id as [|a s IH]; [exact Hsfx|].
    cbn [PyStr.contains] in Hid. apply orb_false_iff in Hid as [Ha Hs].
    change (String a s ++ sfx) with (String a (s ++ sfx)).
    cbn [PyStr.contains]. now rewrite Ha, (IH Hs). }
  unfold joinpath, parse. cbn [root parts].
  rewrite (parse_root_relative _ Hno), (split_without_sep _ _ Hno).
  cbn [filter]. now rewrite Hkeep.
Qed.

Lemma name_stem_zip (x : string) :
  x <> "" -> name_stem (x ++ ".zip") = x.
Proof.
  intros Hx. unfold name_stem. rewrite rfind_app.
  change (PyStr.rfind "." ".zip") with (Some 0%nat).
  cbv beta iota. rewrite Nat.add_0_r, append_length.
  destruct x as [|a x]; [congruence|].
  change (String.length ".zip") with 4%nat.
  replace (0 <? String.length (String a x))%nat with true by reflexivity.
  replace (String.length (String a x) <? String.length (String a x) + 4 - 1)%nat
    with true by (symmetry; apply Nat.ltb_lt; simpl; lia).
  cbn [andb]. apply (take_app_length (String a x) ".zip").
Qed.

Lemma lookup_in_keys (fs : FS.t) (p : Path) (n : Node) :
  FS.lookup fs p = Some n -> exists n', In (p, n') fs.
Proof.
  induction fs as [|[k m] r IH]; cbn [FS.lookup]; [discriminate|].
  destruct (PyPath.eqb k p) eqn:E.
  - apply path_eqb_eq in E. subst k. intros _. exists m. now left.
  - intros H. destruct (IH H) as [n' Hn']. exists n'. now right.
Qed.

Lemma find_exists {A} (f : A -> bool) (l : list A) (x : A) :
  In x l -> f x = true -> exists y, find f l = Some y /\ f y = true.
Proof.
  induction l as [|a r IH]; intros Hin Hx; [destruct Hin|]. cbn [find].
  destruct (f a) eqn:E; [eauto|].
  destruct Hin as [->|Hin]; [congruence | now apply IH].
Qed.

(** What the listing holds, as a lemma to share. *)
Lemma list_backups_members (e : Env R) :
  exists backups,
    LocalStorage.list_backups base_path e = Ok backups
    /\ forall b,
        In b backups <->
        exists p n,
          In p (FS.iterdir (e_fs e) base_path)
          /\ FS.lookup (e_fs e) p = Some n
          /\ (suffix p = ".zip" \/ suffix p = ".enc")
          /\ b = mkRecord (stem p) (node_size n) (Some (StNum (node_ctime n))).
Proof.
  unfold LocalStorage.list_backups, PyList.sort_by.
  rewrite (homogeneous_numbers _ (record_of_numbers (e_fs e) _)).
  eexists. split; [reflexivity|]. intros b. split.
  - intros Hb. apply (Permutation_in _ (stable_sort_perm _ _)) in Hb.
    apply in_flat_map in Hb as [p [Hp Hb]].
    apply record_of_spec in Hb as [n Hn]. exists p, n. tauto.
  - intros [p [n [Hp Hn]]].
    apply (Permutation_in _ (Permutation_sym (stable_sort_perm _ _))).
    apply in_flat_map. exists p. split; [exact Hp|].
    apply record_of_spec. exists n. exact Hn.
Qed.

End ListedAfterUpload.

(** A [.zip] file uploaded to the local backend under an identifier that
    is a plain name (not empty, no path separator), where no directory of
    the stored name is in the way, is listed: the listing has a record
    with this identifier, the size of the file and the time of the upload,
    and [get_backup_info] finds a record with this identifier. *)
Theorem local_uploaded_zip_is_listed :
  forall (R : Type) (base_path : PyPath.Path)
         (json_dump : list (string * PyVal) -> string)
         (file_path backup_id : string)
         (metadata : option (list (string * PyVal)))
         (e e1 : Env R) (loc : string) (c : Blob) (t : Z),
    PyPath.suffix (PyPath.parse file_path) = ".zip" ->
    FS.lookup (e_fs e) (PyPath.parse file_path) = Some (File c t) ->
    PyStr.contains "/" backup_id = false ->
    backup_id <> "" ->
    FS.is_dir (e_fs e) (PyPath.joinpath base_path (backup_id ++ ".zip"))
    = false ->
    LocalStorage.upload base_path json_dump file_path backup_id metadata e
    = (Ok loc, e1) ->
    exists backups b,
      LocalStorage.list_backups base_path e1 = Ok backups
      /\ In (mkRecord backup_id (blob_size c) (Some (StNum (e_clock e))))
            backups
      /\ BaseStorage.get_backup_info (LocalStorage.backend base_path)
           backup_id e1 = Ok (Some b)
      /\ id b = backup_id.
Proof.
  intros R base_path json_dump file_path backup_id metadata e e1 loc c t
         Hsfx Hsrc Hid Hne Hdir Hup.
  apply upload_ok in Hup. rewrite Hsfx in Hup.
  set (p1 := PyPath.joinpath base_path (backup_id ++ ".zip")) in *.
  destruct Hup as [c' [t' [Hsrc' [_ [_ Hfs]]]]].
  rewrite Hsrc in Hsrc'. injection Hsrc' as <- <-. cbv zeta in Hfs.
  unfold copy_destination in Hfs. rewrite Hdir in Hfs.
  assert (Hp1 : FS.lookup (e_fs e1) p1 = Some (File c (e_clock e))).
  { destruct Hfs as [->|[pmeta [text [Hm ->]]]].
    - apply lookup_write_same.
    - rewrite lookup_write_other; [apply lookup_write_same|].
      apply with_suffix_meta in Hm as [Hq _]. congruence. }
  assert (Hshape : p1 = PyPath.mkPath (PyPath.root base_path)
                          (PyPath.parts base_path ++ [backup_id ++ ".zip"]))
    by (apply stored_path_plain; [exact Hid | reflexivity | apply keep_part_zip]).
  assert (Hname : PyPath.name p1 = backup_id ++ ".zip")
    by (rewrite Hshape; unfold PyPath.name; cbn [PyPath.parts]; apply last_last).
  destruct (list_backups_members base_path e1) as [backups [Hlist Hmem]].
  assert (Hin : In (mkRecord backup_id (blob_size c) (Some (StNum (e_clock e))))
                   backups).
  { apply Hmem. exists p1, (File c (e_clock e)).
    split; [|split; [exact Hp1|split]].
    - unfold FS.iterdir. destruct (lookup_in_keys _ _ _ Hp1) as [n' Hn'].
      apply in_map_iff. exists (p1, n'). split; [reflexivity|].
      apply filter_In. split; [exact Hn'|]. cbn [fst]. rewrite Hshape.
      unfold FS.is_child. cbn [PyPath.root PyPath.parts].
      now rewrite String.eqb_refl, strip_prefix_app.
    - left. unfold PyPath.suffix. rewrite Hname, name_suffix_zip.
      destruct backup_id; [congruence | reflexivity].
    - unfold PyPath.stem. rewrite Hname, (name_stem_zip _ Hne). reflexivity. }
  unfold BaseStorage.get_backup_info.
  cbn [LocalStorage.backend sb_list_backups]. rewrite Hlist.
  destruct (find_exists (fun backup => String.eqb (id backup) backup_id)
              backups _ Hin (String.eqb_refl _)) as [b [Hfind Hb]].
  exists backups, b. rewrite Hfind. apply String.eqb_eq in Hb. auto.
Qed.

Lemma local_uploaded_zip_is_listed_witness :
  let e := w_env (Sample.world_of Sample.fs_tree) in
  let e1 := snd (LocalStorage.upload (PyPath.parse "/backups") Sample.json_dump
                   "/backups/b2.zip" "copy" None e) in
  exists backups b,
    LocalStorage.list_backups (PyPath.parse "/backups") e1 = Ok backups
    /\ In (mkRecord "copy" (blob_size Sample.archive_evil)
                    (Some (StNum (e_clock e)))) backups
    /\ BaseStorage.get_backup_info
         (LocalStorage.backend (PyPath.parse "/backups")) "copy" e1
       = Ok (Some b)
    /\ id b = "copy".
Proof.
  eapply (local_uploaded_zip_is_listed unit (PyPath.parse "/backups")
            Sample.json_dump "/backups/b2.zip" "copy" None
            (w_env (Sample.world_of Sample.fs_tree))) with (t := 20%Z).
  - vm_compute. reflexivity.
  - vm_compute. reflexivity.
  - vm_compute. reflexivity.
  - discriminate.
  - vm_compute. reflexivity.
  - vm_compute. reflexivity.
Defined.

(* ================================================================== *)
(** ** The local backend: where a download writes *)

Section DownloadFrame.
Import PyPath.
Context {R : Type}.
Variable base_path : Path.

Lemma with_suffix_shape (p q : Path) (sfx : string) :
  with_suffix p sfx = Some q ->
  root q = root p /\ exists nm, parts q = (removelast (parts p) ++ [nm])%list.
Proof.
  unfold with_suffix. destruct (PyStr.contains "/" sfx); [discriminate|].
  destruct (_ || _); [discriminate|].
  destruct (String.eqb (name p) ""); [discriminate|].
  intros H. injection H as <-. cbn [root parts]. eauto.
Qed.

Lemma copy_destination_beside (fs : FS.t) (src target : Path) :
  beside target (copy_destination fs src target).
Proof.
  unfold beside, copy_destination.
  destruct (FS.is_dir fs target); cbn [root parts]; (split; [reflexivity|]).
  - destruct (parts target) as [|a r] using rev_ind.
    + exists [name src]. reflexivity.
    + rewrite removelast_last. exists [a; name src]. now rewrite <- app_assoc.
  - destruct (parts target) as [|a r] using rev_ind.
    + now exists [].
    + rewrite removelast_last. now exists [a].
Qed.

Lemma meta_destination_beside (fs : FS.t) (src target tmeta : Path) (sfx : string) :
  with_suffix target sfx = Some tmeta ->
  beside target (copy_destination fs src tmeta).
Proof.
  intros H. apply with_suffix_shape in H as [Hroot [nm Hparts]].
  unfold beside, copy_destination.
  destruct (FS.is_dir fs tmeta); cbn [root parts]; rewrite Hparts;
    (split; [exact Hroot|]).
  - exists [nm; name src]. now rewrite <- app_assoc.
  - now exists [nm].
Qed.

Lemma copy_metadata_frame (e e2 : Env R) (source_path : Path)
      (target_path : string) (r : Result bool) (q : Path) :
  LocalStorage.copy_metadata e source_path target_path = (r, e2) ->
  ~ beside (parse target_path) q ->
  FS.lookup (e_fs e2) q = FS.lookup (e_fs e) q
  /\ e_remote e2 = e_remote e /\ e_clock e2 = e_clock e.
Proof.
  unfold LocalStorage.copy_metadata. intros H Hq.
  destruct (with_suffix source_path ".meta.json") as [mp|];
    [|injection H as <- <-; auto].
  destruct (FS.exists_ (e_fs e) mp); [|injection H as <- <-; auto].
  destruct (with_suffix (parse target_path) ".meta.json") as [tmeta|] eqn:Et;
    [|injection H as <- <-; auto].
  destruct (FS.copy2 _ _ mp tmeta) as [fs2|x] eqn:Ec;
    injection H as <- <-; auto.
  apply copy2_ok in Ec as [c [t [_ ->]]]. cbn [e_fs e_remote e_clock set_fs].
  repeat split. apply lookup_write_other. intros ->. apply Hq.
  now apply (meta_destination_beside _ _ _ _ _ Et).
Qed.

Lemma download_from_frame (suffixes : list string)
      (backup_id target_path : string) (e e2 : Env R) (r : Result bool)
      (q : Path) :
  LocalStorage.download_from base_path suffixes backup_id target_path e
  = (r, e2) ->
  ~ beside (parse target_path) q ->
  FS.lookup (e_fs e2) q = FS.lookup (e_fs e) q
  /\ e_remote e2 = e_remote e /\ e_clock e2 = e_clock e.
Proof.
  intros H Hq. induction suffixes as [|sfx rest IH];
    cbn [LocalStorage.download_from] in H.
  - injection H as <- <-. auto.
  - destruct (FS.exists_ (e_fs e) _); [|now apply IH].
    destruct (FS.copy2 _ _ _ _) as [fs1|x] eqn:Ec;
      [|injection H as <- <-; auto].
    apply copy2_ok in Ec as [c [t [_ ->]]].
    apply (copy_metadata_frame _ _ _ _ _ q) in H; [|exact Hq].
    cbn [e_fs e_remote e_clock set_fs] in H. destruct H as [H1 [H2 H3]].
    repeat split; try assumption. rewrite H1.
    apply lookup_write_other. intros ->. apply Hq.
    apply copy_destination_beside.
Qed.

End DownloadFrame.

(** Whatever it answers, a download from the local backend changes the
    file system only in the directory of the target path: every path
    outside it, the stored backups included when the target is elsewhere,
    is as before. *)
Theorem local_download_writes_beside_the_target :
  forall (R : Type) (base_path : PyPath.Path) (backup_id target_path : string)
         (e e2 : Env R) (r : Result bool) (q : PyPath.Path),
    LocalStorage.download base_path backup_id target_path e = (r, e2) ->
    ~ beside (PyPath.parse target_path) q ->
    FS.lookup (e_fs e2) q = FS.lookup (e_fs e) q.
Proof.
  intros R base_path backup_id target_path e e2 r q H Hq.
  unfold LocalStorage.download in H.
  now apply (download_from_frame base_path _ _ _ _ _ _ q) in H.
Qed.

Lemma local_download_writes_beside_the_target_witness :
  FS.lookup
    (e_fs (snd (LocalStorage.download (PyPath.parse "/backups") "b2"
                  "/tmp/got.zip" (w_env (Sample.world_of Sample.fs_tree)))))
    (PyPath.parse "/backups/b2.zip")
  = FS.lookup Sample.fs_tree (PyPath.parse "/backups/b2.zip").
Proof.
  eapply (local_download_writes_beside_the_target unit (PyPath.parse "/backups")
            "b2" "/tmp/got.zip" (w_env (Sample.world_of Sample.fs_tree))).
  - vm_compute. reflexivity.
  - intros [_ [rest Hrest]]. vm_compute in Hrest. discriminate Hrest.
Defined.

(* ================================================================== *)
(** ** Archive and extraction as a round trip *)

Section EntryNames.
Import PyPath.

Lemma split_app_sep (sep : ascii) (x rest : string) :
  PyStr.contains sep x = false ->
  PyStr.split sep (x ++ String sep rest) = x :: PyStr.split sep rest.
Proof.
  intros Hx. induction x as [|a x IH].
  - cbn [append PyStr.split]. pose proof (split_nonempty sep rest) as Hne.
    destruct (PyStr.split sep rest) as [|h r]; [congruence|].
    now rewrite Ascii.eqb_refl.
  - cbn [PyStr.contains] in Hx. apply orb_false_iff in Hx as [Ha Hx].
    change (String a x ++ String sep rest) with (String a (x ++ String sep rest)).
    cbn [PyStr.split]. rewrite (IH Hx), Ha. reflexivity.
Qed.

Lemma split_join (l : list string) :
  l <> [] ->
  Forall (fun c => PyStr.contains "/" c = false) l ->
  PyStr.split "/" (PyStr.join "/" l) = l.
Proof.
  intros Hne Hall. induction Hall as [|x r Hx Hr IH]; [congruence|].
  destruct r as [|y r].
  - cbn [PyStr.join]. now apply split_without_sep.
  - change (PyStr.join "/" (x :: y :: r))
      with (x ++ String "/" (PyStr.join "/" (y :: r))).
    rewrite (split_app_sep _ _ _ Hx), IH; [reflexivity | discriminate].
Qed.

Lemma filter_all {A} (f : A -> bool) (l : list A) :
  forallb f l = true -> filter f l = l.
Proof.
  induction l as [|a r IH]; cbn; [reflexivity|]. intros H.
  apply andb_true_iff in H as [Ha Hr]. now rewrite Ha, IH.
Qed.

Lemma proper_names (l : list string) :
  forallb proper_name l = true ->
  Forall (fun c => PyStr.contains "/" c = false) l
  /\ Forall (fun c => ZipFile.invalid_path_part c = false) l
  /\ forallb (fun x => negb (ZipFile.invalid_path_part x)) l = true.
Proof.
  intros H. rewrite forallb_forall in H. repeat split.
  - apply Forall_forall. intros c Hc. specialize (H c Hc).
    apply andb_true_iff in H as [_ H]. now apply negb_true_iff in H.
  - apply Forall_forall. intros c Hc. specialize (H c Hc).
    apply andb_true_iff in H as [H _]. now apply negb_true_iff in H.
  - apply forallb_forall. intros c Hc. specialize (H c Hc).
    now apply andb_true_iff in H as [H _].
Qed.

(** The entry name made of proper components gives them back. *)
Lemma sanitize_join (l : list string) :
  l <> [] -> forallb proper_name l = true ->
  ZipFile.sanitize (PyStr.join "/" l) = l.
Proof.
  intros Hne Hp. destruct (proper_names l Hp) as [Hsep [_ Hvalid]].
  unfold ZipFile.sanitize. rewrite (split_join l Hne Hsep).
  now apply filter_all.
Qed.

Lemma ends_with_slash_app (x y : string) :
  y <> "" -> ZipFile.ends_with_slash (x ++ y) = ZipFile.ends_with_slash y.
Proof.
  intros Hy. induction x as [|a x IH]; [reflexivity|].
  change (String a x ++ y) with (String a (x ++ y)).
  cbn [ZipFile.ends_with_slash]. rewrite IH.
  destruct (x ++ y) eqn:E; [|reflexivity].
  destruct x; [cbn in E; congruence | discriminate].
Qed.

Lemma no_sep_no_trailing_slash (s : string) :
  PyStr.contains "/" s = false -> ZipFile.ends_with_slash s = false.
Proof.
  induction s as [|a s IH]; [reflexivity|]. cbn [PyStr.contains].
  intros H. apply orb_false_iff in H as [Ha Hs].
  cbn [ZipFile.ends_with_slash]. destruct s; [exact Ha | now apply IH].
Qed.

Lemma append_assoc (a b c : string) : (a ++ b) ++ c = a ++ (b ++ c).
Proof. induction a as [|x a IH]; cbn; [reflexivity | now rewrite IH]. Qed.

Lemma join_last (l : list string) :
  l <> [] -> exists pre, PyStr.join "/" l = pre ++ last l "".
Proof.
  induction l as [|x r IH]; [congruence|]. intros _.
  destruct r as [|y r]; [now exists ""|].
  destruct (IH ltac:(discriminate)) as [pre Hpre].
  exists (x ++ String "/" pre).
  change (PyStr.join "/" (x :: y :: r))
    with (x ++ String "/" (PyStr.join "/" (y :: r))).
  rewrite Hpre. change (last (x :: y :: r) "") with (last (y :: r) "").
  now rewrite append_assoc.
Qed.

(** An entry name made of proper components names a file, not a
    directory. *)
Lemma join_is_no_directory (l : list string) :
  l <> [] -> forallb proper_name l = true ->
  ZipFile.ends_with_slash (PyStr.join "/" l) = false.
Proof.
  intros Hne Hp. destruct (join_last l Hne) as [pre ->].
  assert (Hin : In (last l "") l).
  { destruct l as [|a r] using rev_ind; [congruence|]. rewrite last_last.
    apply in_or_app. right. now left. }
  rewrite forallb_forall in Hp. specialize (Hp _ Hin).
  apply andb_true_iff in Hp as [Hv Hs].
  apply negb_true_iff in Hv, Hs.
  rewrite ends_with_slash_app.
  - now apply no_sep_no_trailing_slash.
  - intros E. rewrite E in Hv. discriminate.
Qed.

(** A file below the source is the source followed by its relative
    components, of which there is at least one. *)
Lemma under_shape (source_path file : Path) :
  is_under source_path file = true ->
  file = mkPath (root source_path)
           (parts source_path ++ relative_parts source_path file)
  /\ relative_parts source_path file <> []
  /\ relative_to file source_path
     = Some (mkPath "" (relative_parts source_path file)).
Proof.
  unfold is_under, relative_to, relative_parts. intros H.
  apply andb_true_iff in H as [Hr Hs]. rewrite String.eqb_sym, Hr.
  apply String.eqb_eq in Hr.
  destruct (strip_prefix (parts source_path) (parts file)) as [[|a r]|] eqn:E;
    try discriminate.
  apply strip_prefix_spec in E. destruct file as [rf pf]. cbn [root parts] in *.
  subst. repeat split. discriminate.
Qed.

(** The entry name of a file below the source whose relative components
    are proper names: the components joined by [/]. *)
Lemma entry_name_join (source_path file : Path) :
  is_under source_path file = true ->
  forallb proper_name (relative_parts source_path file) = true ->
  entry_name source_path file
  = PyStr.join "/" (relative_parts source_path file).
Proof.
  intros Hu Hp. destruct (under_shape _ _ Hu) as [_ [Hne Hrel]].
  unfold entry_name. rewrite Hrel.
  unfold ZipFile.arcname_of, ZipFile.normpath. cbn [root parts].
  destruct (proper_names _ Hp) as [_ [Hvalid _]].
  rewrite (normalise_valid _ _ Hvalid). cbn [app].
  unfold str. cbn [root parts].
  destruct (relative_parts source_path file); [congruence | reflexivity].
Qed.

End EntryNames.

Section ExtractContents.
Import PyPath.

Lemma getinfo_snoc (es : ZipFile.entries) (e : string * Blob) (m : string) :
  ZipFile.getinfo (es ++ [e])%list m
  = if String.eqb (fst e) m then Some (snd e) else ZipFile.getinfo es m.
Proof. unfold ZipFile.getinfo. now rewrite fold_left_app. Qed.

(** The entry found under a name is an entry of that name. *)
Lemma getinfo_found (es : ZipFile.entries) (m : string) :
  (exists d, In (m, d) es) ->
  exists d, ZipFile.getinfo es m = Some d /\ In (m, d) es.
Proof.
  induction es as [|[n c] es IH] using rev_ind; intros [d Hd]; [destruct Hd|].
  rewrite getinfo_snoc. cbn [fst snd].
  destruct (String.eqb n m) eqn:E.
  - apply String.eqb_eq in E. subst n. exists c. split; [reflexivity|].
    apply in_or_app. right. now left.
  - apply in_app_or in Hd as [Hd|[Hd|[]]].
    + destruct (IH (ex_intro _ d Hd)) as [d' [Hg Hin]].
      exists d'. split; [exact Hg | apply in_or_app; now left].
    + injection Hd as -> ->. now rewrite String.eqb_refl in E.
Qed.

Context {R : Type}.

(** A file that is there stays there with its content through the
    extraction of members that either go elsewhere or bring the same
    content. *)
Lemma extract_all_keeps (es : ZipFile.entries) (target q : Path) (d : Blob)
      (members : list string) :
  forall (acc : list Path) (w w' : World R) (files : list Path),
    Manager.extract_all es members target acc w = (Ok files, w') ->
    (forall m, In m members -> ZipFile.ends_with_slash m = false) ->
    (forall m, In m members -> ZipFile.extract_target target m = q ->
               ZipFile.getinfo es m = Some d) ->
    FS.lookup (e_fs (w_env w)) q = Some (File d (e_clock (w_env w))) ->
    FS.lookup (e_fs (w_env w')) q = Some (File d (e_clock (w_env w)))
    /\ e_clock (w_env w') = e_clock (w_env w).
Proof.
  induction members as [|m rest IH]; intros acc w w' files H Hfile Hsame Hq.
  - cbn in H. injection H as _ <-. auto.
  - cbn [Manager.extract_all] in H. unfold Manager.extract_member in H.
    revert H. run_monad.
    destruct (ZipFile.extract (e_clock (w_env w)) (e_fs (w_env w)) es m target)
      as [[p fs1]|x] eqn:E; [|discriminate].
    intros H.
    apply extract_file in E as [d0 [Hg [Hp Hfs]]]; [|apply Hfile; now left].
    apply IH in H; cbn [w_env w_trace e_fs e_clock set_fs] in *.
    + exact H.
    + intros m' Hm'. apply Hfile. now right.
    + intros m' Hm'. apply Hsame. now right.
    + subst fs1. rewrite lookup_write.
      destruct (PyPath.eqb p q) eqn:Epq.
      * apply path_eqb_eq in Epq. subst q p.
        rewrite (Hsame m (or_introl eq_refl) eq_refl) in Hg. congruence.
      * now apply mkdirs_keep.
Qed.

(** After an extraction that returns, every member that names a file is
    at its place with the content of its entry, provided members that go
    to one place bring one content. *)
Lemma extract_all_contents (es : ZipFile.entries) (target : Path)
      (members : list string) :
  forall (acc : list Path) (w w' : World R) (files : list Path),
    Manager.extract_all es members target acc w = (Ok files, w') ->
    (forall m, In m members -> ZipFile.ends_with_slash m = false) ->
    (forall m m', In m members -> In m' members ->
                  ZipFile.extract_target target m
                  = ZipFile.extract_target target m' ->
                  ZipFile.getinfo es m = ZipFile.getinfo es m') ->
    forall m, In m members ->
      exists d,
        ZipFile.getinfo es m = Some d
        /\ FS.lookup (e_fs (w_env w')) (ZipFile.extract_target target m)
           = Some (File d (e_clock (w_env w))).
Proof.
  induction members as [|m0 rest IH]; intros acc w w' files H Hfile Hinj m Hm;
    [destruct Hm|].
  cbn [Manager.extract_all] in H. unfold Manager.extract_member in H.
  revert H. run_monad.
  destruct (ZipFile.extract (e_clock (w_env w)) (e_fs (w_env w)) es m0 target)
    as [[p fs1]|x] eqn:E; [|discriminate].
  intros H.
  apply extract_file in E as [d0 [Hg [Hp Hfs]]]; [|apply Hfile; now left].
  destruct (list_eq_dec string_dec (parts (ZipFile.extract_target target m))
                        (parts (ZipFile.extract_target target m0)))
    as [Hsame|Hdiff].
  - (* [m] goes where the first member went *)
    assert (Heq : ZipFile.extract_target target m
                  = ZipFile.extract_target target m0).
    { destruct (ZipFile.extract_target target m) as [r1 p1] eqn:E1.
      destruct (ZipFile.extract_target target m0) as [r0 p0] eqn:E0.
      cbn [parts] in Hsame. subst p1. f_equal.
      apply (f_equal root) in E1, E0. cbn in E1, E0. congruence. }
    assert (Hgm : ZipFile.getinfo es m = Some d0).
    { rewrite <- Hg. apply Hinj; [exact Hm | now left | exact Heq]. }
    exists d0. split; [exact Hgm|]. rewrite Heq, <- Hp.
    apply (extract_all_keeps es target p d0) in H;
      cbn [w_env w_trace e_fs e_clock set_fs] in *.
    + apply H.
    + intros m' Hm'. apply Hfile. now right.
    + intros m' Hm' Hto. rewrite <- Hg.
      apply Hinj; [now right | now left | congruence].
    + subst fs1. apply lookup_write_same.
  - destruct Hm as [->|Hm]; [congruence|].
    apply (IH _ _ _ _ H) with (m := m) in Hm;
      cbn [w_env w_trace e_fs e_clock set_fs] in *.
    + exact Hm.
    + intros m' Hm'. apply Hfile. now right.
    + intros m1 m2 H1 H2. apply Hinj; now right.
Qed.

End ExtractContents.

Section RoundTrip.
Import PyPath.

(** Where the entry made of proper components is put. *)
Lemma extract_target_join (target : Path) (l : list string) :
  l <> [] -> forallb proper_name l = true ->
  ZipFile.extract_target target (PyStr.join "/" l)
  = mkPath (root target) (parts (ZipFile.normpath target) ++ l).
Proof.
  intros Hne Hp. unfold ZipFile.extract_target.
  rewrite (sanitize_join l Hne Hp). unfold ZipFile.normpath at 1.
  cbn [root parts]. rewrite fold_left_app.
  destruct (proper_names l Hp) as [_ [Hvalid _]].
  now rewrite (normalise_valid _ _ Hvalid).
Qed.

Lemma restored_of_entry (fs : FS.t) (target source_path file : Path) :
  archivable fs source_path file ->
  ZipFile.extract_target target (entry_name source_path file)
  = restored_path target source_path file.
Proof.
  intros [_ [Hu Hp]]. rewrite (entry_name_join _ _ Hu Hp).
  destruct (under_shape _ _ Hu) as [_ [Hne _]].
  now apply extract_target_join.
Qed.

Lemma restored_path_inj (target source_path f g : Path) :
  is_under source_path f = true -> is_under source_path g = true ->
  restored_path target source_path f = restored_path target source_path g ->
  f = g.
Proof.
  intros Hf Hg H. unfold restored_path in H. injection H as H.
  apply app_inv_head in H.
  destruct (under_shape _ _ Hf) as [Ef _], (under_shape _ _ Hg) as [Eg _].
  rewrite Ef, Eg, H. reflexivity.
Qed.

Lemma entry_of_file (fs : FS.t) (source_path : Path) (files : list Path)
      (f : Path) :
  Forall (archivable fs source_path) files -> In f files ->
  ZipFile.getinfo
    (map (fun f => (entry_name source_path f, file_content fs f)) files)
    (entry_name source_path f)
  = Some (file_content fs f).
Proof.
  intros Hall Hf. rewrite Forall_forall in Hall.
  destruct (getinfo_found
              (map (fun f => (entry_name source_path f, file_content fs f))
                   files)
              (entry_name source_path f)) as [d [Hg Hin]].
  { exists (file_content fs f).
    apply (in_map (fun f => (entry_name source_path f, file_content fs f))).
    exact Hf. }
  rewrite Hg. apply in_map_iff in Hin as [g [Heq Hgin]].
  injection Heq as Hname <-.
  assert (g = f) as ->; [|reflexivity].
  pose proof (Hall _ Hf) as Af. pose proof (Hall _ Hgin) as Ag.
  apply (restored_path_inj source_path source_path);
    [apply Ag | apply Af|].
  rewrite <- (restored_of_entry fs _ _ _ Af), <- (restored_of_entry fs _ _ _ Ag).
  now rewrite Hname.
Qed.

Context {R : Type} (self : BackupManager R)
        (deflated_size : Z -> ZipFile.entries -> Z).

(** The archive a successful [_create_archive] leaves at a fresh path. *)
Lemma create_archive_ok (source_path archive_path : Path)
      (files : list Path) (w w1 : World R) :
  FS.exists_ (e_fs (w_env w)) archive_path = false ->
  Forall (archivable (e_fs (w_env w)) source_path) files ->
  Manager._create_archive self deflated_size source_path files archive_path w
  = (Ok tt, w1) ->
  e_clock (w_env w1) = e_clock (w_env w)
  /\ exists n t,
      FS.lookup (e_fs (w_env w1)) archive_path
      = Some (File (ZipArchive
                      (map (fun f => (entry_name source_path f,
                                      file_content (e_fs (w_env w)) f)) files)
                      n) t).
Proof.
  intros Hfresh Hall. unfold Manager._create_archive. run_monad.
  destruct (FS.open_write (e_clock (w_env w)) (e_fs (w_env w)) archive_path _)
    as [fs1|x] eqn:Hopen; [|discriminate].
  cbn [w_env w_trace e_fs e_clock set_fs].
  pose proof (open_write_ok _ _ _ _ _ Hopen) as Hfs1.
  rewrite Forall_forall in Hall.
  assert (Hsame : forall f, In f files ->
            FS.lookup fs1 f = FS.lookup (e_fs (w_env w)) f).
  { intros f Hf. subst fs1. apply lookup_write_other. intros ->.
    destruct (Hall _ Hf) as [Hfile _]. unfold FS.is_file, FS.exists_ in *.
    destruct (FS.lookup (e_fs (w_env w)) archive_path); discriminate. }
  assert (Hpre : Forall (fun f => relative_to f source_path <> None
                                  /\ FS.is_file fs1 f = true) files).
  { apply Forall_forall. intros f Hf. destruct (Hall _ Hf) as [Hfile [Hu _]].
    split; [now apply under_relative|].
    unfold FS.is_file. now rewrite (Hsame f Hf). }
  assert (Hes : Manager.archive_entries (compression_level (config self))
                  fs1 source_path files []
                = (Ok tt,
                   map (fun f => (entry_name source_path f,
                                  file_content fs1 f)) files)
                \/ exists es,
                    Manager.archive_entries (compression_level (config self))
                      fs1 source_path files []
                    = (Raise (ValueError InvalidInitializationOption), es)).
  { destruct (ZipFile.valid_level (compression_level (config self))) eqn:Hlevel.
    - left. exact (archive_entries_spec _ fs1 source_path files Hlevel Hpre []).
    - destruct files as [|f rest]; [left; reflexivity|]. right. exists [].
      inversion Hpre as [|? ? [Hrel Hfile] _]; subst.
      now apply archive_entries_refused. }
  destruct Hes as [Hes|[es Hes]]; rewrite Hes;
    cbn [app w_env w_trace e_fs e_clock set_fs]; [|discriminate].
  intros H. injection H as <-. cbn [w_env w_trace e_fs e_clock set_fs].
  split; [reflexivity|]. eexists _, _. rewrite lookup_write_same.
  do 3 f_equal. apply map_ext_in. intros f Hf. unfold file_content.
  now rewrite (Hsame f Hf).
Qed.

End RoundTrip.

(** Archiving and extracting give the files back: when [_create_archive]
    has written the files of a source directory to a fresh archive path
    and [_extract_archive] of that archive returns, it returns one path
    per archived file, the file's path relative to the source put below
    the target, and at each of these paths there is a file with the
    content the source file had when it was archived.  The files are
    regular files below the source whose relative path has no empty, [.]
    or [..] component. *)
Theorem archive_then_extract_restores_contents :
  forall (R : Type) (self : BackupManager R)
         (deflated_size : Z -> ZipFile.entries -> Z)
         (source_path archive_path target_path : PyPath.Path)
         (files extracted : list PyPath.Path) (w w1 w2 : World R),
    FS.exists_ (e_fs (w_env w)) archive_path = false ->
    Forall (archivable (e_fs (w_env w)) source_path) files ->
    Manager._create_archive self deflated_size source_path files
                            archive_path w = (Ok tt, w1) ->
    Manager._extract_archive archive_path target_path w1
    = (Ok extracted, w2) ->
    extracted = map (restored_path target_path source_path) files
    /\ forall f, In f files ->
         exists t,
           FS.lookup (e_fs (w_env w2))
                     (restored_path target_path source_path f)
           = Some (File (file_content (e_fs (w_env w)) f) t).
Proof.
  intros R self deflated_size source_path archive_path target_path
         files extracted w w1 w2 Hfresh Hall Hcreate Hextract.
  destruct (create_archive_ok self deflated_size _ _ _ _ _ Hfresh Hall Hcreate)
    as [_ [n [t Harch]]].
  set (fs := e_fs (w_env w)) in *.
  set (es := map (fun f => (entry_name source_path f, file_content fs f))
                 files) in *.
  assert (Hnames : ZipFile.namelist es = map (entry_name source_path) files).
  { unfold ZipFile.namelist, es. rewrite map_map. reflexivity. }
  assert (Hto : map (ZipFile.extract_target target_path)
                    (map (entry_name source_path) files)
                = map (restored_path target_path source_path) files).
  { rewrite map_map. apply map_ext_in. intros f Hf.
    rewrite Forall_forall in Hall. apply (restored_of_entry fs), Hall, Hf. }
  revert Hextract. unfold Manager._extract_archive. run_monad.
  destruct (FS.makedirs (e_clock (w_env w1)) (e_fs (w_env w1)) target_path)
    as [fs2|x] eqn:Emk; [|discriminate].
  cbn [w_env w_trace e_fs e_clock set_fs].
  unfold ZipFile.open_read.
  rewrite (makedirs_keep _ _ _ _ _ _ Emk Harch). rewrite Hnames.
  intros Hextract. split.
  - apply extract_all_spec in Hextract as [_ [Hfiles _]].
    rewrite (Hfiles extracted eq_refl). cbn [app]. exact Hto.
  - intros f Hf.
    destruct (extract_all_contents es target_path _ _ _ _ _ Hextract)
      with (m := entry_name source_path f) as [d [Hg Hl]].
    + intros m Hm. apply in_map_iff in Hm as [g [<- Hgin]].
      rewrite Forall_forall in Hall. destruct (Hall _ Hgin) as [_ [Hu Hp]].
      rewrite (entry_name_join _ _ Hu Hp).
      destruct (under_shape _ _ Hu) as [_ [Hne _]].
      now apply join_is_no_directory.
    + intros m m' Hm Hm' Heq.
      apply in_map_iff in Hm as [g [<- Hgin]].
      apply in_map_iff in Hm' as [g' [<- Hgin']].
      pose proof Hall as Hall'. rewrite Forall_forall in Hall'.
      rewrite (restored_of_entry fs _ _ _ (Hall' _ Hgin)),
              (restored_of_entry fs _ _ _ (Hall' _ Hgin')) in Heq.
      apply restored_path_inj in Heq;
        [now subst g' | apply (Hall' _ Hgin) | apply (Hall' _ Hgin')].
    + now apply in_map.
    + unfold es in Hg. rewrite (entry_of_file fs _ _ _ Hall Hf) in Hg.
      injection Hg as <-.
      pose proof Hall as Hall'. rewrite Forall_forall in Hall'.
      rewrite (restored_of_entry fs _ _ _ (Hall' _ Hf)) in Hl.
      eexists. exact Hl.
Qed.

Lemma archive_then_extract_restores_contents_witness :
  let source_path := PyPath.parse "/path/to" in
  let target_path := PyPath.parse "/restore" in
  let archive_path := PyPath.parse "/tmp/out.zip" in
  let files := [PyPath.parse "/path/to/file.log";
                PyPath.parse "/path/to/temp/file.txt"] in
  let w := Sample.world_of Sample.fs_tree in
  let w1 := snd (Manager._create_archive Sample.plain_manager
                   Sample.deflated_size source_path files archive_path w) in
  let w2 := snd (Manager._extract_archive archive_path target_path w1) in
  [PyPath.parse "/restore/file.log"; PyPath.parse "/restore/temp/file.txt"]
  = map (restored_path target_path source_path) files
  /\ forall f, In f files ->
       exists t,
         FS.lookup (e_fs (w_env w2)) (restored_path target_path source_path f)
         = Some (File (file_content (e_fs (w_env w)) f) t).
Proof.
  intros source_path target_path archive_path files w w1 w2.
  apply (archive_then_extract_restores_contents unit Sample.plain_manager
           Sample.deflated_size source_path archive_path target_path files
           _ w w1 w2).
  - vm_compute. reflexivity.
  - repeat (constructor; [repeat split; vm_compute; reflexivity|]).
    constructor.
  - vm_compute. reflexivity.
  - vm_compute. reflexivity.
Defined.
